(** * Market-stress alert engine: rules, cooldown store and regime classifier

    A shallow embedding of [src/data.py], [src/indicators.py],
    [src/rules.py], [src/storage.py] and [src/regime.py], followed by the
    properties of the engine that the specification states; then of the
    process around them, [src/telegram.py], [src/main_alerts.py] and
    [src/main_daily.py], with further properties of the code.

    Modelling conventions.
    - Python [float] and [int] values are exact rationals ([Q]); every
      comparison of the source is the corresponding comparison on [Q].
    - A Python [dict] is a finite map ([gmap]); [d.get(k)] is lookup and
      [d.get(k, default)] is lookup with a default.
    - [Optional[T]] is [option T]; [None] is [None].
    - Code that can raise returns an [outcome]: [Ok v] for a normal return,
      [Raise e] for a propagated exception.  [try]/[except] is [try_except].
    - The wall clock ([datetime.now()]) and the state file are explicit
      arguments: a naive datetime is its number of microseconds since
      0001-01-01T00:00:00. *)

From Stdlib Require Import QArith Qabs Qminmax ZArith String Ascii List DecimalString Lia.
From stdpp Require Import gmap strings list fin_maps sorting.

#[local] Set Warnings "-register-all".

(** ** Python values and control flow *)

Module Py.

(** An exception instance, of a class that derives from [Exception]: its
    class name and its message ([str(e)]). *)
Record exn := Exn { exn_class : string; exn_msg : string }.

Inductive outcome (A : Type) : Type :=
| Ok (a : A)
| Raise (e : exn).
Arguments Ok {A} a.
Arguments Raise {A} e.

#[global] Instance outcome_ret : MRet outcome := fun A a => Ok a.

#[global] Instance outcome_bind : MBind outcome := fun A B k m =>
  match m with
  | Ok a => k a
  | Raise e => Raise e
  end.

(** [try: body  except Exception as e: handler e]. *)
Definition try_except {A} (body : outcome A) (handler : exn -> outcome A) : outcome A :=
  match body with
  | Ok a => Ok a
  | Raise e => handler e
  end.

Definition TypeError (msg : string) : exn := Exn "TypeError" msg.
Definition ValueError (msg : string) : exn := Exn "ValueError" msg.
Definition AttributeError (msg : string) : exn := Exn "AttributeError" msg.

(** Rational comparisons as booleans. *)
Definition Qleb (x y : Q) : bool := Qle_bool x y.
Definition Qltb (x y : Q) : bool := negb (Qle_bool y x).
Definition Qgeb (x y : Q) : bool := Qle_bool y x.
Definition Qgtb (x y : Q) : bool := negb (Qle_bool x y).

(** [str(n)] for a non-negative integer. *)
Definition str_of_N (n : N) : string := NilEmpty.string_of_uint (N.to_uint n).

(** [str(z)] for an integer. *)
Definition str_of_Z (z : Z) : string :=
  if (z <? 0)%Z then ("-" ++ str_of_N (Z.abs_N z))%string else str_of_N (Z.to_N z).

(** Round to the nearest integer, ties to the even one (what [round], the
    [.1f] format and [timedelta] do). *)
Definition round_half_even (q : Q) : Z :=
  let n := Qnum q in
  let d := Zpos (Qden q) in
  let fl := (n / d)%Z in
  let r2 := (2 * (n mod d))%Z in
  if (r2 <? d)%Z then fl
  else if (d <? r2)%Z then (fl + 1)%Z
  else if Z.even fl then fl else (fl + 1)%Z.

(** [f"{q:.1f}"]: sign, integer part, one decimal digit. *)
Definition format_1f (q : Q) : string :=
  let tenths := Z.to_N (round_half_even (Qabs q * 10)) in
  ((if Qltb q 0 then "-" else "") ++
   str_of_N (tenths / 10) ++ "." ++ str_of_N (tenths mod 10))%string.

(** [needle in haystack] on two strings. *)
Definition str_contains (needle haystack : string) : bool :=
  match String.index 0 needle haystack with
  | Some _ => true
  | None => false
  end.

End Py.

(** ** src/data.py *)

Module Data.

Record SymbolData := {
  symbol : string;
  current_price : Q;
  previous_close : Q;
  intraday_change_pct : Q;
  change_5d_pct : option Q;
  high_52w : option Q;
  low_52w : option Q;
  sma_200 : option Q;
  name : string
}.

Record MarketSnapshot := {
  timestamp : Z;
  data : gmap string SymbolData
}.

(** [MarketSnapshot.get] *)
Definition get (self : MarketSnapshot) (sym : string) : option SymbolData :=
  data self !! sym.

End Data.

(** ** src/indicators.py *)

Module Indicators.
Import Data.

Definition get_drawdown_from_high (symbol_data : SymbolData) : option Q :=
  match high_52w symbol_data with
  | None => None
  | Some high =>
      if Qeq_bool high 0 then None
      else Some (((current_price symbol_data - high) / high) * 100)%Q
  end.

Definition get_5d_return (symbol_data : SymbolData) : option Q :=
  change_5d_pct symbol_data.

Definition get_intraday_change (symbol_data : SymbolData) : Q :=
  intraday_change_pct symbol_data.

Definition is_below_200dma (symbol_data : SymbolData) : bool :=
  match sma_200 symbol_data with
  | None => false
  | Some sma => Py.Qltb (current_price symbol_data) sma
  end.

End Indicators.

(** ** src/rules.py *)

Module Rules.
Import Py Data Indicators.
#[local] Open Scope string_scope.

Inductive Severity := CRITICAL | HIGH | MEDIUM | LOW.

(** [Severity.value] *)
Definition severity_value (s : Severity) : string :=
  match s with
  | CRITICAL => "critical"
  | HIGH => "high"
  | MEDIUM => "medium"
  | LOW => "low"
  end.

(** The configuration document: the numeric entries of its [rules] section,
    the one list-valued entry of that section, and its [cooldowns] section
    (minutes).  A section that is missing from the document is the empty
    map, which is what [config.get(section, {})] makes of it. *)
Record Config := {
  cfg_rules : gmap string Q;
  cfg_spy_drawdown_levels : option (list Q);
  cfg_cooldowns : gmap string Q
}.

(** The dictionary [load_config] returns when there is no [config.yml]. *)
Definition default_config : Config := {|
  cfg_rules :=
    <["credit_stress_intraday" := (-1.5)%Q]>
    (<["credit_stress_5d" := (-3.0)%Q]>
    (<["liquidity_stress_intraday" := 1.0%Q]>
    (<["liquidity_stress_5d" := 2.0%Q]>
    (<["volatility_level" := 30%Q]>
    (<["volatility_spike" := 8%Q]>
    (<["growth_weakness_threshold" := (-1.5)%Q]>
    (<["smallcap_weakness_threshold" := (-2.0)%Q]>
    (<["defensive_hedge_bid" := 1.5%Q]>
    (<["rate_shock_bps" := 15%Q]> ∅)))))))));
  cfg_spy_drawdown_levels := Some [(-2)%Q; (-4)%Q; (-6)%Q; (-10)%Q; (-15)%Q; (-20)%Q];
  cfg_cooldowns :=
    <["critical" := 45%Q]>
    (<["high" := 90%Q]>
    (<["medium" := 240%Q]>
    (<["low" := 1440%Q]> ∅)))
|}.

(** [load_config]: the parsed [config.yml] when there is one, the defaults
    otherwise. *)
Definition load_config (config_yml : option Config) : Config :=
  match config_yml with
  | Some config => config
  | None => default_config
  end.

(** [get_threshold]; the module-global configuration is the argument
    [config]. *)
Definition get_threshold (config : Config) (key : string) (default_value : Q) : Q :=
  default default_value (cfg_rules config !! key).

Definition cooldown_defaults : gmap string Q :=
  <["critical" := 45%Q]> (<["high" := 90%Q]> (<["medium" := 240%Q]> (<["low" := 1440%Q]> ∅))).

Definition get_cooldown_minutes (config : Config) (severity : Severity) : Q :=
  default (default 60%Q (cooldown_defaults !! severity_value severity))
          (cfg_cooldowns config !! severity_value severity).

(** The values a predicate writes into its context dictionary. *)
Inductive CtxVal :=
| CNum (q : Q)
| CStr (s : string)
| CDict (d : gmap string Q).

Abbreviation Ctx := (gmap string CtxVal).

(** A predicate reads the configuration and the snapshot, may write into
    the context, and returns a boolean or raises. *)
Abbreviation Check := (Config -> MarketSnapshot -> Ctx -> outcome (bool * Ctx)).

Record Rule := {
  name : string;
  severity : Severity;
  category : string;
  description : string;
  check : Check;
  message_template : string
}.

Record TriggeredRule := {
  rule : Rule;
  value : option CtxVal;
  symbol : option CtxVal;
  extra_context : option CtxVal
}.

(** *** Rule definitions *)

Definition check_credit_stress_intraday : Check := fun config snapshot ctx =>
  match get snapshot "HYG" with
  | None => Ok (false, ctx)
  | Some hyg =>
      let threshold := get_threshold config "credit_stress_intraday" (-1.5) in
      let triggered := Qleb (intraday_change_pct hyg) threshold in
      if triggered
      then Ok (true, <["symbol" := CStr "HYG"]>
                       (<["value" := CNum (intraday_change_pct hyg)]> ctx))
      else Ok (false, ctx)
  end.

Definition check_credit_stress_5d : Check := fun config snapshot ctx =>
  match get snapshot "HYG" with
  | None => Ok (false, ctx)
  | Some hyg =>
      match change_5d_pct hyg with
      | None => Ok (false, ctx)
      | Some change_5d =>
          let threshold := get_threshold config "credit_stress_5d" (-3.0) in
          let triggered := Qleb change_5d threshold in
          if triggered
          then Ok (true, <["symbol" := CStr "HYG"]> (<["value" := CNum change_5d]> ctx))
          else Ok (false, ctx)
      end
  end.

Definition check_liquidity_stress_intraday : Check := fun config snapshot ctx =>
  match get snapshot "DX-Y.NYB" with
  | None => Ok (false, ctx)
  | Some dxy =>
      let threshold := get_threshold config "liquidity_stress_intraday" 1.0 in
      let triggered := Qgeb (intraday_change_pct dxy) threshold in
      if triggered
      then Ok (true, <["symbol" := CStr "DXY"]>
                       (<["value" := CNum (intraday_change_pct dxy)]> ctx))
      else Ok (false, ctx)
  end.

Definition check_liquidity_stress_5d : Check := fun config snapshot ctx =>
  match get snapshot "DX-Y.NYB" with
  | None => Ok (false, ctx)
  | Some dxy =>
      match change_5d_pct dxy with
      | None => Ok (false, ctx)
      | Some change_5d =>
          let threshold := get_threshold config "liquidity_stress_5d" 2.0 in
          let triggered := Qgeb change_5d threshold in
          if triggered
          then Ok (true, <["symbol" := CStr "DXY"]> (<["value" := CNum change_5d]> ctx))
          else Ok (false, ctx)
      end
  end.

Definition check_volatility_elevated : Check := fun config snapshot ctx =>
  match get snapshot "^VIX" with
  | None => Ok (false, ctx)
  | Some vix =>
      let threshold := get_threshold config "volatility_level" 30 in
      let triggered := Qgeb (current_price vix) threshold in
      if triggered
      then Ok (true, <["symbol" := CStr "VIX"]>
                       (<["value" := CNum (current_price vix)]> ctx))
      else Ok (false, ctx)
  end.

Definition check_volatility_spike : Check := fun config snapshot ctx =>
  match get snapshot "^VIX" with
  | None => Ok (false, ctx)
  | Some vix =>
      let threshold := get_threshold config "volatility_spike" 8 in
      let triggered := Qgeb (intraday_change_pct vix) threshold in
      if triggered
      then Ok (true, <["symbol" := CStr "VIX"]>
                       (<["value" := CNum (intraday_change_pct vix)]> ctx))
      else Ok (false, ctx)
  end.

Definition check_growth_weakness : Check := fun config snapshot ctx =>
  match get snapshot "QQQ", get snapshot "SPY" with
  | Some qqq, Some spy =>
      let threshold := get_threshold config "growth_weakness_threshold" (-1.5) in
      let relative_perf := (intraday_change_pct qqq - intraday_change_pct spy)%Q in
      let triggered := Qleb relative_perf threshold in
      if triggered
      then Ok (true, <["extra" := CDict (<["spy" := intraday_change_pct spy]>
                                          (<["qqq" := intraday_change_pct qqq]> ∅))]>
                       (<["value" := CNum relative_perf]> ctx))
      else Ok (false, ctx)
  | _, _ => Ok (false, ctx)
  end.

Definition check_smallcap_weakness : Check := fun config snapshot ctx =>
  match get snapshot "IWM", get snapshot "SPY" with
  | Some iwm, Some spy =>
      let threshold := get_threshold config "smallcap_weakness_threshold" (-2.0) in
      let relative_perf := (intraday_change_pct iwm - intraday_change_pct spy)%Q in
      let triggered := Qleb relative_perf threshold in
      if triggered
      then Ok (true, <["extra" := CDict (<["spy" := intraday_change_pct spy]>
                                          (<["iwm" := intraday_change_pct iwm]> ∅))]>
                       (<["value" := CNum relative_perf]> ctx))
      else Ok (false, ctx)
  | _, _ => Ok (false, ctx)
  end.

Definition check_defensive_hedge_bid : Check := fun config snapshot ctx =>
  match get snapshot "GLD", get snapshot "TLT" with
  | Some gld, Some tlt =>
      let threshold := get_threshold config "defensive_hedge_bid" 1.5 in
      let triggered := Qgeb (intraday_change_pct gld) threshold
                       && Qgeb (intraday_change_pct tlt) threshold in
      if triggered
      then Ok (true, <["extra" := CDict (<["tlt" := intraday_change_pct tlt]>
                                          (<["gld" := intraday_change_pct gld]> ∅))]> ctx)
      else Ok (false, ctx)
  | _, _ => Ok (false, ctx)
  end.

Definition check_combined_stress : Check := fun config snapshot ctx =>
  match get snapshot "SPY", get snapshot "TLT" with
  | Some spy, Some tlt =>
      let triggered := Qleb (intraday_change_pct spy) (-2.5)
                       && Qltb (intraday_change_pct tlt) 0 in
      if triggered
      then Ok (true, <["extra" := CDict (<["tlt" := intraday_change_pct tlt]>
                                          (<["spy" := intraday_change_pct spy]> ∅))]> ctx)
      else Ok (false, ctx)
  | _, _ => Ok (false, ctx)
  end.

Definition check_risk_appetite_positive : Check := fun config snapshot ctx =>
  match get snapshot "SPY", get snapshot "QQQ" with
  | Some spy, Some qqq =>
      let triggered := Qgeb (intraday_change_pct spy) 1.5
                       && Qgeb (intraday_change_pct qqq) (intraday_change_pct spy) in
      if triggered
      then Ok (true, <["extra" := CDict (<["qqq" := intraday_change_pct qqq]>
                                          (<["spy" := intraday_change_pct spy]> ∅))]> ctx)
      else Ok (false, ctx)
  | _, _ => Ok (false, ctx)
  end.

Definition check_btc_major_move : Check := fun config snapshot ctx =>
  match get snapshot "BTC-USD" with
  | None => Ok (false, ctx)
  | Some btc =>
      let triggered := Qgeb (Qabs (intraday_change_pct btc)) 8.0 in
      if triggered
      then Ok (true, <["symbol" := CStr "BTC"]>
                       (<["value" := CNum (intraday_change_pct btc)]> ctx))
      else Ok (false, ctx)
  end.

(** Factory for the SPY drawdown rules. *)
Definition create_drawdown_checker (level : Q) : Check := fun config snapshot ctx =>
  match get snapshot "SPY" with
  | None => Ok (false, ctx)
  | Some spy =>
      match get_drawdown_from_high spy with
      | None => Ok (false, ctx)
      | Some drawdown =>
          let triggered := Qleb drawdown level in
          if triggered
          then Ok (true, <["symbol" := CStr "SPY"]> (<["value" := CNum drawdown]> ctx))
          else Ok (false, ctx)
      end
  end.

(** *** The registry *)

Definition STATIC_RULES : list Rule := [
  {| name := "CREDIT_STRESS_INTRADAY";
     severity := CRITICAL;
     category := "Stress";
     description := "High yield bonds dropping sharply intraday";
     check := check_credit_stress_intraday;
     message_template := "Credit Stress: HYG {value:.1f}% intraday - credit spreads widening" |};
  {| name := "COMBINED_STRESS";
     severity := CRITICAL;
     category := "Stress";
     description := "Both equities and bonds selling off together";
     check := check_combined_stress;
     message_template := "Combined Stress: SPY {spy:.1f}% and TLT {tlt:.1f}% - nowhere to hide" |};
  {| name := "CREDIT_STRESS_5D";
     severity := HIGH;
     category := "Stress";
     description := "Sustained high yield weakness over 5 days";
     check := check_credit_stress_5d;
     message_template := "Credit Stress (5D): HYG {value:.1f}% over 5 days - sustained spread widening" |};
  {| name := "LIQUIDITY_STRESS_INTRADAY";
     severity := HIGH;
     category := "Stress";
     description := "Dollar spiking sharply (liquidity tightening)";
     check := check_liquidity_stress_intraday;
     message_template := "Liquidity Stress: DXY +{value:.1f}% intraday - dollar squeeze" |};
  {| name := "LIQUIDITY_STRESS_5D";
     severity := HIGH;
     category := "Stress";
     description := "Sustained dollar strength over 5 days";
     check := check_liquidity_stress_5d;
     message_template := "Liquidity Stress (5D): DXY +{value:.1f}% over 5 days - sustained tightening" |};
  {| name := "VOLATILITY_ELEVATED";
     severity := HIGH;
     category := "Stress";
     description := "VIX at elevated fear levels";
     check := check_volatility_elevated;
     message_template := "Volatility Elevated: VIX at {value:.1f} - fear gauge elevated" |};
  {| name := "VOLATILITY_SPIKE";
     severity := HIGH;
     category := "Stress";
     description := "VIX spiking sharply intraday";
     check := check_volatility_spike;
     message_template := "Volatility Spike: VIX +{value:.1f}% intraday - sudden fear" |};
  {| name := "GROWTH_WEAKNESS";
     severity := MEDIUM;
     category := "Leadership";
     description := "Growth/tech underperforming broad market";
     check := check_growth_weakness;
     message_template := "Growth Weakness: QQQ underperforming SPY by {value:.1f}%" |};
  {| name := "SMALLCAP_WEAKNESS";
     severity := MEDIUM;
     category := "Leadership";
     description := "Small caps underperforming (risk-off signal)";
     check := check_smallcap_weakness;
     message_template := "Small Cap Weakness: IWM underperforming SPY by {value:.1f}%" |};
  {| name := "DEFENSIVE_HEDGE_BID";
     severity := MEDIUM;
     category := "Sentiment";
     description := "Flight to safety into gold and treasuries";
     check := check_defensive_hedge_bid;
     message_template := "Defensive Bid: GLD +{gld:.1f}% and TLT +{tlt:.1f}% - flight to safety" |};
  {| name := "RISK_APPETITE_POSITIVE";
     severity := LOW;
     category := "Sentiment";
     description := "Positive risk appetite with growth leading";
     check := check_risk_appetite_positive;
     message_template := "Risk-On: SPY +{spy:.1f}% with QQQ +{qqq:.1f}% - growth leading" |};
  {| name := "BTC_MAJOR_MOVE";
     severity := LOW;
     category := "Sentiment";
     description := "Major Bitcoin move (risk sentiment proxy)";
     check := check_btc_major_move;
     message_template := "Crypto Signal: BTC {value:+.1f}% - major move in risk sentiment proxy" |}
].

Definition DRAWDOWN_LEVELS : list Z := [-2; -4; -6; -10; -15; -20]%Z.

(** The body of the loop that appends the SPY drawdown rules. *)
Definition drawdown_rule (level : Z) : Rule :=
  let abs_level := Z.abs level in
  let severity := if (abs_level <=? 6)%Z then MEDIUM else HIGH in
  {| name := "SPY_DRAWDOWN_" ++ str_of_Z abs_level ++ "PCT";
     severity := severity;
     category := "Opportunity";
     description := "SPY drawdown at " ++ str_of_Z abs_level ++ "% from 52-week high";
     check := create_drawdown_checker (inject_Z level);
     message_template :=
       "Drawdown Alert: SPY {value:.1f}% from high - " ++ str_of_Z abs_level ++ "% threshold" |}.

(** The registry once the module is loaded. *)
Definition RULES : list Rule := STATIC_RULES ++ map drawdown_rule DRAWDOWN_LEVELS.

(** *** The evaluator *)

(** The state of the loop: the rules triggered so far and the lines printed
    so far. *)
Abbreviation EvalState := (list TriggeredRule * list string)%type.

(** One iteration of the loop of [evaluate_rules], on a fresh context. *)
Definition evaluate_rule (config : Config) (snapshot : MarketSnapshot)
    (r : Rule) (st : EvalState) : outcome EvalState :=
  let '(triggered, stdout) := st in
  let ctx : Ctx := ∅ in
  try_except
    ('(fired, ctx) ← check r config snapshot ctx;
     if fired : bool
     then Ok ((triggered ++ [ {| rule := r;
                                 value := ctx !! "value";
                                 symbol := ctx !! "symbol";
                                 extra_context := ctx !! "extra" |} ])%list, stdout)
     else Ok (triggered, stdout))
    (fun e => Ok (triggered,
                  (stdout ++ [("Error evaluating rule " ++ name r ++ ": " ++ exn_msg e)%string])%list)).

Fixpoint for_each_rule (config : Config) (snapshot : MarketSnapshot)
    (registry : list Rule) (st : EvalState) : outcome EvalState :=
  match registry with
  | [] => Ok st
  | r :: rest =>
      st' ← evaluate_rule config snapshot r st;
      for_each_rule config snapshot rest st'
  end.

(** [evaluate_rules], over the registry it finds in the module-global
    [RULES]; the result is the returned list and what was printed. *)
Definition evaluate_rules (registry : list Rule) (config : Config)
    (snapshot : MarketSnapshot) : outcome EvalState :=
  for_each_rule config snapshot registry ([], []).

Fixpoint get_rule_by_name (registry : list Rule) (n : string) : option Rule :=
  match registry with
  | [] => None
  | r :: rest => if String.eqb (name r) n then Some r else get_rule_by_name rest n
  end.

End Rules.

(** ** src/storage.py *)

Module Storage.
Import Py Rules.
#[local] Open Scope string_scope.

(** *** JSON documents and the Python operations the module applies to them *)

Inductive json :=
| JNull
| JBool (b : bool)
| JNum (q : Q)
| JStr (s : string)
| JArr (l : list json)
| JObj (m : gmap string json).

Definition type_name (v : json) : string :=
  match v with
  | JNull => "NoneType"
  | JBool _ => "bool"
  | JNum _ => "float"
  | JStr _ => "str"
  | JArr _ => "list"
  | JObj _ => "dict"
  end.

(** [container.get(key, default_value)] *)
Definition py_get (container : json) (key : string) (default_value : json) : outcome json :=
  match container with
  | JObj m => Ok (default default_value (m !! key))
  | _ => Raise (AttributeError ("'" ++ type_name container ++ "' object has no attribute 'get'"))
  end.

(** [key in container] *)
Definition py_contains (key : string) (container : json) : outcome bool :=
  match container with
  | JObj m => Ok (bool_decide (is_Some (m !! key)))
  | JArr l => Ok (existsb (fun v => match v with JStr s => String.eqb s key | _ => false end) l)
  | JStr s => Ok (str_contains key s)
  | _ => Raise (TypeError ("argument of type '" ++ type_name container ++ "' is not iterable"))
  end.

(** [container[key]] for a string key *)
Definition py_getitem (container : json) (key : string) : outcome json :=
  match container with
  | JObj m =>
      match m !! key with
      | Some v => Ok v
      | None => Raise (Exn "KeyError" key)
      end
  | JArr _ => Raise (TypeError "list indices must be integers or slices, not str")
  | JStr _ => Raise (TypeError "string indices must be integers, not 'str'")
  | _ => Raise (TypeError ("'" ++ type_name container ++ "' object is not subscriptable"))
  end.

(** [container[key] = v] for a string key *)
Definition py_setitem (container : json) (key : string) (v : json) : outcome json :=
  match container with
  | JObj m => Ok (JObj (<[key := v]> m))
  | JArr _ => Raise (TypeError "list indices must be integers or slices, not str")
  | _ => Raise (TypeError ("'" ++ type_name container ++
                           "' object does not support item assignment"))
  end.

(** *** Dates and durations *)

(** A [datetime]: microseconds since 0001-01-01T00:00:00 on its own wall
    clock, and for an offset-aware one its UTC offset in microseconds. *)
Inductive datetime :=
| Naive (us : Z)
| Aware (us : Z) (utcoffset : Z).

(** The two library functions the module relies on: [isoformat] of a naive
    datetime and [datetime.fromisoformat], which answers [None] where the
    library raises [ValueError]. *)
Class IsoCodec := {
  isoformat : Z -> string;
  fromisoformat : string -> option datetime
}.

(** [timedelta(minutes=m)], in microseconds. *)
Definition timedelta_minutes (m : Q) : Z := round_half_even (m * 60000000).

(** [a - b] on two datetimes, in microseconds. *)
Definition datetime_sub (a b : datetime) : outcome Z :=
  match a, b with
  | Naive x, Naive y => Ok (x - y)%Z
  | Aware x ox, Aware y oy => Ok ((x - ox) - (y - oy))%Z
  | _, _ => Raise (TypeError "can't subtract offset-naive and offset-aware datetimes")
  end.

(** *** The process and its surroundings *)

(** What opening and decoding the state file comes to. *)
Inductive StateFile :=
| Missing                (* [os.path.exists] answers false *)
| Unreadable             (* [open] or the read raises [IOError] *)
| Corrupted              (* [json.load] raises [JSONDecodeError] *)
| Document (v : json).   (* [json.load] returns [v] *)

Record World := {
  state_file : StateFile;
  writable : bool;        (* whether [open(state_path, 'w')] succeeds *)
  stdout : list string
}.

(** Computations that read and write the world and may raise. *)
Definition M (A : Type) : Type := World -> outcome A * World.

#[global] Instance M_ret : MRet M := fun A a w => (Ok a, w).

#[global] Instance M_bind : MBind M := fun A B k m w =>
  match m w with
  | (Ok a, w') => k a w'
  | (Raise e, w') => (Raise e, w')
  end.

Definition lift {A} (o : outcome A) : M A := fun w => (o, w).

(** [try: body  except (classes) as e: handler e] *)
Definition try_catch {A} (classes : list string) (body : M A) (handler : exn -> M A) : M A :=
  fun w =>
    match body w with
    | (Ok a, w') => (Ok a, w')
    | (Raise e, w') =>
        if existsb (String.eqb (exn_class e)) classes then handler e w' else (Raise e, w')
    end.

Definition print (line : string) : M unit := fun w =>
  (Ok tt, {| state_file := state_file w; writable := writable w;
             stdout := (stdout w ++ [line])%list |}).

(** [os.path.exists(state_path)] *)
Definition path_exists : M bool := fun w =>
  (Ok (match state_file w with Missing => false | _ => true end), w).

(** [with open(state_path, 'r') as f: json.load(f)] *)
Definition read_json : M json := fun w =>
  (match state_file w with
   | Document v => Ok v
   | Corrupted => Raise (Exn "JSONDecodeError" "Expecting value: line 1 column 1 (char 0)")
   | Unreadable => Raise (Exn "IOError" "[Errno 13] Permission denied: 'state.json'")
   | Missing => Raise (Exn "IOError" "[Errno 2] No such file or directory: 'state.json'")
   end, w).

(** [with open(state_path, 'w') as f: json.dump(state, f, indent=2, default=str)] *)
Definition write_json (state : json) : M unit := fun w =>
  if writable w
  then (Ok tt, {| state_file := Document state; writable := true; stdout := stdout w |})
  else (Raise (Exn "IOError" "[Errno 13] Permission denied: 'state.json'"), w).

(** *** The module's functions *)

Definition empty_state : json :=
  JObj (<["last_alerts" := JObj ∅]> (<["version" := JNum 1]> ∅)).

Definition load_state : M json :=
  loaded ← try_catch ["JSONDecodeError"; "IOError"]
             (found ← path_exists;
              if found : bool then v ← read_json; mret (Some v) else mret None)
             (fun e => print ("Warning: Could not load state file: " ++ exn_msg e);;
                       mret None);
  match loaded with
  | Some v => mret v
  | None => mret empty_state
  end.

Definition save_state (state : json) : M unit :=
  try_catch ["IOError"]
    (write_json state)
    (fun e => print ("Warning: Could not save state file: " ++ exn_msg e)).

Section WithCodec.
Context {codec : IsoCodec}.

(** [datetime.fromisoformat(v)] on whatever the document holds. *)
Definition py_fromisoformat (v : json) : outcome datetime :=
  match v with
  | JStr s =>
      match fromisoformat s with
      | Some d => Ok d
      | None => Raise (ValueError ("Invalid isoformat string: '" ++ s ++ "'"))
      end
  | _ => Raise (TypeError "fromisoformat: argument must be str")
  end.

Definition should_fire (config : Config) (now : Z)
    (rule_name : string) (severity : Severity) : M bool :=
  state ← load_state;
  last_alerts ← lift (py_get state "last_alerts" (JObj ∅));
  present ← lift (py_contains rule_name last_alerts);
  if negb present then mret true else
  last_fire_str ← lift (py_getitem last_alerts rule_name);
  parsed ← try_catch ["ValueError"; "TypeError"]
             (last_fire ← lift (py_fromisoformat last_fire_str); mret (Some last_fire))
             (fun _ => mret None);
  match parsed with
  | None => mret true
  | Some last_fire =>
      let cooldown_minutes := get_cooldown_minutes config severity in
      let cooldown_delta := timedelta_minutes cooldown_minutes in
      elapsed ← lift (datetime_sub (Naive now) last_fire);
      mret (cooldown_delta <=? elapsed)%Z
  end.

Definition record_fire (now : Z) (rule_name : string) : M unit :=
  state ← load_state;
  present ← lift (py_contains "last_alerts" state);
  state ← (if negb present then lift (py_setitem state "last_alerts" (JObj ∅))
           else mret state);
  (* state["last_alerts"][rule_name] = ...: the inner dictionary is updated
     in place, so the outer one sees the new entry *)
  last_alerts ← lift (py_getitem state "last_alerts");
  last_alerts ← lift (py_setitem last_alerts rule_name (JStr (isoformat now)));
  state ← lift (py_setitem state "last_alerts" last_alerts);
  save_state state.

Definition get_last_fire_time (rule_name : string) : M (option datetime) :=
  state ← load_state;
  last_alerts ← lift (py_get state "last_alerts" (JObj ∅));
  present ← lift (py_contains rule_name last_alerts);
  if negb present then mret None else
  last_fire_str ← lift (py_getitem last_alerts rule_name);
  try_catch ["ValueError"; "TypeError"]
    (last_fire ← lift (py_fromisoformat last_fire_str); mret (Some last_fire))
    (fun _ => mret None).

End WithCodec.

Definition clear_cooldowns : M unit := save_state empty_state.

End Storage.

(** ** src/regime.py *)

Module Regime.
Import Py Data Indicators.
#[local] Open Scope string_scope.

Inductive Regime := NORMAL | DEFENSIVE.

(** [Regime.value] *)
Definition regime_value (r : Regime) : string :=
  match r with
  | NORMAL => "NORMAL"
  | DEFENSIVE => "DEFENSIVE"
  end.

Record RegimeAssessment := {
  regime : Regime;
  triggers : list string;
  summary : string
}.

Definition default_thresholds : gmap string Q :=
  <["hyg_5d_threshold" := (-3.0)%Q]>
  (<["dxy_5d_threshold" := 2.0%Q]>
  (<["vix_level_threshold" := 30%Q]>
  (<["spy_tlt_combined_threshold" := (-2.5)%Q]> ∅))).

(** [load_regime_thresholds]: the [regime] section of [config.yml] when the
    file is there (the empty map when the file has no such section), the
    defaults otherwise. *)
Definition load_regime_thresholds (config_yml : option (gmap string Q)) : gmap string Q :=
  match config_yml with
  | Some regime_section => regime_section
  | None => default_thresholds
  end.

(** The five f-strings of [assess_regime]. *)

Definition credit_stress_message (change_5d : Q) : string :=
  "Credit stress: HYG 5D return " ++ format_1f change_5d ++ "%".

Definition liquidity_tightening_message (change_5d : Q) : string :=
  "Liquidity tightening: DXY 5D return +" ++ format_1f change_5d ++ "%".

Definition rising_volatility_message (vix_price vix_prev : Q) : string :=
  "Elevated and rising volatility: VIX " ++ format_1f vix_price ++
  " (prev: " ++ format_1f vix_prev ++ ")".

Definition elevated_volatility_message (vix_price : Q) : string :=
  "Elevated volatility: VIX " ++ format_1f vix_price.

Definition combined_stress_message (spy_change tlt_change : Q) : string :=
  "Combined stress: SPY " ++ format_1f spy_change ++
  "% and TLT " ++ format_1f tlt_change ++ "%".

Definition structural_weakness_message : string :=
  "Structural weakness: SPY below 200dma with rates rising".

(** The five checks of [assess_regime], each extending the list of triggers
    it is given. *)

Definition check_hyg_5d_stress (thresholds : gmap string Q)
    (snapshot : MarketSnapshot) (triggers : list string) : list string :=
  match get snapshot "HYG" with
  | Some hyg =>
      match change_5d_pct hyg with
      | Some change_5d =>
          let hyg_threshold := default (-3.0)%Q (thresholds !! "hyg_5d_threshold") in
          if Qleb change_5d hyg_threshold
          then (triggers ++ [credit_stress_message change_5d])%list
          else triggers
      | None => triggers
      end
  | None => triggers
  end.

Definition check_dxy_5d_strength (thresholds : gmap string Q)
    (snapshot : MarketSnapshot) (triggers : list string) : list string :=
  match get snapshot "DX-Y.NYB" with
  | Some dxy =>
      match change_5d_pct dxy with
      | Some change_5d =>
          let dxy_threshold := default 2.0%Q (thresholds !! "dxy_5d_threshold") in
          if Qgeb change_5d dxy_threshold
          then (triggers ++ [liquidity_tightening_message change_5d])%list
          else triggers
      | None => triggers
      end
  | None => triggers
  end.

(** [vix_previous_close] is what [get_vix_previous_close()] answers. *)
Definition check_vix_elevated_and_rising (thresholds : gmap string Q)
    (vix_previous_close : option Q)
    (snapshot : MarketSnapshot) (triggers : list string) : list string :=
  match get snapshot "^VIX" with
  | Some vix =>
      let vix_threshold := default 30%Q (thresholds !! "vix_level_threshold") in
      if Qgeb (current_price vix) vix_threshold
      then
        match vix_previous_close with
        | Some vix_prev =>
            if Qgtb (current_price vix) vix_prev
            then (triggers ++ [rising_volatility_message (current_price vix) vix_prev])%list
            else triggers
        | None =>
            (triggers ++ [elevated_volatility_message (current_price vix)])%list
        end
      else triggers
  | None => triggers
  end.

Definition check_combined_stress (thresholds : gmap string Q)
    (snapshot : MarketSnapshot) (triggers : list string) : list string :=
  match get snapshot "SPY", get snapshot "TLT" with
  | Some spy, Some tlt =>
      let spy_threshold := default (-2.5)%Q (thresholds !! "spy_tlt_combined_threshold") in
      if Qleb (intraday_change_pct spy) spy_threshold && Qltb (intraday_change_pct tlt) 0
      then (triggers ++ [combined_stress_message (intraday_change_pct spy)
                                                  (intraday_change_pct tlt)])%list
      else triggers
  | _, _ => triggers
  end.

Definition check_structural_weakness
    (snapshot : MarketSnapshot) (triggers : list string) : list string :=
  match get snapshot "SPY" with
  | Some spy =>
      if is_below_200dma spy
      then
        match get snapshot "^TNX" with
        | Some tnx =>
            if Qgtb (intraday_change_pct tnx) 0
            then (triggers ++ [structural_weakness_message])%list
            else triggers
        | None => triggers
        end
      else triggers
  | None => triggers
  end.

Definition assess_regime (config_yml : option (gmap string Q))
    (vix_previous_close : option Q) (snapshot : MarketSnapshot) : RegimeAssessment :=
  let thresholds := load_regime_thresholds config_yml in
  let triggers := [] in
  let triggers := check_hyg_5d_stress thresholds snapshot triggers in
  let triggers := check_dxy_5d_strength thresholds snapshot triggers in
  let triggers := check_vix_elevated_and_rising thresholds vix_previous_close snapshot triggers in
  let triggers := check_combined_stress thresholds snapshot triggers in
  let triggers := check_structural_weakness snapshot triggers in
  match triggers with
  | _ :: _ =>
      {| regime := DEFENSIVE;
         triggers := triggers;
         summary := "DEFENSIVE regime - " ++ str_of_N (N.of_nat (length triggers)) ++
                    " warning signal(s) active" |}
  | [] =>
      {| regime := NORMAL;
         triggers := triggers;
         summary := "NORMAL regime - no significant stress signals detected" |}
  end.

End Regime.

(** ** A reference implementation of the datetime text format

    [datetime.isoformat] and [datetime.fromisoformat] belong to the Python
    library.  The functions of [Storage] are stated over any implementation
    of them ([Storage.IsoCodec]); this one covers the texts that [isoformat]
    writes, [YYYY-MM-DDTHH:MM:SS] with an optional [.ffffff] and an optional
    [+HH:MM] or [-HH:MM], and serves to run the storage functions on
    concrete timestamps. *)

Module Iso8601.
Import Py Storage.
#[local] Open Scope Z_scope.

Definition US_PER_SECOND : Z := 1000000.
Definition US_PER_DAY : Z := 86400 * US_PER_SECOND.

Definition is_leap (y : Z) : bool :=
  ((y mod 4 =? 0) && negb (y mod 100 =? 0)) || (y mod 400 =? 0).

Definition days_in_month (y m : Z) : Z :=
  if m =? 2 then (if is_leap y then 29 else 28)
  else if (m =? 4) || (m =? 6) || (m =? 9) || (m =? 11) then 30
  else 31.

(** Day number of a civil date; day 0 is 0001-01-01. *)
Definition days_from_civil (y m d : Z) : Z :=
  let y' := if m <=? 2 then y - 1 else y in
  let era := y' / 400 in
  let yoe := y' mod 400 in
  let mp := (m + 9) mod 12 in
  let doy := (153 * mp + 2) / 5 + d - 1 in
  let doe := yoe * 365 + yoe / 4 - yoe / 100 + doy in
  era * 146097 + doe - 306.

(** Civil date (year, month, day) of a day number. *)
Definition civil_from_days (n : Z) : Z * Z * Z :=
  let z := n + 306 in
  let era := z / 146097 in
  let doe := z mod 146097 in
  let yoe := (doe - doe / 1460 + doe / 36524 - doe / 146096) / 365 in
  let doy := doe - (365 * yoe + yoe / 4 - yoe / 100) in
  let mp := (5 * doy + 2) / 153 in
  let d := doy - (153 * mp + 2) / 5 + 1 in
  let m := if mp <? 10 then mp + 3 else mp - 9 in
  let y := yoe + era * 400 + (if m <=? 2 then 1 else 0) in
  (y, m, d).

Fixpoint zeros (n : nat) : string :=
  match n with
  | O => EmptyString
  | S n' => String "0"%char (zeros n')
  end.

(** [f"{n:0{width}d}"] *)
Definition pad (width : nat) (n : Z) : string :=
  let s := str_of_N (Z.to_N n) in
  (zeros (width - String.length s) ++ s)%string.

Definition isoformat_naive (us : Z) : string :=
  let '(y, m, d) := civil_from_days (us / US_PER_DAY) in
  let rest := us mod US_PER_DAY in
  let secs := rest / US_PER_SECOND in
  let frac := rest mod US_PER_SECOND in
  (pad 4 y ++ "-" ++ pad 2 m ++ "-" ++ pad 2 d ++ "T" ++
   pad 2 (secs / 3600)%Z ++ ":" ++ pad 2 (secs / 60 mod 60)%Z ++ ":" ++
   pad 2 (secs mod 60)%Z ++
   (if (frac =? 0)%Z then "" else "." ++ pad 6 frac))%string.

Definition digit_value (c : ascii) : option Z :=
  let n := Z.of_nat (nat_of_ascii c) in
  if (48 <=? n) && (n <=? 57) then Some (n - 48) else None.

Fixpoint number_of (s : string) (acc : Z) : option Z :=
  match s with
  | EmptyString => Some acc
  | String c rest => d ← digit_value c; number_of rest (acc * 10 + d)
  end.

(** The decimal number written in the [len] characters of [s] from [start]. *)
Definition field (s : string) (start len : nat) : option Z :=
  let f := String.substring start len s in
  if Nat.eqb (String.length f) len then number_of f 0 else None.

Definition char_is (s : string) (pos : nat) (c : ascii) : bool :=
  match String.get pos s with
  | Some c' => Ascii.eqb c c'
  | None => false
  end.

(** The [YYYY-MM-DDTHH:MM:SS] at the start of [s], in microseconds. *)
Definition parse_seconds (s : string) : option Z :=
  y ← field s 0 4; m ← field s 5 2; d ← field s 8 2;
  hh ← field s 11 2; mm ← field s 14 2; ss ← field s 17 2;
  if char_is s 4 "-" && char_is s 7 "-" && char_is s 10 "T"
     && char_is s 13 ":" && char_is s 16 ":"
     && (1 <=? y) && (y <=? 9999) && (1 <=? m) && (m <=? 12)
     && (1 <=? d) && (d <=? days_in_month y m)
     && (hh <? 24) && (mm <? 60) && (ss <? 60)
  then Some (days_from_civil y m d * US_PER_DAY
             + ((hh * 60 + mm) * 60 + ss) * US_PER_SECOND)
  else None.

(** The optional [.ffffff] at position 19: the microseconds and where the
    rest of the text starts. *)
Definition parse_fraction (s : string) : option (Z * nat) :=
  if char_is s 19 "." then frac ← field s 20 6; Some (frac, 26%nat)
  else Some (0, 19%nat).

(** The optional UTC offset from position [pos] on. *)
Definition parse_offset (s : string) (pos : nat) : option (option Z) :=
  if Nat.eqb (String.length s) pos then Some None
  else if Nat.eqb (String.length s) (pos + 6) && char_is s (pos + 3) ":"
  then
    hh ← field s (pos + 1) 2; mm ← field s (pos + 4) 2;
    if (hh <? 24) && (mm <? 60)
    then
      let off := (hh * 60 + mm) * 60 * US_PER_SECOND in
      if char_is s pos "+" then Some (Some off)
      else if char_is s pos "-" then Some (Some (- off))
      else None
    else None
  else None.

Definition fromisoformat_text (s : string) : option datetime :=
  t ← parse_seconds s;
  '(frac, pos) ← parse_fraction s;
  off ← parse_offset s pos;
  match off with
  | None => Some (Naive (t + frac))
  | Some o => Some (Aware (t + frac) o)
  end.

#[global] Instance reference_codec : IsoCodec := {|
  isoformat := isoformat_naive;
  fromisoformat := fromisoformat_text
|}.

End Iso8601.

(** ** src/storage.py, the debugging view *)

Module StorageStatus.
Import Py Rules Storage.
#[local] Open Scope string_scope.

(** One entry of the dictionary [get_cooldown_status] returns. *)
Inductive CooldownStatus :=
| Elapsed (last_fire : json) (elapsed_minutes : Q)
| InvalidTimestamp (last_fire : json).

(** [elapsed.total_seconds() / 60] for a duration in microseconds. *)
Definition total_minutes (elapsed : Z) : Q := (inject_Z elapsed / 1000000 / 60)%Q.

(** [container.items()] *)
Definition py_items (container : json) : outcome (list (string * json)) :=
  match container with
  | JObj m => Ok (map_to_list m)
  | _ => Raise (AttributeError ("'" ++ type_name container ++
                                "' object has no attribute 'items'"))
  end.

(** [try: body  except (classes): handler] on a computation that leaves the
    world alone. *)
Definition catch {A} (classes : list string) (body : outcome A) (handler : outcome A)
    : outcome A :=
  match body with
  | Ok a => Ok a
  | Raise e => if existsb (String.eqb (exn_class e)) classes then handler else Raise e
  end.

Section WithCodec.
Context {codec : IsoCodec}.

(** The body of the loop of [get_cooldown_status]: the parse and the
    subtraction are both inside the [try]. *)
Definition status_entry (now : Z) (last_fire_str : json) : outcome CooldownStatus :=
  catch ["ValueError"; "TypeError"]
    (last_fire ← py_fromisoformat last_fire_str;
     elapsed ← datetime_sub (Naive now) last_fire;
     Ok (Elapsed last_fire_str (total_minutes elapsed)))
    (Ok (InvalidTimestamp last_fire_str)).

Fixpoint status_loop (now : Z) (items : list (string * json))
    (status : gmap string CooldownStatus) : outcome (gmap string CooldownStatus) :=
  match items with
  | [] => Ok status
  | (rule_name, last_fire_str) :: rest =>
      entry ← status_entry now last_fire_str;
      status_loop now rest (<[rule_name := entry]> status)
  end.

Definition get_cooldown_status (now : Z) : M (gmap string CooldownStatus) :=
  state ← load_state;
  last_alerts ← lift (py_get state "last_alerts" (JObj ∅));
  items ← lift (py_items last_alerts);
  lift (status_loop now items ∅).

End WithCodec.
End StorageStatus.

(** ** The process around the modules

    The entry points fetch prices, post to the chat, read the clock and
    print.  A [Process] holds what they act on: the state file and standard
    output of [Storage], the environment, the price histories the data
    provider answers, the Bot API as a function of the requests so far, and
    the readings of the clock, one for each point where the program may ask
    for the time.  Prices stay exact rationals; a division by zero, which
    the floating-point library answers with [inf] or [nan], is outside what
    a record of rationals can hold. *)

Module Runtime.
Import Py Storage.
#[local] Open Scope string_scope.

(** One row of the price history a ticker answers. *)
Record Bar := { Close : Q; High : Q; Low : Q }.

(** The JSON body of a [sendMessage] call and the request that carries it. *)
Record Payload := {
  chat_id : string;
  text : string;
  parse_mode : string;
  disable_web_page_preview : bool
}.

Record Request := { url : string; payload : Payload }.

(** What [requests.post] followed by [raise_for_status] and [json] comes to. *)
Inductive Response :=
| Timeout                                      (* [requests.exceptions.Timeout] *)
| RequestException (msg : string)              (* any other [RequestException] *)
| Reply (ok : bool) (description : option string).
                                               (* the decoded object: [ok] and [description] *)

Record Process := {
  os : World;                                        (* the state file and standard output *)
  environ : gmap string string;                      (* [os.environ] *)
  history : string -> string -> outcome (list Bar);  (* [yf.Ticker(symbol).history(period=...)] *)
  api : list Request -> Request -> Response;         (* the Bot API, after the requests before *)
  posted : list Request;                             (* the requests posted so far *)
  clock : nat -> Z;                                  (* the successive readings of the clock *)
  clock_reads : nat
}.

(** Computations of the whole process. *)
Definition IO (A : Type) : Type := Process -> outcome A * Process.

#[global] Instance IO_ret : MRet IO := fun A a p => (Ok a, p).

#[global] Instance IO_bind : MBind IO := fun A B k m p =>
  match m p with
  | (Ok a, p') => k a p'
  | (Raise e, p') => (Raise e, p')
  end.

Definition with_os (p : Process) (w : World) : Process :=
  {| os := w; environ := environ p; history := history p; api := api p;
     posted := posted p; clock := clock p; clock_reads := clock_reads p |}.

(** A computation of the storage module, run by the process. *)
Definition on_os {A} (m : M A) : IO A := fun p =>
  let '(r, w) := m (os p) in (r, with_os p w).

Definition say (line : string) : IO unit := on_os (print line).

Definition raise {A} (e : exn) : IO A := fun p => (Raise e, p).

Definition pure {A} (o : outcome A) : IO A := fun p => (o, p).

(** [datetime.now()] *)
Definition datetime_now : IO Z := fun p =>
  (Ok (clock p (clock_reads p)),
   {| os := os p; environ := environ p; history := history p; api := api p;
      posted := posted p; clock := clock p; clock_reads := S (clock_reads p) |}).

(** [sys.exit(code)] *)
Definition sys_exit {A} (code : Z) : IO A := raise (Exn "SystemExit" (str_of_Z code)).

End Runtime.

(** ** src/data.py, the fetching half *)

Module Fetch.
Import Py Data Storage Runtime.
#[local] Open Scope string_scope.

Definition SYMBOLS : list (string * string) := [
  ("SPY", "S&P 500 ETF");
  ("QQQ", "Nasdaq-100 ETF");
  ("IWM", "Russell 2000 ETF");
  ("^TNX", "10-Year Treasury Yield");
  ("TLT", "20+ Year Treasury ETF");
  ("HYG", "High Yield Corp Bond ETF");
  ("^VIX", "Volatility Index");
  ("DX-Y.NYB", "US Dollar Index");
  ("GLD", "Gold ETF");
  ("BTC-USD", "Bitcoin")
].

(** [column.iloc[-k]]; the program guards every index by a length test. *)
Definition iloc_back (column : list Q) (k : nat) : Q := nth (k - 1) (rev column) 0%Q.

(** [column.max()] and [column.min()] of a column that is not empty. *)
Definition column_max (column : list Q) : option Q :=
  match column with
  | [] => None
  | x :: rest => Some (fold_left Qmax rest x)
  end.

Definition column_min (column : list Q) : option Q :=
  match column with
  | [] => None
  | x :: rest => Some (fold_left Qmin rest x)
  end.

(** [column.tail(n)] *)
Definition tail (n : nat) (column : list Q) : list Q :=
  skipn (length column - n) column.

(** [column.mean()] *)
Definition mean (column : list Q) : Q :=
  (fold_left Qplus column 0 / inject_Z (Z.of_nat (length column)))%Q.

(** The body of the [try] of [fetch_symbol_data], on the history it got. *)
Definition symbol_data_of (sym name : string) (hist : list Bar) : option SymbolData :=
  if bool_decide (hist = []) then None else
  let closes := map Close hist in
  let current_price := iloc_back closes 1 in
  let previous_close :=
    if (2 <=? length hist)%nat then iloc_back closes 2 else current_price in
  let intraday_change_pct := (((current_price - previous_close) / previous_close) * 100)%Q in
  let change_5d_pct :=
    if (6 <=? length hist)%nat
    then let price_5d_ago := iloc_back closes 6 in
         Some (((current_price - price_5d_ago) / price_5d_ago) * 100)%Q
    else None in
  let high_52w := column_max (map High hist) in
  let low_52w := column_min (map Low hist) in
  let sma_200 :=
    if (200 <=? length hist)%nat then Some (mean (tail 200 closes)) else None in
  Some {| symbol := sym;
          current_price := current_price;
          previous_close := previous_close;
          intraday_change_pct := intraday_change_pct;
          change_5d_pct := change_5d_pct;
          high_52w := high_52w;
          low_52w := low_52w;
          sma_200 := sma_200;
          Data.name := name |}.

Definition fetch_symbol_data (sym name : string) : IO (option SymbolData) := fun p =>
  match history p sym "1y" with
  | Ok hist => (Ok (symbol_data_of sym name hist), p)
  | Raise e => (say ("Error fetching " ++ sym ++ ": " ++ exn_msg e);; mret None) p
  end.

(** The loop of [fetch_market_snapshot]. *)
Fixpoint fetch_each (symbols : list (string * string)) (data : gmap string SymbolData)
    : IO (gmap string SymbolData) :=
  match symbols with
  | [] => mret data
  | (sym, name) :: rest =>
      symbol_data ← fetch_symbol_data sym name;
      match symbol_data with
      | Some d => fetch_each rest (<[sym := d]> data)
      | None => fetch_each rest data
      end
  end.

Definition fetch_market_snapshot : IO MarketSnapshot :=
  data ← fetch_each SYMBOLS ∅;
  now ← datetime_now;
  mret {| timestamp := now; data := data |}.

Definition get_vix_previous_close : IO (option Q) := fun p =>
  match history p "^VIX" "5d" with
  | Ok hist =>
      if (2 <=? length hist)%nat
      then (Ok (Some (iloc_back (map Close hist) 2)), p)
      else (Ok None, p)
  | Raise _ => (Ok None, p)
  end.

End Fetch.

(** ** src/telegram.py *)

Module Telegram.
Import Py Storage Runtime.
#[local] Open Scope string_scope.

Definition get_credentials : IO (option string * option string) := fun p =>
  (Ok (environ p !! "TELEGRAM_BOT_TOKEN", environ p !! "TELEGRAM_CHAT_ID"), p).

(** [not s] on an optional string. *)
Definition missing (s : option string) : bool :=
  match s with
  | None => true
  | Some s => String.eqb s ""
  end.

(** [requests.post(url, json=payload, timeout=30)] and the decoding of the
    answer. *)
Definition requests_post (request : Request) : IO Response := fun p =>
  (Ok (api p (posted p) request),
   {| os := os p; environ := environ p; history := history p; api := api p;
      posted := (posted p ++ [request])%list; clock := clock p;
      clock_reads := clock_reads p |}).

Definition send_message (text parse_mode : string) : IO bool :=
  '(bot_token, chat_id) ← get_credentials;
  if missing bot_token || missing chat_id
  then say "Error: TELEGRAM_BOT_TOKEN or TELEGRAM_CHAT_ID not set";; mret false
  else
    let url := "https://api.telegram.org/bot" ++ default "" bot_token ++ "/sendMessage" in
    let payload := {| Runtime.chat_id := default "" chat_id;
                      Runtime.text := text;
                      Runtime.parse_mode := parse_mode;
                      disable_web_page_preview := true |} in
    response ← requests_post {| Runtime.url := url; Runtime.payload := payload |};
    match response with
    | Reply true _ => mret true
    | Reply false description =>
        say ("Telegram API error: " ++ default "Unknown error" description);; mret false
    | Timeout => say "Error: Telegram API request timed out";; mret false
    | RequestException msg => say ("Error sending Telegram message: " ++ msg);; mret false
    end.

(** [s.replace(old, "")] for a one-character [old]. *)
Fixpoint remove_char (old : ascii) (s : string) : string :=
  match s with
  | EmptyString => EmptyString
  | String c rest =>
      if Ascii.eqb c old then remove_char old rest else String c (remove_char old rest)
  end.

Definition send_message_safe (text : string) : IO bool :=
  sent ← send_message text "Markdown";
  if sent : bool then mret true else
  let plain_text := remove_char "`" (remove_char "_" (remove_char "*" text)) in
  send_message plain_text "".

End Telegram.

(** ** src/main_alerts.py *)

Module MainAlerts.
Import Py Data Rules Storage Runtime Fetch Telegram.
#[local] Open Scope string_scope.

Definition severity_order : gmap string Z :=
  <["critical" := 0%Z]> (<["high" := 1%Z]> (<["medium" := 2%Z]> (<["low" := 3%Z]> ∅))).

(** The sort key of an alert. *)
Definition sort_key (tr : TriggeredRule) : Z :=
  default 99%Z (severity_order !! severity_value (severity (rule tr))).

(** [list.sort(key=...)]: a stable sort, written as the insertion of every
    element, in order, behind the elements that do not sort after it. *)
Fixpoint insert_sorted {A} (key : A -> Z) (x : A) (sorted : list A) : list A :=
  match sorted with
  | [] => [x]
  | y :: rest =>
      if (key y <=? key x)%Z then y :: insert_sorted key x rest else x :: y :: rest
  end.

Definition list_sort {A} (key : A -> Z) (l : list A) : list A :=
  fold_left (fun sorted x => insert_sorted key x sorted) l [].

Fixpoint say_all (lines : list string) : IO unit :=
  match lines with
  | [] => mret tt
  | line :: rest => say line;; say_all rest
  end.

Definition count {A} (l : list A) : string := str_of_N (N.of_nat (length l)).

Section WithSurroundings.
Context {codec : IsoCodec}.
(** The registry and the configuration the rules module holds; the two
    renderers, as functions of the clock reading they take. *)
Variable registry : list Rule.
Variable config : Config.
Variable render_alert : Z -> TriggeredRule -> MarketSnapshot -> outcome string.
Variable render_multiple_alerts : Z -> list TriggeredRule -> MarketSnapshot -> outcome string.

(** The loop that filters by cooldowns. *)
Fixpoint filter_by_cooldown (triggered alerts_to_send : list TriggeredRule)
    : IO (list TriggeredRule) :=
  match triggered with
  | [] => mret alerts_to_send
  | tr :: rest =>
      now ← datetime_now;
      fire ← on_os (should_fire config now (Rules.name (rule tr)) (severity (rule tr)));
      if fire : bool
      then say ("  FIRE: " ++ Rules.name (rule tr) ++ " (" ++
                severity_value (severity (rule tr)) ++ ")");;
           filter_by_cooldown rest (alerts_to_send ++ [tr])%list
      else say ("  SKIP (cooldown): " ++ Rules.name (rule tr));;
           filter_by_cooldown rest alerts_to_send
  end.

(** The loop that sends the alerts one by one. *)
Fixpoint send_each (alerts_to_send : list TriggeredRule) (snapshot : MarketSnapshot)
    : IO unit :=
  match alerts_to_send with
  | [] => mret tt
  | tr :: rest =>
      now ← datetime_now;
      message ← pure (render_alert now tr snapshot);
      success ← send_message_safe message;
      (if success : bool
       then now ← datetime_now;
            on_os (record_fire now (Rules.name (rule tr)));;
            say ("  Sent: " ++ Rules.name (rule tr))
       else say ("  FAILED: " ++ Rules.name (rule tr)));;
      send_each rest snapshot
  end.

(** The loop that records every alert of a combined message. *)
Fixpoint record_each (alerts_to_send : list TriggeredRule) : IO unit :=
  match alerts_to_send with
  | [] => mret tt
  | tr :: rest =>
      now ← datetime_now;
      on_os (record_fire now (Rules.name (rule tr)));;
      record_each rest
  end.

Definition main : IO unit :=
  say "Fetching market data...";;
  snapshot ← fetch_market_snapshot;
  (if bool_decide (data snapshot = ∅)
   then say "Error: No market data fetched";; sys_exit 1
   else mret tt);;
  say ("Data fetched for " ++ str_of_N (N.of_nat (size (data snapshot))) ++ " symbols");;
  say "Evaluating rules...";;
  '(triggered, errors) ← pure (evaluate_rules registry config snapshot);
  say_all errors;;
  match triggered with
  | [] => say "No rules triggered"
  | _ :: _ =>
      say (count triggered ++ " rule(s) triggered before cooldown check");;
      alerts_to_send ← filter_by_cooldown triggered [];
      match alerts_to_send with
      | [] => say "All triggered rules are in cooldown"
      | _ :: _ =>
          let alerts_to_send := list_sort sort_key alerts_to_send in
          say ("Sending " ++ count alerts_to_send ++ " alert(s)...");;
          (if (length alerts_to_send <=? 3)%nat
           then send_each alerts_to_send snapshot
           else
             now ← datetime_now;
             message ← pure (render_multiple_alerts now alerts_to_send snapshot);
             success ← send_message_safe message;
             if success : bool
             then record_each alerts_to_send;;
                  say ("  Sent combined alert with " ++ count alerts_to_send ++ " signals")
             else say "  FAILED to send combined alert");;
          say "Done"
      end
  end.

End WithSurroundings.
End MainAlerts.

(** ** src/main_daily.py *)

Module MainDaily.
Import Py Data Rules Regime Storage Runtime Fetch Telegram MainAlerts.
#[local] Open Scope string_scope.

Section WithSurroundings.
(** The registry and the configuration the rules module holds, the [regime]
    section of the configuration file, and the renderer of the report. *)
Variable registry : list Rule.
Variable config : Config.
Variable regime_config : option (gmap string Q).
Variable render_daily_report :
  MarketSnapshot -> RegimeAssessment -> list TriggeredRule -> outcome string.

Definition main : IO unit :=
  say "Fetching market data...";;
  snapshot ← fetch_market_snapshot;
  (if bool_decide (data snapshot = ∅)
   then say "Error: No market data fetched";; sys_exit 1
   else mret tt);;
  say ("Data fetched for " ++ str_of_N (N.of_nat (size (data snapshot))) ++ " symbols");;
  say "Assessing market regime...";;
  vix_previous_close ← get_vix_previous_close;
  let regime := assess_regime regime_config vix_previous_close snapshot in
  say ("Regime: " ++ regime_value (Regime.regime regime));;
  say_all (map (fun trigger => "  - " ++ trigger) (triggers regime));;
  say "Evaluating rules...";;
  '(triggered, errors) ← pure (evaluate_rules registry config snapshot);
  say_all errors;;
  say (count triggered ++ " rule(s) triggered");;
  say "Rendering daily report...";;
  report ← pure (render_daily_report snapshot regime triggered);
  say "Sending daily report...";;
  success ← send_message_safe report;
  (if success : bool
   then say "Daily report sent successfully"
   else say "Failed to send daily report";; sys_exit 1);;
  say "Done".

End WithSurroundings.
End MainDaily.

(** * Statements

    What follows restates the specification over the definitions above.
    The modules [RulesSpec], [StorageSpec] and [RegimeSpec] hold the
    vocabulary of the statements, [Samples] the concrete inputs they are
    run on. *)

Module RulesSpec.
Import Py Data Indicators Rules.
#[local] Open Scope string_scope.

(** What one rule contributes to the returned list: its record when its
    predicate returns true, nothing when it returns false or raises. *)
Definition contribution (config : Config) (snapshot : MarketSnapshot) (r : Rule)
    : list TriggeredRule :=
  match check r config snapshot ∅ with
  | Ok (true, ctx) =>
      [ {| rule := r; value := ctx !! "value"; symbol := ctx !! "symbol";
           extra_context := ctx !! "extra" |} ]
  | _ => []
  end.

(** The line printed for one rule: none unless its predicate raises. *)
Definition complaint (config : Config) (snapshot : MarketSnapshot) (r : Rule)
    : list string :=
  match check r config snapshot ∅ with
  | Raise e => ["Error evaluating rule " ++ name r ++ ": " ++ exn_msg e]
  | Ok _ => []
  end.

Definition contributions config snapshot (registry : list Rule) : list TriggeredRule :=
  flat_map (contribution config snapshot) registry.

Definition complaints config snapshot (registry : list Rule) : list string :=
  flat_map (complaint config snapshot) registry.

(** The names in the list a run returned. *)
Definition triggered_names (result : outcome EvalState) : option (list string) :=
  match result with
  | Ok (triggered, _) => Some (map (fun t => name (rule t)) triggered)
  | Raise _ => None
  end.

(** [r] is in the triggered set of [triggered] with headline value [v]. *)
Definition triggers_with (triggered : list TriggeredRule) (n : string) (v : Q) : Prop :=
  exists t, In t triggered /\ name (rule t) = n /\ value t = Some (CNum v).

Definition not_triggered (triggered : list TriggeredRule) (n : string) : Prop :=
  forall t, In t triggered -> name (rule t) <> n.

(** The configuration with one entry of its [rules] section overridden. *)
Definition override (key : string) (v : Q) (config : Config) : Config :=
  {| cfg_rules := <[key := v]> (cfg_rules config);
     cfg_spy_drawdown_levels := cfg_spy_drawdown_levels config;
     cfg_cooldowns := cfg_cooldowns config |}.

(** A predicate whose answer depends on the configuration: two
    configurations tell it apart on some snapshot. *)
Definition config_sensitive (c : Check) : Prop :=
  exists config1 config2 snapshot, c config1 snapshot ∅ <> c config2 snapshot ∅.

(** A predicate that no configuration can change. *)
Definition config_blind (c : Check) : Prop :=
  forall config1 config2 snapshot ctx, c config1 snapshot ctx = c config2 snapshot ctx.

(** A predicate that reads its threshold under [key] with default [d]:
    without the key it behaves as with [key := d], and overriding the key
    changes its answer on some snapshot. *)
Definition reads_threshold (c : Check) (key : string) (d : Q) : Prop :=
  (forall config snapshot ctx,
      cfg_rules config !! key = None ->
      c config snapshot ctx = c (override key d config) snapshot ctx) /\
  (exists v snapshot,
      c (override key v default_config) snapshot ∅ <> c default_config snapshot ∅).

(** The boolean a predicate answered. *)
Definition answer (o : outcome (bool * Ctx)) : option bool :=
  match o with
  | Ok (b, _) => Some b
  | Raise _ => None
  end.

(** The predicate of the rule registered under a name. *)
Definition registered_check (n : string) : option Check :=
  check <$> get_rule_by_name RULES n.

(** The specification's sentence: the threshold of every rule in the
    registry can be changed through the configuration. *)
Definition every_threshold_configurable : Prop :=
  forall n c, registered_check n = Some c -> config_sensitive c.

(** A predicate fires when it returns true. *)
Definition fires (c : Check) (config : Config) (snapshot : MarketSnapshot) : Prop :=
  exists ctx, c config snapshot ∅ = Ok (true, ctx).

(** The rules whose predicate calls [get_threshold]: rule name,
    configuration key, default written at the call. *)
Definition CONFIGURED_THRESHOLDS : list (string * string * Q) := [
  ("CREDIT_STRESS_INTRADAY", "credit_stress_intraday", (-1.5)%Q);
  ("CREDIT_STRESS_5D", "credit_stress_5d", (-3.0)%Q);
  ("LIQUIDITY_STRESS_INTRADAY", "liquidity_stress_intraday", 1.0%Q);
  ("LIQUIDITY_STRESS_5D", "liquidity_stress_5d", 2.0%Q);
  ("VOLATILITY_ELEVATED", "volatility_level", 30%Q);
  ("VOLATILITY_SPIKE", "volatility_spike", 8%Q);
  ("GROWTH_WEAKNESS", "growth_weakness_threshold", (-1.5)%Q);
  ("SMALLCAP_WEAKNESS", "smallcap_weakness_threshold", (-2.0)%Q);
  ("DEFENSIVE_HEDGE_BID", "defensive_hedge_bid", 1.5%Q)
].

(** The rules whose predicate compares against a literal. *)
Definition FIXED_THRESHOLDS : list string :=
  ["COMBINED_STRESS"; "RISK_APPETITE_POSITIVE"; "BTC_MAJOR_MOVE"].

(** The entry of [CONFIGURED_THRESHOLDS] is right: the rule is registered,
    its predicate reads the key with that default, and the defaults of
    [load_config] list the key with the same value. *)
Definition threshold_documented (entry : string * string * Q) : Prop :=
  let '(n, key, d) := entry in
  exists c, registered_check n = Some c /\
            reads_threshold c key d /\
            cfg_rules default_config !! key = Some d.

Definition threshold_fixed (n : string) : Prop :=
  exists c, registered_check n = Some c /\ config_blind c.

End RulesSpec.

Module RegimeSpec.
Import Py Data Indicators Regime.
#[local] Open Scope string_scope.

(** The five trigger conditions in the specification's words; each is the
    trigger's explanation when the condition holds and [None] when it does
    not. *)

(** 1. Credit stress: the 5-day change of the high-yield-bond instrument is
    at or below the threshold (default -3.0). *)
Definition credit_stress (thresholds : gmap string Q) (snapshot : MarketSnapshot)
    : option string :=
  hyg ← get snapshot "HYG";
  change_5d ← change_5d_pct hyg;
  if Qleb change_5d (default (-3.0)%Q (thresholds !! "hyg_5d_threshold"))
  then Some (credit_stress_message change_5d) else None.

(** 2. Liquidity tightening: the 5-day change of the dollar index is at or
    above the threshold (default +2.0). *)
Definition liquidity_tightening (thresholds : gmap string Q) (snapshot : MarketSnapshot)
    : option string :=
  dxy ← get snapshot "DX-Y.NYB";
  change_5d ← change_5d_pct dxy;
  if Qgeb change_5d (default 2.0%Q (thresholds !! "dxy_5d_threshold"))
  then Some (liquidity_tightening_message change_5d) else None.

(** 3. Elevated and rising volatility: the level is at or above the
    threshold (default 30) and above the previous close; on the level alone
    when there is no previous close. *)
Definition elevated_volatility (thresholds : gmap string Q) (vix_previous_close : option Q)
    (snapshot : MarketSnapshot) : option string :=
  vix ← get snapshot "^VIX";
  if Qgeb (current_price vix) (default 30%Q (thresholds !! "vix_level_threshold"))
  then match vix_previous_close with
       | Some vix_prev =>
           if Qgtb (current_price vix) vix_prev
           then Some (rising_volatility_message (current_price vix) vix_prev)
           else None
       | None => Some (elevated_volatility_message (current_price vix))
       end
  else None.

(** 4. Combined stress: large-cap equity at or below the threshold (default
    -2.5) and the long treasury down on the day. *)
Definition combined_stress (thresholds : gmap string Q) (snapshot : MarketSnapshot)
    : option string :=
  spy ← get snapshot "SPY";
  tlt ← get snapshot "TLT";
  if Qleb (intraday_change_pct spy)
          (default (-2.5)%Q (thresholds !! "spy_tlt_combined_threshold"))
     && Qltb (intraday_change_pct tlt) 0
  then Some (combined_stress_message (intraday_change_pct spy) (intraday_change_pct tlt))
  else None.

(** 5. Structural weakness: large-cap equity below its 200-session average
    and the 10-year yield up on the day. *)
Definition structural_weakness (snapshot : MarketSnapshot) : option string :=
  spy ← get snapshot "SPY";
  tnx ← get snapshot "^TNX";
  if is_below_200dma spy && Qgtb (intraday_change_pct tnx) 0
  then Some structural_weakness_message else None.

(** What a condition adds to the list of triggers. *)
Definition added (condition : option string) : list string :=
  match condition with
  | Some msg => [msg]
  | None => []
  end.

(** The explanations of the conditions that hold, in the order above. *)
Definition active_triggers (thresholds : gmap string Q) (vix_previous_close : option Q)
    (snapshot : MarketSnapshot) : list string :=
  flat_map added [ credit_stress thresholds snapshot;
                   liquidity_tightening thresholds snapshot;
                   elevated_volatility thresholds vix_previous_close snapshot;
                   combined_stress thresholds snapshot;
                   structural_weakness snapshot ].

(** The one-line summary for a number of active triggers. *)
Definition summary_for (count : nat) : string :=
  match count with
  | O => "NORMAL regime - no significant stress signals detected"
  | S _ => "DEFENSIVE regime - " ++ str_of_N (N.of_nat count) ++ " warning signal(s) active"
  end.

(** A trigger explanation of the volatility check. *)
Definition volatility_message (msg : string) : Prop :=
  (exists level prev, msg = rising_volatility_message level prev) \/
  (exists level, msg = elevated_volatility_message level).

(** The threshold the volatility check compares against. *)
Definition vix_level_threshold (config_yml : option (gmap string Q)) : Q :=
  default 30%Q (load_regime_thresholds config_yml !! "vix_level_threshold").

End RegimeSpec.

Module StorageSpec.
Import Py Rules Storage.
#[local] Open Scope string_scope.

(** The result of a computation and the world it leaves. *)
Definition result {A} (m : M A) (w : World) : outcome A := fst (m w).
Definition world_after {A} (m : M A) (w : World) : World := snd (m w).

(** The last-fire entry the persisted state holds for a rule. *)
Definition last_alert (f : StateFile) (rule_name : string) : option json :=
  match f with
  | Document (JObj state) =>
      match state !! "last_alerts" with
      | Some (JObj last_alerts) => last_alerts !! rule_name
      | _ => None
      end
  | _ => None
  end.

(** The schema version the persisted state holds. *)
Definition schema_version (f : StateFile) : option json :=
  match f with
  | Document (JObj state) => state !! "version"
  | _ => None
  end.

(** A state file [record_fire] can extend: none, or one that cannot be read
    or decoded, or a JSON object whose [last_alerts], if any, is a JSON
    object. *)
Definition extendable (f : StateFile) : Prop :=
  match f with
  | Document (JObj state) =>
      match state !! "last_alerts" with
      | Some (JObj _) | None => True
      | Some _ => False
      end
  | Document _ => False
  | Missing | Unreadable | Corrupted => True
  end.

(** A stored value that [datetime.fromisoformat] rejects: not a string
    ([TypeError]) or a string it cannot parse ([ValueError]). *)
Definition malformed_timestamp `{IsoCodec} (v : json) : Prop :=
  match v with
  | JStr s => fromisoformat s = None
  | _ => True
  end.

(** The state file cannot be used: it cannot be opened or read, or what it
    holds is not JSON. *)
Definition corrupted_or_unreadable (f : StateFile) : Prop :=
  f = Corrupted \/ f = Unreadable.


(** The entries a state holds before a fire is added to it. *)
Definition entries_of (state : gmap string json) : gmap string json :=
  match state !! "last_alerts" with
  | Some (JObj last_alerts) => last_alerts
  | _ => ∅
  end.

Definition ONE_SECOND : Z := 1000000.

(** The cooldown window of a severity, in microseconds. *)
Definition cooldown_window (config : Config) (severity : Severity) : Z :=
  timedelta_minutes (get_cooldown_minutes config severity).

Section Pure.
Context {codec : IsoCodec}.

(** The answer of [should_fire] once the state is loaded. *)
Definition verdict (config : Config) (now : Z) (rule_name : string)
    (severity : Severity) (state : json) : outcome bool :=
  last_alerts ← py_get state "last_alerts" (JObj ∅);
  present ← py_contains rule_name last_alerts;
  if negb present then Ok true else
  last_fire_str ← py_getitem last_alerts rule_name;
  match py_fromisoformat last_fire_str with
  | Raise _ => Ok true
  | Ok last_fire =>
      elapsed ← datetime_sub (Naive now) last_fire;
      Ok (cooldown_window config severity <=? elapsed)%Z
  end.

(** The state [record_fire] saves, from the state it loaded. *)
Definition with_fire (now : Z) (rule_name : string) (state : json) : outcome json :=
  present ← py_contains "last_alerts" state;
  state ← (if negb present then py_setitem state "last_alerts" (JObj ∅) else Ok state);
  last_alerts ← py_getitem state "last_alerts";
  last_alerts ← py_setitem last_alerts rule_name (JStr (isoformat now));
  py_setitem state "last_alerts" last_alerts.

End Pure.
End StorageSpec.

Module IndicatorsSpec.
Import Data Indicators.

(** The specification's sentence about the sign of the drawdown of a
    record: at or below the 52-week high, the drawdown is not positive. *)
Definition drawdown_never_positive (m : SymbolData) : Prop :=
  forall high d,
    high_52w m = Some high -> (current_price m <= high)%Q ->
    get_drawdown_from_high m = Some d -> (d <= 0)%Q.

End IndicatorsSpec.

Module EndToEndSpec.
Import Py Data Rules RulesSpec Regime.
#[local] Open Scope string_scope.

(** The specification's end-to-end sentence about a snapshot: the rules
    trigger CREDIT_STRESS_INTRADAY and nothing else, and the regime is
    DEFENSIVE with exactly one reason, which mentions credit stress.  The
    configuration is the default one. *)
Definition hyg_selloff_claim (snapshot : MarketSnapshot) (vix_previous_close : option Q)
    : Prop :=
  triggered_names (evaluate_rules RULES default_config snapshot) =
    Some ["CREDIT_STRESS_INTRADAY"] /\
  let a := assess_regime None vix_previous_close snapshot in
  regime a = DEFENSIVE /\
  exists msg, triggers a = [msg] /\ str_contains "Credit stress" msg = true.

(** The snapshot that holds the one instrument [hyg], under the key HYG. *)
Definition hyg_only (ts : Z) (hyg : SymbolData) : MarketSnapshot :=
  {| timestamp := ts; data := {[ "HYG" := hyg ]} |}.

End EndToEndSpec.

Module Samples.
Import Py Data Indicators Rules Storage.
#[local] Open Scope string_scope.

(** A quote with no history beyond the previous close. *)
Definition quote (sym : string) (price change : Q) (change_5d : option Q) : SymbolData :=
  {| Data.symbol := sym;
     current_price := price;
     previous_close := (price / (1 + change / 100))%Q;
     intraday_change_pct := change;
     change_5d_pct := change_5d;
     high_52w := None;
     low_52w := None;
     sma_200 := None;
     Data.name := sym |}.

Definition snapshot_of (quotes : list SymbolData) : MarketSnapshot :=
  {| timestamp := 63840911400000000;
     data := list_to_map (map (fun q => (Data.symbol q, q)) quotes) |}.

(** High-yield bonds down 2.0% on the day, nothing else fetched, too little
    history for a 5-day change. *)
Definition hyg_selloff : MarketSnapshot :=
  EndToEndSpec.hyg_only 63840911400000000 (quote "HYG" 75.5 (-2.0) None).

(** The same day after a week of selling. *)
Definition hyg_selloff_after_bad_week : SymbolData :=
  quote "HYG" 75.5 (-2.0) (Some (-3.5)%Q).

(** A record whose prices are negative, as the quote of a spread or of a
    futures contract can be: now at -2, never above -1 in the year. *)
Definition below_zero : SymbolData :=
  {| Data.symbol := "CL=F"; current_price := (-2)%Q; previous_close := (-1.5)%Q;
     intraday_change_pct := 33.3%Q; change_5d_pct := None;
     high_52w := Some (-1)%Q; low_52w := Some (-2)%Q; sma_200 := None;
     Data.name := "Crude Oil" |}.

(** The large-cap ETF ten percent below its 52-week high. *)
Definition spy_correction : SymbolData :=
  {| Data.symbol := "SPY"; current_price := 450; previous_close := 455;
     intraday_change_pct := (-1.1)%Q; change_5d_pct := Some (-4.2)%Q;
     high_52w := Some 500%Q; low_52w := Some 410%Q; sma_200 := Some 470%Q;
     Data.name := "S&P 500 ETF" |}.

(** A quiet day: every instrument present, no default threshold reached. *)
Definition calm_snapshot : MarketSnapshot :=
  snapshot_of [
    quote "SPY" 500 0 (Some 0.5%Q);
    quote "QQQ" 430 (-1.0) (Some 0.2%Q);
    quote "IWM" 200 (-1.0) (Some 0.1%Q);
    quote "^TNX" 4.2 0.3 (Some 0.4%Q);
    quote "TLT" 92 1.0 (Some 0.3%Q);
    quote "HYG" 77 (-1.0) (Some (-2.0)%Q);
    quote "^VIX" 25 5 (Some 6%Q);
    quote "DX-Y.NYB" 104 0.5 (Some 1.0%Q);
    quote "GLD" 190 1.0 (Some 0.8%Q);
    quote "BTC-USD" 60000 2 (Some 3%Q)
  ].

(** A day of stress: credit and dollar past their 5-day thresholds and the
    volatility index at 35. *)
Definition stressed_snapshot : MarketSnapshot :=
  snapshot_of [
    quote "SPY" 480 (-1.2) (Some (-3.1)%Q);
    quote "TLT" 93 0.4 (Some 1.1%Q);
    quote "HYG" 74 (-0.9) (Some (-4.0)%Q);
    quote "^VIX" 35 9 (Some 40%Q);
    quote "DX-Y.NYB" 106 0.6 (Some 2.5%Q)
  ].

(** The large-cap ETF ten percent below its high, nothing else fetched. *)
Definition correction_snapshot : MarketSnapshot := snapshot_of [spy_correction].

(** A contributed rule whose predicate indexes the snapshot instead of
    asking it ([snapshot.data['XAU']]) and so raises [KeyError] when gold
    spot was not fetched. *)
Definition check_gold_breakout : Check := fun config snapshot ctx =>
  match data snapshot !! "XAU" with
  | Some xau => Ok (Qgeb (intraday_change_pct xau) 2, ctx)
  | None => Raise (Exn "KeyError" "'XAU'")
  end.

Definition GOLD_BREAKOUT : Rule :=
  {| name := "GOLD_BREAKOUT";
     severity := LOW;
     category := "Sentiment";
     description := "Gold spot breaking out";
     check := check_gold_breakout;
     message_template := "Gold Breakout: XAU +{value:.1f}%" |}.

(** 2024-01-15T10:30:00 *)
Definition monday_morning : Z := 63840911400000000.

(** A first run: no state file yet, the directory writable. *)
Definition first_run : World :=
  {| state_file := Missing; writable := true; stdout := [] |}.

(** A state file with two entries, one of them edited by hand into
    something that is not a timestamp. *)
Definition edited_state : World :=
  {| state_file :=
       Document (JObj (<["last_alerts" :=
                          JObj (<["VOLATILITY_SPIKE" := JStr "yesterday"]>
                                (<["CREDIT_STRESS_5D" := JStr "2024-01-15T09:00:00"]> ∅))]>
                       (<["version" := JNum 1]> ∅)));
     writable := true;
     stdout := [] |}.


End Samples.

(** ** Further vocabulary

    The modules below hold the vocabulary of the statements that go beyond
    the specification, and the inputs they are run on. *)

Module RulesMoreSpec.
Import Py Data Indicators Rules RulesSpec.
#[local] Open Scope string_scope.

(** The instruments a built-in rule reads, by rule name. *)
Definition REQUIRED_SYMBOLS (n : string) : list string :=
  if String.prefix "SPY_DRAWDOWN_" n then ["SPY"]
  else if String.eqb n "CREDIT_STRESS_INTRADAY" then ["HYG"]
  else if String.eqb n "CREDIT_STRESS_5D" then ["HYG"]
  else if String.eqb n "COMBINED_STRESS" then ["SPY"; "TLT"]
  else if String.eqb n "LIQUIDITY_STRESS_INTRADAY" then ["DX-Y.NYB"]
  else if String.eqb n "LIQUIDITY_STRESS_5D" then ["DX-Y.NYB"]
  else if String.eqb n "VOLATILITY_ELEVATED" then ["^VIX"]
  else if String.eqb n "VOLATILITY_SPIKE" then ["^VIX"]
  else if String.eqb n "GROWTH_WEAKNESS" then ["QQQ"; "SPY"]
  else if String.eqb n "SMALLCAP_WEAKNESS" then ["IWM"; "SPY"]
  else if String.eqb n "DEFENSIVE_HEDGE_BID" then ["GLD"; "TLT"]
  else if String.eqb n "RISK_APPETITE_POSITIVE" then ["SPY"; "QQQ"]
  else if String.eqb n "BTC_MAJOR_MOVE" then ["BTC-USD"]
  else [].

(** A predicate that returns: it never raises, and it answers true only
    when every instrument of [symbols] is in the snapshot. *)
Definition well_behaved (c : Check) (symbols : list string) : Prop :=
  forall config snapshot ctx,
    exists b ctx', c config snapshot ctx = Ok (b, ctx') /\
      (b = true -> Forall (fun sym => is_Some (get snapshot sym)) symbols).

(** The record the evaluator builds for a rule and the context its
    predicate left. *)
Definition triggered_record (r : Rule) (ctx : Ctx) : TriggeredRule :=
  {| rule := r; value := ctx !! "value"; symbol := ctx !! "symbol";
     extra_context := ctx !! "extra" |}.

End RulesMoreSpec.

Module StorageMoreSpec.
Import Py Rules Storage StorageSpec StorageStatus.
#[local] Open Scope string_scope.

(** The last line printed is a warning that the state could not be saved. *)
Definition warned_not_saved (w : World) : Prop :=
  exists reason,
    last (stdout w) = Some ("Warning: Could not save state file: " ++ reason).

(** A document that is valid JSON but not an object. *)
Definition not_an_object (v : json) : Prop :=
  match v with JObj _ => False | _ => True end.

(** The order of urgency: critical before high before medium before low. *)
Definition severity_rank (s : Severity) : nat :=
  match s with CRITICAL => 0 | HIGH => 1 | MEDIUM => 2 | LOW => 3 end.

(** A configuration that leaves the cooldown table alone. *)
Definition default_cooldowns (config : Config) : Prop :=
  cfg_cooldowns config = cfg_cooldowns default_config \/ cfg_cooldowns config = ∅.

(** The state the module works from, given what the file holds. *)
Definition loaded (f : StateFile) : json :=
  match f with
  | Document v => v
  | _ => empty_state
  end.

Section Pure.
Context {codec : IsoCodec}.

(** A state with a fire of a rule added to its entries. *)
Definition fired (now : Z) (rule_name : string) (state : gmap string json) : json :=
  JObj (<["last_alerts" := JObj (<[rule_name := JStr (isoformat now)]> (entries_of state))]>
          state).

(** The file a successful save of [record_fire] leaves. *)
Definition after_fire (now : Z) (rule_name : string) (f : StateFile) : StateFile :=
  match with_fire now rule_name (loaded f) with
  | Ok state => Document state
  | Raise _ => f
  end.

(** The answer of [get_last_fire_time] once the state is loaded. *)
Definition last_fire_of (rule_name : string) (state : json) : outcome (option datetime) :=
  last_alerts ← py_get state "last_alerts" (JObj ∅);
  present ← py_contains rule_name last_alerts;
  if negb present then Ok None else
  last_fire_str ← py_getitem last_alerts rule_name;
  match py_fromisoformat last_fire_str with
  | Ok last_fire => Ok (Some last_fire)
  | Raise _ => Ok None
  end.

(** The status [get_cooldown_status] reports for one stored value. *)
Definition status_of (now : Z) (v : json) : CooldownStatus :=
  match py_fromisoformat v with
  | Ok (Naive last_fire) => Elapsed v (total_minutes (now - last_fire))
  | _ => InvalidTimestamp v
  end.

End Pure.

End StorageMoreSpec.

Module StorageSamples.
Import Py Rules Storage Samples.
#[local] Open Scope string_scope.

(** The edited state in a directory that cannot be written. *)
Definition read_only_state : World :=
  {| state_file := state_file edited_state; writable := false; stdout := [] |}.

(** A state written by another tool, with a UTC offset on the timestamp. *)
Definition offset_state : World :=
  {| state_file :=
       Document (JObj (<["last_alerts" :=
                          JObj (<["VOLATILITY_SPIKE" := JStr "2024-01-15T09:00:00+00:00"]> ∅)]>
                       (<["version" := JNum 1]> ∅)));
     writable := true;
     stdout := [] |}.

(** A state file that holds a JSON array. *)
Definition array_state : World :=
  {| state_file := Document (JArr []); writable := true; stdout := [] |}.

End StorageSamples.

Module RegimeMoreSpec.
Import Py Data Indicators Rules Regime.
#[local] Open Scope string_scope.

(** A rule of the given name is in the triggered set. *)
Definition alerted (triggered : list TriggeredRule) (n : string) : Prop :=
  exists t, In t triggered /\ name (rule t) = n.

End RegimeMoreSpec.

Module RuntimeSpec.
Import Py Data Rules Storage Runtime Telegram.
#[local] Open Scope string_scope.

(** The result of a computation of the process and the process it leaves. *)
Definition outcome_of {A} (m : IO A) (p : Process) : outcome A := fst (m p).
Definition process_after {A} (m : IO A) (p : Process) : Process := snd (m p).

(** The requests a computation adds to the ones posted before. *)
Definition posts_at_most {A} (n : nat) (m : IO A) : Prop :=
  forall p, exists new,
    posted (process_after m p) = (posted p ++ new)%list /\ (length new <= n)%nat.

(** The API acknowledges a request. *)
Definition acknowledged (r : Response) : bool :=
  match r with
  | Reply true _ => true
  | _ => false
  end.

(** No alert can be delivered: a credential is missing, or the API
    acknowledges nothing. *)
Definition undeliverable (p : Process) : Prop :=
  missing (environ p !! "TELEGRAM_BOT_TOKEN") || missing (environ p !! "TELEGRAM_CHAT_ID")
    = true \/
  forall before request, acknowledged (api p before request) = false.

(** A computation that, where nothing can be delivered, leaves the state
    file alone and answers within [Q]. *)
Definition keeps_store {A} (Q : outcome A -> Prop) (m : IO A) : Prop :=
  forall p, undeliverable p ->
    Q (outcome_of m p) /\
    undeliverable (process_after m p) /\
    state_file (os (process_after m p)) = state_file (os p).

Definition anything {A} (o : outcome A) : Prop := True.

(** The answer of a send that did not get through. *)
Definition refused (o : outcome bool) : Prop := o = Ok false.

(** The characters Markdown gives a meaning to and the fallback removes. *)
Definition markdown_char (c : ascii) : bool :=
  Ascii.eqb c "*" || Ascii.eqb c "_" || Ascii.eqb c "`".

(** The text the fallback of [send_message_safe] sends. *)
Definition plain_text (text : string) : string :=
  remove_char "`" (remove_char "_" (remove_char "*" text)).

End RuntimeSpec.

Module SortSpec.
Import Py Data Rules MainAlerts StorageMoreSpec.

(** The order in which alerts go out: by urgency. *)
Definition not_after (a b : TriggeredRule) : Prop :=
  (severity_rank (severity (rule a)) <= severity_rank (severity (rule b)))%nat.

Definition severity_eqb (s1 s2 : Severity) : bool :=
  Nat.eqb (severity_rank s1) (severity_rank s2).

(** The alerts of one severity, in the order of the list. *)
Definition of_severity (s : Severity) (l : list TriggeredRule) : list TriggeredRule :=
  List.filter (fun tr => severity_eqb (severity (rule tr)) s) l.

End SortSpec.

Module TelegramSpec.
Import Py Storage Runtime Telegram RuntimeSpec.
#[local] Open Scope string_scope.

(** The request [send_message] posts for a text and a parse mode. *)
Definition request_for (p : Process) (text parse_mode : string) : Request :=
  {| url := "https://api.telegram.org/bot" ++
            default "" (environ p !! "TELEGRAM_BOT_TOKEN") ++ "/sendMessage";
     payload := {| chat_id := default "" (environ p !! "TELEGRAM_CHAT_ID");
                   Runtime.text := text;
                   Runtime.parse_mode := parse_mode;
                   disable_web_page_preview := true |} |}.

Definition configured (p : Process) : bool :=
  negb (missing (environ p !! "TELEGRAM_BOT_TOKEN")
        || missing (environ p !! "TELEGRAM_CHAT_ID")).

End TelegramSpec.

Module FetchSpec.
Import Py Data Storage Runtime Fetch.
#[local] Open Scope string_scope.

(** The display name of a tracked symbol. *)
Definition tracked (sym : string) : option string :=
  (list_to_map SYMBOLS : gmap string string) !! sym.

(** What one symbol contributes to the snapshot. *)
Definition fetched (p : Process) (sym : string) : option SymbolData :=
  match tracked sym with
  | Some name =>
      match history p sym "1y" with
      | Ok hist => symbol_data_of sym name hist
      | Raise _ => None
      end
  | None => None
  end.

(** A history whose closes are positive and not above the day's high. *)
Definition well_formed (hist : list Bar) : Prop :=
  forall bar, In bar hist -> (0 < Close bar)%Q /\ (Close bar <= High bar)%Q.

End FetchSpec.

Module CooldownSpec.
Import Py Data Rules Storage StorageSpec Runtime Telegram RuntimeSpec TelegramSpec.
#[local] Open Scope string_scope.

(** On a normal return from a state within [P], the result and the state
    are within [Q]. *)
Definition hoare {A} (P : Process -> Prop) (m : IO A) (Q : A -> Process -> Prop) : Prop :=
  forall p, P p -> forall a p', m p = (Ok a, p') -> Q a p'.

(** The channel works and the store can be written and extended. *)
Definition working (p : Process) : Prop :=
  configured p = true /\
  (forall before request, acknowledged (api p before request) = true) /\
  writable (os p) = true /\
  extendable (state_file (os p)).

(** The store holds a last-fire entry for a rule. *)
Definition in_cooldown_store (p : Process) (rule_name : string) : Prop :=
  is_Some (last_alert (state_file (os p)) rule_name).

(** A working process whose store holds an entry for every name within
    [names]. *)
Definition holding (names : string -> Prop) (p : Process) : Prop :=
  working p /\ forall n, names n -> in_cooldown_store p n.

(** A set of names and one more. *)
Definition and_also (rule_name : string) (names : string -> Prop) : string -> Prop :=
  fun n => n = rule_name \/ names n.

(** The names of a list of triggered rules. *)
Definition names_of (triggered : list TriggeredRule) : string -> Prop :=
  fun n => exists tr, In tr triggered /\ Rules.name (rule tr) = n.

(** A computation that leaves the channel and the state file as they are. *)
Definition stable {A} (m : IO A) : Prop :=
  forall p, let p' := process_after m p in
    environ p' = environ p /\ api p' = api p /\
    state_file (os p') = state_file (os p) /\ writable (os p') = writable (os p).

End CooldownSpec.

Module ProcessSamples.
Import Py Data Rules Regime Storage Iso8601 Samples Runtime Fetch Telegram MainAlerts.
#[local] Open Scope string_scope.

Definition bar (close high low : Q) : Bar := {| Close := close; High := high; Low := low |}.

(** Two sessions of the high-yield ETF, the second 2.5 percent down. *)
Definition hyg_two_sessions : list Bar := [bar 76 76.5 75.5; bar 74.1 75.9 74].

(** A process with no credentials, no network and no state file. *)
Definition offline : Process :=
  {| os := first_run;
     environ := ∅;
     history := fun _ _ => Raise (Exn "ConnectionError" "Network is unreachable");
     api := fun _ _ => Timeout;
     posted := [];
     clock := fun _ => monday_morning;
     clock_reads := 0 |}.

(** A first run on a day when only the high-yield ETF answers and the
    chat acknowledges every message. *)
Definition hyg_day : Process :=
  {| os := first_run;
     environ := <["TELEGRAM_BOT_TOKEN" := "123:abc"]> (<["TELEGRAM_CHAT_ID" := "42"]> ∅);
     history := fun sym _ => if String.eqb sym "HYG" then Ok hyg_two_sessions else Ok [];
     api := fun _ _ => Reply true None;
     posted := [];
     clock := fun n => (monday_morning + Z.of_nat n * 1000000)%Z;
     clock_reads := 0 |}.


(** The snapshot that day's fetch returns. *)
Definition hyg_day_snapshot : MarketSnapshot :=
  match fst (fetch_market_snapshot hyg_day) with
  | Ok snapshot => snapshot
  | Raise _ => snapshot_of []
  end.

(** Renderers that send the rule's headline as it is. *)
Definition headline : Z -> TriggeredRule -> MarketSnapshot -> outcome string :=
  fun _ tr _ => Ok (message_template (rule tr)).

Definition headlines : Z -> list TriggeredRule -> MarketSnapshot -> outcome string :=
  fun _ trs _ => Ok (String.concat "; " (map (fun tr => message_template (rule tr)) trs)).

Definition one_line_report
    : MarketSnapshot -> RegimeAssessment -> list TriggeredRule -> outcome string :=
  fun _ regime _ => Ok (summary regime).

End ProcessSamples.

(** * Proofs *)

(** ** Comparisons on rationals *)

Module PyFacts.
Import Py.

Lemma Qleb_le x y : Qleb x y = true <-> (x <= y)%Q.
Proof. apply Qle_bool_iff. Qed.

Lemma Qleb_gt x y : Qleb x y = false <-> (y < x)%Q.
Proof.
  unfold Qleb. rewrite <- not_true_iff_false, Qle_bool_iff. split.
  - apply Qnot_le_lt.
  - apply Qlt_not_le.
Qed.

Lemma Qgeb_ge x y : Qgeb x y = true <-> (y <= x)%Q.
Proof. apply Qle_bool_iff. Qed.

Lemma Qgeb_lt x y : Qgeb x y = false <-> (x < y)%Q.
Proof. apply (Qleb_gt y x). Qed.

Lemma Qltb_lt x y : Qltb x y = true <-> (x < y)%Q.
Proof. unfold Qltb. rewrite negb_true_iff. apply (Qleb_gt y x). Qed.

Lemma Qgtb_gt x y : Qgtb x y = true <-> (y < x)%Q.
Proof. unfold Qgtb. rewrite negb_true_iff. apply (Qleb_gt x y). Qed.

Lemma Qgtb_le x y : Qgtb x y = false <-> (x <= y)%Q.
Proof. unfold Qgtb. rewrite negb_false_iff. apply (Qleb_le x y). Qed.

End PyFacts.

(** ** The indicators *)

Module IndicatorsFacts.
Import Data Indicators IndicatorsSpec Samples.

(** C9 as the specification words it does not hold for a record whose
    52-week high is negative: the price is below the high and the drawdown
    is +100. *)
Lemma below_zero_drawdown_positive : ~ drawdown_never_positive below_zero.
Proof.
  intros H.
  specialize (H (-1)%Q _ eq_refl ltac:(discriminate) eq_refl).
  vm_compute in H. apply H. reflexivity.
Qed.

(** C9, amended.  [get_drawdown_from_high] answers [None] when the 52-week
    high is absent or zero, and (current - high) / high * 100 otherwise;
    when the 52-week high is positive and the current price is at or below
    it, the drawdown is at most 0. *)
Theorem get_drawdown_from_high_spec m :
  (high_52w m = None -> get_drawdown_from_high m = None) /\
  (forall high, high_52w m = Some high -> (high == 0)%Q ->
     get_drawdown_from_high m = None) /\
  (forall high, high_52w m = Some high -> ~ (high == 0)%Q ->
     get_drawdown_from_high m = Some ((current_price m - high) / high * 100)%Q) /\
  (forall high d, high_52w m = Some high -> (0 < high)%Q ->
     (current_price m <= high)%Q ->
     get_drawdown_from_high m = Some d -> (d <= 0)%Q).
Proof.
  unfold get_drawdown_from_high. split; [|split; [|split]].
  - intros ->. reflexivity.
  - intros high -> Hzero. apply Qeq_bool_iff in Hzero. rewrite Hzero. reflexivity.
  - intros high -> Hnonzero.
    destruct (Qeq_bool high 0) eqn:Hzero; [|reflexivity].
    apply Qeq_bool_iff in Hzero. contradiction.
  - intros high d -> Hpos Hbelow.
    destruct (Qeq_bool high 0); [discriminate|]. intros [= <-].
    apply Qle_trans with (0 * 100)%Q; [|discriminate].
    apply Qmult_le_compat_r; [|discriminate].
    apply Qle_shift_div_r; [exact Hpos|].
    rewrite Qmult_0_l. apply (Qplus_le_l _ _ high). ring_simplify. exact Hbelow.
Qed.

(** C9 on SPY at 450 with a 52-week high of 500: a drawdown of -10. *)
Lemma get_drawdown_from_high_spec_witness :
  exists d, get_drawdown_from_high spy_correction = Some d /\ (d <= 0)%Q /\ (d == -10)%Q.
Proof.
  exists ((450 - 500) / 500 * 100)%Q. split; [reflexivity|]. split; [|reflexivity].
  destruct (get_drawdown_from_high_spec spy_correction) as (_ & _ & _ & H).
  apply (H 500%Q); [reflexivity | reflexivity | discriminate | reflexivity].
Defined.

End IndicatorsFacts.

(** ** The rule evaluator *)

Module RulesFacts.
Import Py Data Indicators Rules RulesSpec Samples PyFacts.
#[local] Open Scope string_scope.

Lemma evaluate_rule_spec config snapshot r triggered out :
  evaluate_rule config snapshot r (triggered, out) =
  Ok ((triggered ++ contribution config snapshot r)%list,
      (out ++ complaint config snapshot r)%list).
Proof.
  unfold evaluate_rule, contribution, complaint, try_except.
  destruct (check r config snapshot ∅) as [[[|] ctx]|e]; simpl;
    rewrite ?app_nil_r; reflexivity.
Qed.

Lemma for_each_rule_spec config snapshot registry : forall triggered out,
  for_each_rule config snapshot registry (triggered, out) =
  Ok ((triggered ++ contributions config snapshot registry)%list,
      (out ++ complaints config snapshot registry)%list).
Proof.
  induction registry as [|r rest IH]; intros triggered out; simpl flat_map.
  - unfold contributions, complaints. simpl. rewrite !app_nil_r. reflexivity.
  - cbn [for_each_rule]. rewrite evaluate_rule_spec. unfold mbind, outcome_bind.
    rewrite IH, <- !app_assoc. reflexivity.
Qed.

Lemma evaluate_rules_spec registry config snapshot :
  evaluate_rules registry config snapshot =
  Ok (contributions config snapshot registry, complaints config snapshot registry).
Proof. unfold evaluate_rules. rewrite for_each_rule_spec. reflexivity. Qed.

Lemma contributions_app config snapshot l1 l2 :
  contributions config snapshot (l1 ++ l2) =
  (contributions config snapshot l1 ++ contributions config snapshot l2)%list.
Proof. apply flat_map_app. Qed.

Lemma complaints_app config snapshot l1 l2 :
  complaints config snapshot (l1 ++ l2) =
  (complaints config snapshot l1 ++ complaints config snapshot l2)%list.
Proof. apply flat_map_app. Qed.

Lemma in_contributions config snapshot registry t :
  In t (contributions config snapshot registry) <->
  exists r ctx, In r registry /\ check r config snapshot ∅ = Ok (true, ctx) /\
    t = {| rule := r; value := ctx !! "value"; symbol := ctx !! "symbol";
           extra_context := ctx !! "extra" |}.
Proof.
  unfold contributions. rewrite in_flat_map. split.
  - intros (r & Hr & Ht). unfold contribution in Ht.
    destruct (check r config snapshot ∅) as [[[|] ctx]|e] eqn:Hc; simpl in Ht; try tauto.
    destruct Ht as [<-|[]]. eauto.
  - intros (r & ctx & Hr & Hc & ->). exists r. split; [assumption|].
    unfold contribution. rewrite Hc. left. reflexivity.
Qed.

(** C1. Fault isolation in [evaluate_rules].  Take any registry, any
    configuration and any snapshot, and a rule [r] of the registry whose
    predicate raises.  The run returns normally; the returned list is what
    the rules before [r] and the rules after [r] contribute, each judged by
    its own predicate, so [r] counts as not triggered and every other rule
    is still evaluated; the names returned are those of the registry
    without [r]; and the fault is reported on the standard output. *)
Theorem evaluate_rules_isolates_faults config snapshot before r after e :
  check r config snapshot ∅ = Raise e ->
  exists triggered out,
    evaluate_rules (before ++ r :: after) config snapshot = Ok (triggered, out) /\
    triggered = (contributions config snapshot before ++
                 contributions config snapshot after)%list /\
    triggered_names (evaluate_rules (before ++ after) config snapshot) =
      Some (map (fun t => name (rule t)) triggered) /\
    In ("Error evaluating rule " ++ name r ++ ": " ++ exn_msg e) out.
Proof.
  intros Hraise.
  exists (contributions config snapshot (before ++ r :: after)),
         (complaints config snapshot (before ++ r :: after)).
  split; [apply evaluate_rules_spec|].
  assert (Hnone : contribution config snapshot r = []).
  { unfold contribution. rewrite Hraise. reflexivity. }
  split; [|split].
  - rewrite contributions_app. unfold contributions at 2. simpl.
    rewrite Hnone. reflexivity.
  - rewrite evaluate_rules_spec. simpl.
    rewrite !contributions_app. unfold contributions at 4. simpl.
    rewrite Hnone. reflexivity.
  - rewrite complaints_app. apply in_or_app. right.
    unfold complaints. simpl. unfold complaint at 1. rewrite Hraise. left. reflexivity.
Qed.

(** C1 on a concrete run: a contributed rule that raises [KeyError] in
    front of the built-in registry, on the high-yield sell-off. *)
Lemma evaluate_rules_isolates_faults_witness :
  exists triggered out,
    evaluate_rules ([] ++ GOLD_BREAKOUT :: RULES) default_config hyg_selloff =
      Ok (triggered, out) /\
    map (fun t => name (rule t)) triggered = ["CREDIT_STRESS_INTRADAY"] /\
    In "Error evaluating rule GOLD_BREAKOUT: 'XAU'" out.
Proof.
  destruct (evaluate_rules_isolates_faults default_config hyg_selloff
              [] GOLD_BREAKOUT RULES (Exn "KeyError" "'XAU'") eq_refl)
    as (triggered & out & Hrun & Htriggered & _ & Hout).
  exists triggered, out. split; [exact Hrun|]. split; [|exact Hout].
  rewrite Htriggered. vm_compute. reflexivity.
Defined.

Lemma drawdown_rule_registered level :
  In level DRAWDOWN_LEVELS -> In (drawdown_rule level) RULES.
Proof.
  intros H. unfold RULES. apply in_or_app. right. apply in_map. exact H.
Qed.

Lemma drawdown_checker_fires config snapshot spy d level :
  get snapshot "SPY" = Some spy ->
  get_drawdown_from_high spy = Some d ->
  (d <= level)%Q ->
  create_drawdown_checker level config snapshot ∅ =
  Ok (true, <["symbol" := CStr "SPY"]> (<["value" := CNum d]> ∅)).
Proof.
  intros Hspy Hd Hle. unfold create_drawdown_checker.
  rewrite Hspy, Hd. apply Qleb_le in Hle. rewrite Hle. reflexivity.
Qed.

Lemma drawdown_checker_silent config snapshot spy d level ctx :
  get snapshot "SPY" = Some spy ->
  get_drawdown_from_high spy = Some d ->
  (level < d)%Q ->
  create_drawdown_checker level config snapshot ctx = Ok (false, ctx).
Proof.
  intros Hspy Hd Hlt. unfold create_drawdown_checker.
  rewrite Hspy, Hd. apply Qleb_gt in Hlt. rewrite Hlt. reflexivity.
Qed.

Lemma drawdown_rule_triggers config snapshot spy d level :
  In level DRAWDOWN_LEVELS ->
  get snapshot "SPY" = Some spy ->
  get_drawdown_from_high spy = Some d ->
  (d <= inject_Z level)%Q ->
  triggers_with (contributions config snapshot RULES) (name (drawdown_rule level)) d.
Proof.
  intros Hin Hspy Hd Hle.
  eexists. split; [|split].
  - apply in_contributions. exists (drawdown_rule level). eexists.
    split; [apply drawdown_rule_registered, Hin|]. split; [|reflexivity].
    apply (drawdown_checker_fires config snapshot spy d); assumption.
  - reflexivity.
  - simpl. rewrite lookup_insert_ne by discriminate. apply lookup_insert_eq.
Qed.

Lemma rule_named n r :
  In r RULES -> name r = n ->
  get_rule_by_name RULES n = Some r.
Proof.
  intros Hin <-. unfold RULES, STATIC_RULES, DRAWDOWN_LEVELS in Hin.
  simpl in Hin.
  repeat (destruct Hin as [<-|Hin]; [reflexivity|]). destruct Hin.
Qed.

Lemma drawdown_rule_not_triggered config snapshot spy d level :
  get_rule_by_name RULES (name (drawdown_rule level)) = Some (drawdown_rule level) ->
  get snapshot "SPY" = Some spy ->
  get_drawdown_from_high spy = Some d ->
  (inject_Z level < d)%Q ->
  not_triggered (contributions config snapshot RULES) (name (drawdown_rule level)).
Proof.
  intros Hname Hspy Hd Hlt t Ht Hn.
  apply in_contributions in Ht. destruct Ht as (r & ctx & Hr & Hc & ->).
  change (name r = name (drawdown_rule level)) in Hn.
  apply (rule_named _ _ Hr) in Hn. rewrite Hname in Hn.
  injection Hn as <-. cbn [check drawdown_rule] in Hc.
  rewrite (drawdown_checker_silent config snapshot spy d) in Hc by assumption.
  discriminate.
Qed.

(** C3. The drawdown rules are monotone and not exclusive.  When SPY is in
    the snapshot and its drawdown from the 52-week high is at or below -10,
    the rules SPY_DRAWDOWN_2PCT, SPY_DRAWDOWN_4PCT, SPY_DRAWDOWN_6PCT and
    SPY_DRAWDOWN_10PCT are all in the list [evaluate_rules] returns, each
    with the drawdown as its headline value; when the drawdown is exactly
    -10, SPY_DRAWDOWN_15PCT and SPY_DRAWDOWN_20PCT are not in it.  This
    holds under every configuration. *)
Theorem drawdown_family_monotone config snapshot spy d :
  get snapshot "SPY" = Some spy ->
  get_drawdown_from_high spy = Some d ->
  (d <= -10)%Q ->
  exists triggered out,
    evaluate_rules RULES config snapshot = Ok (triggered, out) /\
    triggers_with triggered "SPY_DRAWDOWN_2PCT" d /\
    triggers_with triggered "SPY_DRAWDOWN_4PCT" d /\
    triggers_with triggered "SPY_DRAWDOWN_6PCT" d /\
    triggers_with triggered "SPY_DRAWDOWN_10PCT" d /\
    ((d == -10)%Q ->
     not_triggered triggered "SPY_DRAWDOWN_15PCT" /\
     not_triggered triggered "SPY_DRAWDOWN_20PCT").
Proof.
  intros Hspy Hd Hle.
  exists (contributions config snapshot RULES), (complaints config snapshot RULES).
  split; [apply evaluate_rules_spec|].
  assert (Hfire : forall level, In level DRAWDOWN_LEVELS -> (-10 <= inject_Z level)%Q ->
            triggers_with (contributions config snapshot RULES)
                          (name (drawdown_rule level)) d).
  { intros level Hin Hlevel.
    apply (drawdown_rule_triggers config snapshot spy); try assumption.
    apply Qle_trans with (-10)%Q; assumption. }
  assert (Hquiet : forall level,
            get_rule_by_name RULES (name (drawdown_rule level)) = Some (drawdown_rule level) ->
            (inject_Z level < -10)%Q -> (d == -10)%Q ->
            not_triggered (contributions config snapshot RULES)
                          (name (drawdown_rule level))).
  { intros level Hname Hlevel Heq.
    apply (drawdown_rule_not_triggered config snapshot spy d); try assumption.
    rewrite Heq. exact Hlevel. }
  split; [|split; [|split; [|split]]].
  - apply (Hfire (-2)%Z); [simpl; tauto | discriminate].
  - apply (Hfire (-4)%Z); [simpl; tauto | discriminate].
  - apply (Hfire (-6)%Z); [simpl; tauto | discriminate].
  - apply (Hfire (-10)%Z); [simpl; tauto | discriminate].
  - intros Heq. split.
    + apply (Hquiet (-15)%Z); [reflexivity | reflexivity | exact Heq].
    + apply (Hquiet (-20)%Z); [reflexivity | reflexivity | exact Heq].
Qed.

(** C3 on a concrete snapshot: SPY at 450 with a 52-week high of 500. *)
Lemma drawdown_family_monotone_witness :
  exists triggered out,
    evaluate_rules RULES default_config correction_snapshot = Ok (triggered, out) /\
    triggers_with triggered "SPY_DRAWDOWN_10PCT" ((450 - 500) / 500 * 100) /\
    not_triggered triggered "SPY_DRAWDOWN_15PCT".
Proof.
  destruct (drawdown_family_monotone default_config correction_snapshot
              spy_correction ((450 - 500) / 500 * 100)%Q)
    as (triggered & out & Hrun & _ & _ & _ & Hten & Hquiet).
  - reflexivity.
  - reflexivity.
  - discriminate.
  - exists triggered, out. split; [exact Hrun|]. split; [exact Hten|].
    apply Hquiet. reflexivity.
Defined.

Lemma lookup_override_eq key v config :
  cfg_rules (override key v config) !! key = Some v.
Proof. apply lookup_insert_eq. Qed.

Lemma get_threshold_override key v config d :
  get_threshold (override key v config) key d = v.
Proof. unfold get_threshold. rewrite lookup_override_eq. reflexivity. Qed.

Lemma get_threshold_missing key config d :
  cfg_rules config !! key = None -> get_threshold config key d = d.
Proof. intros H. unfold get_threshold. rewrite H. reflexivity. Qed.

Ltac default_is_read :=
  intros config snapshot ctx Hmissing;
  match goal with
  | |- ?c _ _ _ = _ => unfold c
  end;
  rewrite get_threshold_override, (get_threshold_missing _ _ _ Hmissing);
  reflexivity.

Ltac override_is_felt v :=
  exists v, calm_snapshot;
  let H := fresh in
  intros H; apply (f_equal answer) in H; vm_compute in H; discriminate H.

Lemma credit_stress_intraday_reads :
  reads_threshold check_credit_stress_intraday "credit_stress_intraday" (-1.5).
Proof. split; [default_is_read | override_is_felt (-0.5)%Q]. Qed.

Lemma credit_stress_5d_reads :
  reads_threshold check_credit_stress_5d "credit_stress_5d" (-3.0).
Proof. split; [default_is_read | override_is_felt (-1)%Q]. Qed.

Lemma liquidity_stress_intraday_reads :
  reads_threshold check_liquidity_stress_intraday "liquidity_stress_intraday" 1.0.
Proof. split; [default_is_read | override_is_felt 0.2%Q]. Qed.

Lemma liquidity_stress_5d_reads :
  reads_threshold check_liquidity_stress_5d "liquidity_stress_5d" 2.0.
Proof. split; [default_is_read | override_is_felt 0.5%Q]. Qed.

Lemma volatility_elevated_reads :
  reads_threshold check_volatility_elevated "volatility_level" 30.
Proof. split; [default_is_read | override_is_felt 20%Q]. Qed.

Lemma volatility_spike_reads :
  reads_threshold check_volatility_spike "volatility_spike" 8.
Proof. split; [default_is_read | override_is_felt 3%Q]. Qed.

Lemma growth_weakness_reads :
  reads_threshold check_growth_weakness "growth_weakness_threshold" (-1.5).
Proof. split; [default_is_read | override_is_felt (-0.5)%Q]. Qed.

Lemma smallcap_weakness_reads :
  reads_threshold check_smallcap_weakness "smallcap_weakness_threshold" (-2.0).
Proof. split; [default_is_read | override_is_felt (-0.5)%Q]. Qed.

Lemma defensive_hedge_bid_reads :
  reads_threshold check_defensive_hedge_bid "defensive_hedge_bid" 1.5.
Proof. split; [default_is_read | override_is_felt 0.5%Q]. Qed.

Lemma combined_stress_fires config snapshot :
  fires check_combined_stress config snapshot <->
  exists spy tlt, get snapshot "SPY" = Some spy /\ get snapshot "TLT" = Some tlt /\
    (intraday_change_pct spy <= -2.5)%Q /\ (intraday_change_pct tlt < 0)%Q.
Proof.
  unfold fires, check_combined_stress. split.
  - intros (ctx & H).
    destruct (get snapshot "SPY") as [spy|]; [|discriminate].
    destruct (get snapshot "TLT") as [tlt|]; [|discriminate].
    destruct (Qleb (intraday_change_pct spy) (-2.5)) eqn:Hspy; [|discriminate].
    destruct (Qltb (intraday_change_pct tlt) 0) eqn:Htlt; [|discriminate].
    exists spy, tlt. repeat split; [apply Qleb_le, Hspy | apply Qltb_lt, Htlt].
  - intros (spy & tlt & -> & -> & Hspy & Htlt).
    apply Qleb_le in Hspy. apply Qltb_lt in Htlt. rewrite Hspy, Htlt. eauto.
Qed.

Lemma risk_appetite_positive_fires config snapshot :
  fires check_risk_appetite_positive config snapshot <->
  exists spy qqq, get snapshot "SPY" = Some spy /\ get snapshot "QQQ" = Some qqq /\
    (1.5 <= intraday_change_pct spy)%Q /\
    (intraday_change_pct spy <= intraday_change_pct qqq)%Q.
Proof.
  unfold fires, check_risk_appetite_positive. split.
  - intros (ctx & H).
    destruct (get snapshot "SPY") as [spy|]; [|discriminate].
    destruct (get snapshot "QQQ") as [qqq|]; [|discriminate].
    destruct (Qgeb (intraday_change_pct spy) 1.5) eqn:Hspy; [|discriminate].
    destruct (Qgeb (intraday_change_pct qqq) (intraday_change_pct spy)) eqn:Hqqq;
      [|discriminate].
    exists spy, qqq. repeat split; [apply Qgeb_ge, Hspy | apply Qgeb_ge, Hqqq].
  - intros (spy & qqq & -> & -> & Hspy & Hqqq).
    apply Qgeb_ge in Hspy. apply Qgeb_ge in Hqqq. rewrite Hspy, Hqqq. eauto.
Qed.

Lemma btc_major_move_fires config snapshot :
  fires check_btc_major_move config snapshot <->
  exists btc, get snapshot "BTC-USD" = Some btc /\
    (8.0 <= Qabs (intraday_change_pct btc))%Q.
Proof.
  unfold fires, check_btc_major_move. split.
  - intros (ctx & H).
    destruct (get snapshot "BTC-USD") as [btc|]; [|discriminate].
    destruct (Qgeb (Qabs (intraday_change_pct btc)) 8.0) eqn:Hbtc; [|discriminate].
    exists btc. split; [reflexivity | apply Qgeb_ge, Hbtc].
  - intros (btc & -> & Hbtc). apply Qgeb_ge in Hbtc. rewrite Hbtc. eauto.
Qed.

Lemma combined_stress_blind : config_blind check_combined_stress.
Proof. intros config1 config2 snapshot ctx. reflexivity. Qed.

Lemma risk_appetite_positive_blind : config_blind check_risk_appetite_positive.
Proof. intros config1 config2 snapshot ctx. reflexivity. Qed.

Lemma btc_major_move_blind : config_blind check_btc_major_move.
Proof. intros config1 config2 snapshot ctx. reflexivity. Qed.

(** C8 as the specification words it does not hold: no configuration
    changes the answer of the predicate registered as BTC_MAJOR_MOVE. *)
Lemma btc_threshold_not_configurable : ~ every_threshold_configurable.
Proof.
  intros Hall.
  destruct (Hall "BTC_MAJOR_MOVE" check_btc_major_move eq_refl)
    as (config1 & config2 & snapshot & Hne).
  apply Hne. reflexivity.
Qed.

Ltac each_entry :=
  lazymatch goal with
  | |- Forall _ [] => constructor
  | |- Forall _ (_ :: _) => constructor; [|each_entry]
  end.

Ltac documented c reads :=
  exists c; split; [reflexivity | split; [exact reads | reflexivity]].

Ltac fixed c blind :=
  exists c; split; [reflexivity | exact blind].

(** C8, amended.  The nine rules of [CONFIGURED_THRESHOLDS] read their
    threshold from the configuration: without the key the predicate
    behaves as with the documented default, which is also the value the
    defaults of [load_config] list, and overriding the key changes the
    predicate's answer on some snapshot.  The three rules of
    [FIXED_THRESHOLDS] compare against literals that no configuration
    changes: COMBINED_STRESS fires exactly when SPY is at or below -2.5 and
    TLT is below 0, RISK_APPETITE_POSITIVE exactly when SPY is at or above
    1.5 and QQQ at or above SPY, BTC_MAJOR_MOVE exactly when the absolute
    change of BTC-USD is at or above 8.0. *)
Theorem thresholds_configurable_except_literals :
  Forall threshold_documented CONFIGURED_THRESHOLDS /\
  Forall threshold_fixed FIXED_THRESHOLDS /\
  (forall config snapshot,
      fires check_combined_stress config snapshot <->
      exists spy tlt, get snapshot "SPY" = Some spy /\ get snapshot "TLT" = Some tlt /\
        (intraday_change_pct spy <= -2.5)%Q /\ (intraday_change_pct tlt < 0)%Q) /\
  (forall config snapshot,
      fires check_risk_appetite_positive config snapshot <->
      exists spy qqq, get snapshot "SPY" = Some spy /\ get snapshot "QQQ" = Some qqq /\
        (1.5 <= intraday_change_pct spy)%Q /\
        (intraday_change_pct spy <= intraday_change_pct qqq)%Q) /\
  (forall config snapshot,
      fires check_btc_major_move config snapshot <->
      exists btc, get snapshot "BTC-USD" = Some btc /\
        (8.0 <= Qabs (intraday_change_pct btc))%Q).
Proof.
  split; [|split; [|split; [|split]]].
  - unfold CONFIGURED_THRESHOLDS.
    each_entry.
    + documented check_credit_stress_intraday credit_stress_intraday_reads.
    + documented check_credit_stress_5d credit_stress_5d_reads.
    + documented check_liquidity_stress_intraday liquidity_stress_intraday_reads.
    + documented check_liquidity_stress_5d liquidity_stress_5d_reads.
    + documented check_volatility_elevated volatility_elevated_reads.
    + documented check_volatility_spike volatility_spike_reads.
    + documented check_growth_weakness growth_weakness_reads.
    + documented check_smallcap_weakness smallcap_weakness_reads.
    + documented check_defensive_hedge_bid defensive_hedge_bid_reads.
  - unfold FIXED_THRESHOLDS.
    each_entry.
    + fixed check_combined_stress combined_stress_blind.
    + fixed check_risk_appetite_positive risk_appetite_positive_blind.
    + fixed check_btc_major_move btc_major_move_blind.
  - apply combined_stress_fires.
  - apply risk_appetite_positive_fires.
  - apply btc_major_move_fires.
Qed.

End RulesFacts.

(** ** The regime classifier *)

Module RegimeFacts.
Import Py Data Indicators Regime RegimeSpec Samples PyFacts.
#[local] Open Scope string_scope.

Lemma check_hyg_5d_stress_spec thresholds snapshot l :
  check_hyg_5d_stress thresholds snapshot l =
  (l ++ added (credit_stress thresholds snapshot))%list.
Proof.
  unfold check_hyg_5d_stress, credit_stress.
  destruct (get snapshot "HYG") as [hyg|]; simpl; [|now rewrite app_nil_r].
  destruct (change_5d_pct hyg) as [c|]; simpl; [|now rewrite app_nil_r].
  destruct (Qleb c _); simpl; [reflexivity | now rewrite app_nil_r].
Qed.

Lemma check_dxy_5d_strength_spec thresholds snapshot l :
  check_dxy_5d_strength thresholds snapshot l =
  (l ++ added (liquidity_tightening thresholds snapshot))%list.
Proof.
  unfold check_dxy_5d_strength, liquidity_tightening.
  destruct (get snapshot "DX-Y.NYB") as [dxy|]; simpl; [|now rewrite app_nil_r].
  destruct (change_5d_pct dxy) as [c|]; simpl; [|now rewrite app_nil_r].
  destruct (Qgeb c _); simpl; [reflexivity | now rewrite app_nil_r].
Qed.

Lemma check_vix_elevated_and_rising_spec thresholds vix_prev snapshot l :
  check_vix_elevated_and_rising thresholds vix_prev snapshot l =
  (l ++ added (elevated_volatility thresholds vix_prev snapshot))%list.
Proof.
  unfold check_vix_elevated_and_rising, elevated_volatility.
  destruct (get snapshot "^VIX") as [vix|]; simpl; [|now rewrite app_nil_r].
  destruct (Qgeb (current_price vix) _); simpl; [|now rewrite app_nil_r].
  destruct vix_prev as [p|]; [|reflexivity].
  destruct (Qgtb (current_price vix) p); simpl; [reflexivity | now rewrite app_nil_r].
Qed.

Lemma check_combined_stress_spec thresholds snapshot l :
  check_combined_stress thresholds snapshot l =
  (l ++ added (combined_stress thresholds snapshot))%list.
Proof.
  unfold check_combined_stress, combined_stress.
  destruct (get snapshot "SPY") as [spy|]; simpl; [|now rewrite app_nil_r].
  destruct (get snapshot "TLT") as [tlt|]; simpl; [|now rewrite app_nil_r].
  destruct (Qleb _ _ && Qltb _ _); simpl; [reflexivity | now rewrite app_nil_r].
Qed.

Lemma check_structural_weakness_spec snapshot l :
  check_structural_weakness snapshot l =
  (l ++ added (structural_weakness snapshot))%list.
Proof.
  unfold check_structural_weakness, structural_weakness.
  destruct (get snapshot "SPY") as [spy|]; simpl; [|now rewrite app_nil_r].
  destruct (get snapshot "^TNX") as [tnx|]; simpl.
  - destruct (is_below_200dma spy); simpl; [|now rewrite app_nil_r].
    destruct (Qgtb _ _); simpl; [reflexivity | now rewrite app_nil_r].
  - destruct (is_below_200dma spy); now rewrite app_nil_r.
Qed.

Lemma assess_regime_triggers config_yml vix_prev snapshot :
  triggers (assess_regime config_yml vix_prev snapshot) =
  active_triggers (load_regime_thresholds config_yml) vix_prev snapshot.
Proof.
  unfold assess_regime, active_triggers.
  rewrite check_hyg_5d_stress_spec, check_dxy_5d_strength_spec,
    check_vix_elevated_and_rising_spec, check_combined_stress_spec,
    check_structural_weakness_spec.
  simpl flat_map. rewrite app_nil_r, <- !app_assoc. simpl app at 1.
  match goal with |- triggers (match ?l with _ => _ end) = _ => destruct l end; reflexivity.
Qed.

Lemma assess_regime_spec config_yml vix_prev snapshot :
  let active := active_triggers (load_regime_thresholds config_yml) vix_prev snapshot in
  assess_regime config_yml vix_prev snapshot =
  {| regime := match active with [] => NORMAL | _ :: _ => DEFENSIVE end;
     triggers := active;
     summary := summary_for (length active) |}.
Proof.
  intros active. subst active. rewrite <- assess_regime_triggers.
  unfold assess_regime.
  match goal with |- match ?l with _ => _ end = _ => destruct l end; reflexivity.
Qed.

(** C4. [assess_regime] answers DEFENSIVE exactly when at least one of the
    five trigger conditions holds and NORMAL exactly when none does; the
    list of triggers holds the explanation of every condition that holds,
    in the order of the checks; and the summary is the one for that number
    of triggers, which for DEFENSIVE spells the count out. *)
Theorem assess_regime_collects_every_trigger config_yml vix_prev snapshot :
  let a := assess_regime config_yml vix_prev snapshot in
  let thresholds := load_regime_thresholds config_yml in
  let c1 := credit_stress thresholds snapshot in
  let c2 := liquidity_tightening thresholds snapshot in
  let c3 := elevated_volatility thresholds vix_prev snapshot in
  let c4 := combined_stress thresholds snapshot in
  let c5 := structural_weakness snapshot in
  (regime a = DEFENSIVE <->
     is_Some c1 \/ is_Some c2 \/ is_Some c3 \/ is_Some c4 \/ is_Some c5) /\
  (regime a = NORMAL <->
     c1 = None /\ c2 = None /\ c3 = None /\ c4 = None /\ c5 = None) /\
  triggers a = (added c1 ++ added c2 ++ added c3 ++ added c4 ++ added c5)%list /\
  summary a = summary_for (length (triggers a)) /\
  (regime a = DEFENSIVE ->
     summary a = "DEFENSIVE regime - " ++ str_of_N (N.of_nat (length (triggers a))) ++
                 " warning signal(s) active").
Proof.
  intros a thresholds c1 c2 c3 c4 c5. subst a.
  rewrite assess_regime_spec. unfold active_triggers. fold thresholds.
  fold c1 c2 c3 c4 c5. cbn [regime triggers summary flat_map]. rewrite app_nil_r.
  destruct c1, c2, c3, c4, c5; cbn [added app length summary_for];
    (split; [|split; [|split; [|split]]]);
    try reflexivity;
    try (split; [intros _; eauto 7 | reflexivity]);
    try (split; [discriminate | intros (? & ? & ? & ? & ?); discriminate]);
    try (split; [discriminate | intros [[? ?]|[[? ?]|[[? ?]|[[? ?]|[? ?]]]]]; discriminate]);
    try (split; [reflexivity | tauto]);
    try discriminate.
Qed.

(** C4 on a day of stress: three conditions hold, three triggers. *)
Lemma assess_regime_collects_every_trigger_witness :
  let a := assess_regime None (Some 32%Q) stressed_snapshot in
  regime a = DEFENSIVE /\
  length (triggers a) = 3%nat /\
  summary a = "DEFENSIVE regime - 3 warning signal(s) active".
Proof.
  destruct (assess_regime_collects_every_trigger None (Some 32%Q) stressed_snapshot)
    as (Hdefensive & _ & Htriggers & _ & Hsummary).
  assert (Hregime : regime (assess_regime None (Some 32%Q) stressed_snapshot) = DEFENSIVE).
  { apply Hdefensive. left. vm_compute. eauto. }
  split; [exact Hregime|]. split.
  - rewrite Htriggers. vm_compute. reflexivity.
  - rewrite (Hsummary Hregime), Htriggers. vm_compute. reflexivity.
Defined.


(** The volatility explanations start with an E and differ from each other
    in their tenth character. *)

Lemma volatility_message_head msg :
  volatility_message msg -> String.get 0 msg = Some "E"%char.
Proof. intros [(level & prev & ->)|(level & ->)]; reflexivity. Qed.

Lemma volatility_messages_differ level prev level' :
  rising_volatility_message level prev <> elevated_volatility_message level'.
Proof.
  intros H. apply (f_equal (String.get 9)) in H. discriminate H.
Qed.

Lemma credit_stress_not_volatility thresholds snapshot msg :
  credit_stress thresholds snapshot = Some msg -> ~ volatility_message msg.
Proof.
  unfold credit_stress. intros H Hv. apply volatility_message_head in Hv.
  destruct (get snapshot "HYG") as [hyg|]; [|discriminate]. simpl in H.
  destruct (change_5d_pct hyg) as [c|]; [|discriminate]. simpl in H.
  destruct (Qleb c _); [|discriminate]. injection H as <-. discriminate Hv.
Qed.

Lemma liquidity_tightening_not_volatility thresholds snapshot msg :
  liquidity_tightening thresholds snapshot = Some msg -> ~ volatility_message msg.
Proof.
  unfold liquidity_tightening. intros H Hv. apply volatility_message_head in Hv.
  destruct (get snapshot "DX-Y.NYB") as [dxy|]; [|discriminate]. simpl in H.
  destruct (change_5d_pct dxy) as [c|]; [|discriminate]. simpl in H.
  destruct (Qgeb c _); [|discriminate]. injection H as <-. discriminate Hv.
Qed.

Lemma combined_stress_not_volatility thresholds snapshot msg :
  combined_stress thresholds snapshot = Some msg -> ~ volatility_message msg.
Proof.
  unfold combined_stress. intros H Hv. apply volatility_message_head in Hv.
  destruct (get snapshot "SPY") as [spy|]; [|discriminate]. simpl in H.
  destruct (get snapshot "TLT") as [tlt|]; [|discriminate]. simpl in H.
  destruct (Qleb _ _ && Qltb _ _); [|discriminate]. injection H as <-. discriminate Hv.
Qed.

Lemma structural_weakness_not_volatility snapshot msg :
  structural_weakness snapshot = Some msg -> ~ volatility_message msg.
Proof.
  unfold structural_weakness. intros H Hv. apply volatility_message_head in Hv.
  destruct (get snapshot "SPY") as [spy|]; [|discriminate]. simpl in H.
  destruct (get snapshot "^TNX") as [tnx|]; [|discriminate]. simpl in H.
  destruct (is_below_200dma spy && Qgtb _ _); [|discriminate].
  injection H as <-. discriminate Hv.
Qed.

Lemma in_added (condition : option string) msg :
  In msg (added condition) <-> condition = Some msg.
Proof.
  destruct condition as [m|]; simpl; split.
  - intros [->|[]]. reflexivity.
  - intros [= ->]. left. reflexivity.
  - intros [].
  - discriminate.
Qed.

(** The volatility explanations among the triggers are those of the
    volatility check. *)
Lemma volatility_trigger_origin config_yml vix_prev snapshot msg :
  In msg (triggers (assess_regime config_yml vix_prev snapshot)) /\ volatility_message msg <->
  elevated_volatility (load_regime_thresholds config_yml) vix_prev snapshot = Some msg.
Proof.
  rewrite assess_regime_triggers. unfold active_triggers. simpl flat_map.
  rewrite app_nil_r, !in_app_iff, !in_added. split.
  - intros [[H|[H|[H|[H|H]]]] Hv]; [exfalso| exfalso | exact H | exfalso | exfalso].
    + exact (credit_stress_not_volatility _ _ _ H Hv).
    + exact (liquidity_tightening_not_volatility _ _ _ H Hv).
    + exact (combined_stress_not_volatility _ _ _ H Hv).
    + exact (structural_weakness_not_volatility _ _ H Hv).
  - intros H. split; [tauto|].
    unfold elevated_volatility in H.
    destruct (get snapshot "^VIX") as [vix|]; [|discriminate]. simpl in H.
    destruct (Qgeb _ _); [|discriminate].
    destruct vix_prev as [p|].
    + destruct (Qgtb _ _); [|discriminate]. injection H as <-. left. eauto.
    + injection H as <-. right. eauto.
Qed.

Lemma elevated_volatility_spec thresholds vix_prev snapshot msg :
  elevated_volatility thresholds vix_prev snapshot = Some msg <->
  exists vix, get snapshot "^VIX" = Some vix /\
    (default 30%Q (thresholds !! "vix_level_threshold") <= current_price vix)%Q /\
    match vix_prev with
    | Some prev => (prev < current_price vix)%Q /\
                   msg = rising_volatility_message (current_price vix) prev
    | None => msg = elevated_volatility_message (current_price vix)
    end.
Proof.
  unfold elevated_volatility. split.
  - intros H. destruct (get snapshot "^VIX") as [vix|]; [|discriminate]. simpl in H.
    destruct (Qgeb _ _) eqn:Hlevel; [|discriminate]. apply Qgeb_ge in Hlevel.
    exists vix. split; [reflexivity|]. split; [exact Hlevel|].
    destruct vix_prev as [prev|].
    + destruct (Qgtb _ _) eqn:Hrise; [|discriminate]. apply Qgtb_gt in Hrise.
      injection H as <-. split; [exact Hrise | reflexivity].
    + injection H as <-. reflexivity.
  - intros (vix & -> & Hlevel & H). simpl. apply Qgeb_ge in Hlevel. rewrite Hlevel.
    destruct vix_prev as [prev|].
    + destruct H as [Hrise ->]. apply Qgtb_gt in Hrise. rewrite Hrise. reflexivity.
    + rewrite H. reflexivity.
Qed.

(** C7. The volatility trigger of [assess_regime].  A volatility
    explanation is among the triggers exactly when the volatility index is
    in the snapshot, its level is at or above the configured threshold and,
    if a previous close is known, strictly above it.  With a previous
    close the explanation is the elevated-and-rising one, without it the
    level-only one, and the two texts are never equal.  At or above the
    threshold but not above a known previous close, the trigger does not
    fire.  The threshold is 30 without a configuration file and when the
    file does not set it. *)
Theorem volatility_trigger_elevated_and_rising config_yml vix_prev snapshot :
  let a := assess_regime config_yml vix_prev snapshot in
  let threshold := vix_level_threshold config_yml in
  let fired := exists msg, In msg (triggers a) /\ volatility_message msg in
  (fired <->
     exists vix, get snapshot "^VIX" = Some vix /\
       (threshold <= current_price vix)%Q /\
       match vix_prev with
       | Some prev => (prev < current_price vix)%Q
       | None => True
       end) /\
  (forall vix prev,
      get snapshot "^VIX" = Some vix -> vix_prev = Some prev ->
      (threshold <= current_price vix)%Q -> (prev < current_price vix)%Q ->
      In (rising_volatility_message (current_price vix) prev) (triggers a)) /\
  (forall vix,
      get snapshot "^VIX" = Some vix -> vix_prev = None ->
      (threshold <= current_price vix)%Q ->
      In (elevated_volatility_message (current_price vix)) (triggers a)) /\
  (forall vix prev,
      get snapshot "^VIX" = Some vix -> vix_prev = Some prev ->
      (current_price vix <= prev)%Q -> ~ fired) /\
  (forall level prev level',
      rising_volatility_message level prev <> elevated_volatility_message level') /\
  vix_level_threshold None = 30%Q /\
  (forall regime_section,
      regime_section !! "vix_level_threshold" = None ->
      vix_level_threshold (Some regime_section) = 30%Q).
Proof.
  intros a threshold fired. subst a threshold fired. unfold vix_level_threshold.
  set (thresholds := load_regime_thresholds config_yml).
  assert (Hfired : (exists msg, In msg (triggers (assess_regime config_yml vix_prev snapshot))
                                /\ volatility_message msg) <->
                   exists vix, get snapshot "^VIX" = Some vix /\
                     (default 30%Q (thresholds !! "vix_level_threshold") <= current_price vix)%Q /\
                     match vix_prev with
                     | Some prev => (prev < current_price vix)%Q
                     | None => True
                     end).
  { split.
    - intros (msg & Hmsg). apply volatility_trigger_origin in Hmsg.
      apply elevated_volatility_spec in Hmsg. destruct Hmsg as (vix & Hvix & Hlevel & H).
      exists vix. split; [exact Hvix|]. split; [exact Hlevel|].
      destruct vix_prev; tauto.
    - intros (vix & Hvix & Hlevel & H).
      destruct vix_prev as [prev|].
      + exists (rising_volatility_message (current_price vix) prev).
        apply volatility_trigger_origin, elevated_volatility_spec. eauto.
      + exists (elevated_volatility_message (current_price vix)).
        apply volatility_trigger_origin, elevated_volatility_spec. eauto. }
  split; [exact Hfired|]. split; [|split; [|split; [|split; [|split]]]].
  - intros vix prev Hvix -> Hlevel Hrise.
    apply (volatility_trigger_origin config_yml (Some prev) snapshot).
    apply elevated_volatility_spec. eauto.
  - intros vix Hvix -> Hlevel.
    apply (volatility_trigger_origin config_yml None snapshot).
    apply elevated_volatility_spec. eauto.
  - intros vix prev Hvix -> Hle Hf. apply Hfired in Hf.
    destruct Hf as (vix' & Hvix' & _ & Hrise). rewrite Hvix in Hvix'.
    injection Hvix' as <-. exact (Qlt_not_le _ _ Hrise Hle).
  - apply volatility_messages_differ.
  - reflexivity.
  - intros regime_section Hmissing. simpl. rewrite Hmissing. reflexivity.
Qed.

(** C7 with the volatility index at 35: above a previous close of 32,
    without a previous close, and below a previous close of 36. *)
Lemma volatility_trigger_elevated_and_rising_witness :
  In (rising_volatility_message 35 32)
     (triggers (assess_regime None (Some 32%Q) stressed_snapshot)) /\
  In (elevated_volatility_message 35)
     (triggers (assess_regime None None stressed_snapshot)) /\
  ~ (exists msg, In msg (triggers (assess_regime None (Some 36%Q) stressed_snapshot)) /\
                 volatility_message msg).
Proof.
  destruct (volatility_trigger_elevated_and_rising None (Some 32%Q) stressed_snapshot)
    as (_ & Hrising & _).
  destruct (volatility_trigger_elevated_and_rising None None stressed_snapshot)
    as (_ & _ & Hlevel & _).
  destruct (volatility_trigger_elevated_and_rising None (Some 36%Q) stressed_snapshot)
    as (_ & _ & _ & Hquiet & _).
  split; [|split].
  - apply (Hrising (quote "^VIX" 35 9 (Some 40%Q)) 32%Q);
      [reflexivity | reflexivity | discriminate | reflexivity].
  - apply (Hlevel (quote "^VIX" 35 9 (Some 40%Q))); [reflexivity | reflexivity | discriminate].
  - apply (Hquiet (quote "^VIX" 35 9 (Some 40%Q)) 36%Q);
      [reflexivity | reflexivity | discriminate].
Defined.

End RegimeFacts.

(** ** End to end: a high-yield sell-off *)

Module EndToEndFacts.
Import Py Data Indicators Rules RulesSpec Regime RegimeSpec EndToEndSpec Samples.
Import PyFacts RulesFacts RegimeFacts.
#[local] Open Scope string_scope.

Lemma get_hyg_only ts hyg : get (hyg_only ts hyg) "HYG" = Some hyg.
Proof. apply lookup_singleton_eq. Qed.

Lemma get_hyg_only_other ts hyg sym : sym <> "HYG" -> get (hyg_only ts hyg) sym = None.
Proof. intros H. apply lookup_singleton_ne. congruence. Qed.

Lemma hyg_only_rules ts hyg :
  (intraday_change_pct hyg == -2.0)%Q ->
  map (fun t => name (rule t)) (contributions default_config (hyg_only ts hyg) RULES) =
  match change_5d_pct hyg with
  | Some c => if Qleb c (-3.0) then ["CREDIT_STRESS_INTRADAY"; "CREDIT_STRESS_5D"]
              else ["CREDIT_STRESS_INTRADAY"]
  | None => ["CREDIT_STRESS_INTRADAY"]
  end.
Proof.
  intros Hchange.
  assert (Hfire : Qleb (intraday_change_pct hyg) (-1.5) = true).
  { apply Qleb_le. rewrite Hchange. discriminate. }
  unfold contributions, RULES, STATIC_RULES, DRAWDOWN_LEVELS.
  cbn [flat_map map app]. unfold contribution. cbn [check drawdown_rule].
  unfold check_credit_stress_intraday, check_combined_stress, check_credit_stress_5d,
    check_liquidity_stress_intraday, check_liquidity_stress_5d, check_volatility_elevated,
    check_volatility_spike, check_growth_weakness, check_smallcap_weakness,
    check_defensive_hedge_bid, check_risk_appetite_positive, check_btc_major_move,
    create_drawdown_checker.
  rewrite !get_hyg_only, !get_hyg_only_other by discriminate.
  change (get_threshold default_config "credit_stress_intraday" (-1.5)) with (-1.5)%Q.
  change (get_threshold default_config "credit_stress_5d" (-3.0)) with (-3.0)%Q.
  rewrite Hfire.
  destruct (change_5d_pct hyg) as [c|]; [|reflexivity].
  destruct (Qleb c (-3.0)); reflexivity.
Qed.

Lemma hyg_only_regime ts hyg vix_prev :
  assess_regime None vix_prev (hyg_only ts hyg) =
  let active := added (credit_stress default_thresholds (hyg_only ts hyg)) in
  {| regime := match active with [] => NORMAL | _ :: _ => DEFENSIVE end;
     triggers := active;
     summary := summary_for (length active) |}.
Proof.
  rewrite assess_regime_spec. unfold active_triggers.
  unfold liquidity_tightening, elevated_volatility, combined_stress, structural_weakness.
  rewrite !get_hyg_only_other by discriminate.
  cbn [flat_map added mbind option_bind app load_regime_thresholds].
  rewrite app_nil_r. reflexivity.
Qed.

Lemma hyg_only_credit_stress ts hyg :
  credit_stress default_thresholds (hyg_only ts hyg) =
  match change_5d_pct hyg with
  | Some c => if Qleb c (-3.0) then Some (credit_stress_message c) else None
  | None => None
  end.
Proof.
  unfold credit_stress. rewrite get_hyg_only. simpl.
  destruct (change_5d_pct hyg); reflexivity.
Qed.

(** C5 as the specification words it does not hold: with HYG down 2.0% on
    the day and no 5-day change, the regime is NORMAL. *)
Lemma hyg_selloff_refutes_claim : ~ hyg_selloff_claim hyg_selloff None.
Proof.
  intros (_ & Hregime & _). vm_compute in Hregime. discriminate Hregime.
Qed.

(** C5, amended.  On a snapshot that holds only HYG, down 2.0% on the day,
    under the default configuration: when the 5-day change of HYG is absent
    or above -3.0, [evaluate_rules] returns CREDIT_STRESS_INTRADAY alone and
    the regime is NORMAL without triggers; when the 5-day change is at or
    below -3.0, the regime is DEFENSIVE with exactly one trigger, which
    mentions credit stress, and [evaluate_rules] returns
    CREDIT_STRESS_INTRADAY and CREDIT_STRESS_5D. *)
Theorem hyg_selloff_end_to_end ts hyg vix_prev :
  (intraday_change_pct hyg == -2.0)%Q ->
  let snapshot := hyg_only ts hyg in
  let names := triggered_names (evaluate_rules RULES default_config snapshot) in
  let a := assess_regime None vix_prev snapshot in
  ((forall c, change_5d_pct hyg = Some c -> (-3.0 < c)%Q) ->
     names = Some ["CREDIT_STRESS_INTRADAY"] /\
     regime a = NORMAL /\ triggers a = []) /\
  (forall c, change_5d_pct hyg = Some c -> (c <= -3.0)%Q ->
     names = Some ["CREDIT_STRESS_INTRADAY"; "CREDIT_STRESS_5D"] /\
     regime a = DEFENSIVE /\ triggers a = [credit_stress_message c] /\
     str_contains "Credit stress" (credit_stress_message c) = true).
Proof.
  intros Hchange snapshot names a. subst snapshot names a.
  rewrite evaluate_rules_spec. cbn [triggered_names].
  rewrite (hyg_only_rules ts hyg Hchange), hyg_only_regime, hyg_only_credit_stress.
  split.
  - intros Habove. destruct (change_5d_pct hyg) as [c|]; [|repeat split].
    specialize (Habove c eq_refl). apply Qleb_gt in Habove. rewrite Habove.
    repeat split.
  - intros c -> Hbelow. apply Qleb_le in Hbelow. rewrite Hbelow. repeat split.
Qed.

(** C5 after a week of selling: HYG down 2.0% on the day and 3.5% over
    five days. *)
Lemma hyg_selloff_end_to_end_witness :
  let a := assess_regime None None (hyg_only 0 hyg_selloff_after_bad_week) in
  regime a = DEFENSIVE /\ triggers a = [credit_stress_message (-3.5)].
Proof.
  destruct (hyg_selloff_end_to_end 0 hyg_selloff_after_bad_week None) as [_ H].
  - reflexivity.
  - destruct (H (-3.5)%Q) as (_ & Hregime & Htriggers & _).
    + reflexivity.
    + discriminate.
    + split; assumption.
Defined.
End EndToEndFacts.

(** ** The cooldown store *)

Module StorageFacts.
Import Py Rules Storage StorageSpec.
#[local] Open Scope string_scope.

Ltac step := cbn [from_option id mbind outcome_bind negb].

Ltac run_M :=
  unfold mbind, M_bind, mret, M_ret, lift, try_catch, path_exists, read_json, print,
    write_json; cbn [fst snd].

Lemma load_state_document w v :
  state_file w = Document v -> load_state w = (Ok v, w).
Proof. destruct w as [f wr out]. cbn. intros ->. reflexivity. Qed.

Lemma load_state_missing w :
  state_file w = Missing -> load_state w = (Ok empty_state, w).
Proof. destruct w as [f wr out]. cbn. intros ->. reflexivity. Qed.

Lemma load_state_broken w :
  corrupted_or_unreadable (state_file w) ->
  exists line,
    load_state w = (Ok empty_state,
                    {| state_file := state_file w; writable := writable w;
                       stdout := (stdout w ++ [line])%list |}).
Proof.
  destruct w as [f wr out]. cbn. intros [->| ->]; eexists; reflexivity.
Qed.

(** Loading never fails and never touches the file. *)
Lemma load_state_total w :
  exists state w', load_state w = (Ok state, w') /\
    state_file w' = state_file w /\ writable w' = writable w.
Proof.
  destruct (state_file w) as [| | |v] eqn:Hf.
  - exists empty_state, w. rewrite (load_state_missing w Hf). tauto.
  - destruct (load_state_broken w) as (line & Hl); [right; exact Hf|].
    eexists _, _. split; [exact Hl|]. cbn. tauto.
  - destruct (load_state_broken w) as (line & Hl); [left; exact Hf|].
    eexists _, _. split; [exact Hl|]. cbn. tauto.
  - exists v, w. rewrite (load_state_document w v Hf). tauto.
Qed.

Section WithCodec.
Context {codec : IsoCodec}.

Lemma should_fire_unfold config now rule_name severity w :
  should_fire config now rule_name severity w =
  match load_state w with
  | (Ok state, w') => (verdict config now rule_name severity state, w')
  | (Raise e, w') => (Raise e, w')
  end.
Proof.
  unfold should_fire. unfold mbind at 1. unfold M_bind at 1.
  destruct (load_state w) as [[state|e] w']; [|reflexivity].
  unfold verdict, cooldown_window. run_M.
  destruct (py_get state "last_alerts" (JObj ∅)) as [last_alerts|e]; [|reflexivity].
  cbn [mbind outcome_bind].
  destruct (py_contains rule_name last_alerts) as [[|]|e]; cbn; try reflexivity.
  destruct (py_getitem last_alerts rule_name) as [last_fire_str|e]; [|reflexivity].
  unfold py_fromisoformat.
  destruct last_fire_str as [| | |s| |]; try reflexivity.
  cbn -[timedelta_minutes get_cooldown_minutes Z.leb].
  destruct (fromisoformat s) as [[y|y offset]|]; reflexivity.
Qed.

Lemma save_state_spec state w :
  save_state state w =
  if writable w
  then (Ok tt, {| state_file := Document state; writable := true; stdout := stdout w |})
  else (Ok tt, {| state_file := state_file w; writable := writable w;
                  stdout := (stdout w ++
                             ["Warning: Could not save state file: [Errno 13] Permission denied: 'state.json'"])%list |}).
Proof.
  destruct w as [f [|] out]; reflexivity.
Qed.

Lemma record_fire_unfold now rule_name w :
  record_fire now rule_name w =
  match load_state w with
  | (Ok state, w') =>
      match with_fire now rule_name state with
      | Ok state' => save_state state' w'
      | Raise e => (Raise e, w')
      end
  | (Raise e, w') => (Raise e, w')
  end.
Proof.
  unfold record_fire. unfold mbind at 1. unfold M_bind at 1.
  destruct (load_state w) as [[state|e] w']; [|reflexivity].
  unfold with_fire. run_M.
  destruct (py_contains "last_alerts" state) as [[|]|e]; cbn [negb mbind outcome_bind];
    try reflexivity.
  - destruct (py_getitem state "last_alerts") as [last_alerts|e]; [|reflexivity].
    cbn [mbind outcome_bind].
    destruct (py_setitem last_alerts rule_name _) as [last_alerts'|e]; [|reflexivity].
    cbn [mbind outcome_bind].
    destruct (py_setitem state "last_alerts" last_alerts'); reflexivity.
  - destruct (py_setitem state "last_alerts" (JObj ∅)) as [state1|e]; [|reflexivity].
    cbn [mbind outcome_bind].
    destruct (py_getitem state1 "last_alerts") as [last_alerts|e]; [|reflexivity].
    cbn [mbind outcome_bind].
    destruct (py_setitem last_alerts rule_name _) as [last_alerts'|e]; [|reflexivity].
    cbn [mbind outcome_bind].
    destruct (py_setitem state1 "last_alerts" last_alerts'); reflexivity.
Qed.

Lemma with_fire_object now rule_name (state : gmap string json) :
  match state !! "last_alerts" with
  | Some (JObj _) | None =>
      with_fire now rule_name (JObj state) =
      Ok (JObj (<["last_alerts" := JObj (<[rule_name := JStr (isoformat now)]>
                                           (entries_of state))]> state))
  | Some _ => exists e, with_fire now rule_name (JObj state) = Raise e
  end.
Proof.
  unfold with_fire, entries_of. cbn [py_contains mbind outcome_bind].
  destruct (state !! "last_alerts") as [v|] eqn:Hla.
  - rewrite bool_decide_true by eauto.
    cbn [negb mbind outcome_bind py_getitem]. rewrite Hla.
    destruct v; cbn; eauto.
  - rewrite bool_decide_false by (intros [? ?]; discriminate).
    cbn [negb mbind outcome_bind py_setitem py_getitem]. rewrite lookup_insert_eq.
    cbn [mbind outcome_bind py_setitem]. rewrite insert_insert_eq. reflexivity.
Qed.

Lemma with_fire_inv now rule_name state state' :
  with_fire now rule_name state = Ok state' ->
  exists m, state = JObj m /\
    state' = JObj (<["last_alerts" := JObj (<[rule_name := JStr (isoformat now)]>
                                            (entries_of m))]> m).
Proof.
  intros H. destruct state as [| | | |l|m].
  1-3: discriminate H.
  - unfold with_fire in H. cbn in H. destruct (str_contains _ _); discriminate H.
  - unfold with_fire in H. cbn in H. destruct (existsb _ l); discriminate H.
  - exists m. split; [reflexivity|].
    pose proof (with_fire_object now rule_name m) as Hobj.
    destruct (m !! "last_alerts") as [[| | | | |la]|];
      [destruct Hobj as [e He]; congruence ..| |]; congruence.
Qed.


Lemma verdict_empty_state config now rule_name severity :
  verdict config now rule_name severity empty_state = Ok true.
Proof.
  unfold verdict, empty_state, py_get. rewrite lookup_insert_eq. step.
  unfold py_contains. rewrite lookup_empty.
  rewrite bool_decide_false by (intros [? ?]; discriminate). reflexivity.
Qed.





Lemma entries_of_empty_state rule_name :
  entries_of (<["last_alerts" := JObj ∅]> (<["version" := JNum 1]> ∅)) !! rule_name = None.
Proof. unfold entries_of. rewrite lookup_insert_eq. apply lookup_empty. Qed.

(** C10. Frame of the cooldown store.  For two distinct rule names,
    [record_fire] of the first leaves the last-fire entry of the second as
    it was, and leaves the schema version of a persisted state as it was;
    [should_fire] leaves the state file as it was. *)
Theorem cooldown_state_frame now rule_a rule_b w :
  rule_a <> rule_b ->
  let w' := world_after (record_fire now rule_a) w in
  last_alert (state_file w') rule_b = last_alert (state_file w) rule_b /\
  (forall v, state_file w = Document v ->
     schema_version (state_file w') = schema_version (state_file w)) /\
  (forall config now' rule_name severity,
     state_file (world_after (should_fire config now' rule_name severity) w) =
     state_file w).
Proof.
  intros Hne w'. subst w'. unfold world_after.
  destruct (load_state_total w) as (state & w1 & Hload & Hfile1 & Hwritable1).
  assert (Hshould : forall config now' rule_name severity,
             state_file (snd (should_fire config now' rule_name severity w)) =
             state_file w).
  { intros. rewrite should_fire_unfold, Hload. exact Hfile1. }
  rewrite record_fire_unfold, Hload.
  destruct (with_fire now rule_a state) as [state'|e] eqn:Hfire;
    [|cbn [snd]; rewrite Hfile1; auto].
  rewrite save_state_spec.
  destruct (writable w1); [|cbn [snd state_file]; rewrite Hfile1; auto].
  cbn [snd state_file].
  apply with_fire_inv in Hfire. destruct Hfire as (m & -> & ->).
  assert (Hentry : last_alert (Document (JObj (<["last_alerts" :=
                      JObj (<[rule_a := JStr (isoformat now)]> (entries_of m))]> m))) rule_b =
                   entries_of m !! rule_b).
  { cbn [last_alert]. rewrite lookup_insert_eq. apply lookup_insert_ne. exact Hne. }
  rewrite Hentry. split; [|split; [|exact Hshould]].
  - destruct (state_file w) as [| | |v] eqn:Hfile.
    + rewrite (load_state_missing w Hfile) in Hload. unfold empty_state in Hload.
      injection Hload as <- _. apply entries_of_empty_state.
    + destruct (load_state_broken w) as (line & Hl); [right; exact Hfile|].
      rewrite Hl in Hload. unfold empty_state in Hload.
      injection Hload as <- _. apply entries_of_empty_state.
    + destruct (load_state_broken w) as (line & Hl); [left; exact Hfile|].
      rewrite Hl in Hload. unfold empty_state in Hload.
      injection Hload as <- _. apply entries_of_empty_state.
    + rewrite (load_state_document w v Hfile) in Hload. injection Hload as -> _.
      unfold last_alert, entries_of.
      destruct (m !! "last_alerts") as [[| | | | |la]|]; first [reflexivity | apply lookup_empty].
  - intros v Hfile. rewrite (load_state_document w v Hfile) in Hload.
    injection Hload as -> _. rewrite Hfile. cbn [schema_version].
    apply lookup_insert_ne. discriminate.
Qed.


End WithCodec.

(** The statements above, run with the reference text format. *)

Import Samples Iso8601.



(** C10 on a state with two entries: firing VOLATILITY_SPIKE leaves the
    entry of CREDIT_STRESS_5D and the version. *)
Lemma cooldown_state_frame_witness :
  let w' := world_after (record_fire monday_morning "VOLATILITY_SPIKE") edited_state in
  last_alert (state_file w') "CREDIT_STRESS_5D" = Some (JStr "2024-01-15T09:00:00") /\
  schema_version (state_file w') = Some (JNum 1).
Proof.
  destruct (cooldown_state_frame monday_morning "VOLATILITY_SPIKE" "CREDIT_STRESS_5D"
              edited_state) as (Hentry & Hversion & _).
  - discriminate.
  - split.
    + rewrite Hentry. vm_compute. reflexivity.
    + rewrite (Hversion _ eq_refl). vm_compute. reflexivity.
Defined.

End StorageFacts.

(** ** The rule registry, further *)

Module RulesMoreFacts.
Import Py Data Indicators Rules RulesSpec RulesMoreSpec Samples PyFacts RulesFacts.
#[local] Open Scope string_scope.

Ltac behave :=
  intros config snapshot ctx;
  repeat match goal with
         | |- context [get snapshot ?s] =>
             let H := fresh "Hget" in destruct (get snapshot s) eqn:H
         | |- context [change_5d_pct ?d] => destruct (change_5d_pct d)
         | |- context [get_drawdown_from_high ?d] => destruct (get_drawdown_from_high d)
         | |- context [if ?b then _ else _] => destruct b
         end;
  eexists _, _; (split; [reflexivity|]); intros Hb; try discriminate Hb;
  repeat constructor; eauto.

Lemma check_credit_stress_intraday_behaved :
  well_behaved check_credit_stress_intraday ["HYG"].
Proof. unfold check_credit_stress_intraday. behave. Qed.

Lemma check_combined_stress_behaved : well_behaved check_combined_stress ["SPY"; "TLT"].
Proof. unfold check_combined_stress. behave. Qed.

Lemma check_credit_stress_5d_behaved : well_behaved check_credit_stress_5d ["HYG"].
Proof. unfold check_credit_stress_5d. behave. Qed.

Lemma check_liquidity_stress_intraday_behaved :
  well_behaved check_liquidity_stress_intraday ["DX-Y.NYB"].
Proof. unfold check_liquidity_stress_intraday. behave. Qed.

Lemma check_liquidity_stress_5d_behaved :
  well_behaved check_liquidity_stress_5d ["DX-Y.NYB"].
Proof. unfold check_liquidity_stress_5d. behave. Qed.

Lemma check_volatility_elevated_behaved : well_behaved check_volatility_elevated ["^VIX"].
Proof. unfold check_volatility_elevated. behave. Qed.

Lemma check_volatility_spike_behaved : well_behaved check_volatility_spike ["^VIX"].
Proof. unfold check_volatility_spike. behave. Qed.

Lemma check_growth_weakness_behaved : well_behaved check_growth_weakness ["QQQ"; "SPY"].
Proof. unfold check_growth_weakness. behave. Qed.

Lemma check_smallcap_weakness_behaved : well_behaved check_smallcap_weakness ["IWM"; "SPY"].
Proof. unfold check_smallcap_weakness. behave. Qed.

Lemma check_defensive_hedge_bid_behaved :
  well_behaved check_defensive_hedge_bid ["GLD"; "TLT"].
Proof. unfold check_defensive_hedge_bid. behave. Qed.

Lemma check_risk_appetite_positive_behaved :
  well_behaved check_risk_appetite_positive ["SPY"; "QQQ"].
Proof. unfold check_risk_appetite_positive. behave. Qed.

Lemma check_btc_major_move_behaved : well_behaved check_btc_major_move ["BTC-USD"].
Proof. unfold check_btc_major_move. behave. Qed.

Lemma create_drawdown_checker_behaved level :
  well_behaved (create_drawdown_checker level) ["SPY"].
Proof. unfold create_drawdown_checker. behave. Qed.

(** Every rule of the registry is well behaved for the instruments listed
    under its name. *)
Lemma registry_behaved r :
  In r RULES -> well_behaved (check r) (REQUIRED_SYMBOLS (name r)).
Proof.
  unfold RULES, STATIC_RULES, DRAWDOWN_LEVELS. simpl In.
  intros H.
  repeat (destruct H as [<-|H];
          [first [ exact check_credit_stress_intraday_behaved
                 | exact check_combined_stress_behaved
                 | exact check_credit_stress_5d_behaved
                 | exact check_liquidity_stress_intraday_behaved
                 | exact check_liquidity_stress_5d_behaved
                 | exact check_volatility_elevated_behaved
                 | exact check_volatility_spike_behaved
                 | exact check_growth_weakness_behaved
                 | exact check_smallcap_weakness_behaved
                 | exact check_defensive_hedge_bid_behaved
                 | exact check_risk_appetite_positive_behaved
                 | exact check_btc_major_move_behaved
                 | exact (create_drawdown_checker_behaved _) ]|]).
  destruct H.
Qed.




(** X2. A built-in rule triggers only when every instrument it reads is in
    the snapshot; on a snapshot with no data nothing triggers. *)
Theorem absent_data_never_triggers config snapshot triggered out :
  evaluate_rules RULES config snapshot = Ok (triggered, out) ->
  (forall t sym, In t triggered -> In sym (REQUIRED_SYMBOLS (name (rule t))) ->
                 is_Some (get snapshot sym)) /\
  (data snapshot = ∅ -> triggered = []).
Proof.
  rewrite evaluate_rules_spec. intros Hrun. injection Hrun as Htriggered _.
  change (contributions config snapshot RULES = triggered) in Htriggered.
  subst triggered.
  assert (Hpresent : forall t sym,
             In t (contributions config snapshot RULES) ->
             In sym (REQUIRED_SYMBOLS (name (rule t))) -> is_Some (get snapshot sym)).
  { intros t sym Ht Hsym. apply in_contributions in Ht.
    destruct Ht as (r & ctx & Hr & Hc & ->). cbn [rule] in Hsym.
    destruct (registry_behaved r Hr config snapshot ∅) as (b & ctx' & Hc' & Hb).
    rewrite Hc in Hc'. injection Hc' as <- <-.
    specialize (Hb eq_refl). rewrite Forall_forall in Hb. apply Hb.
    apply list_elem_of_In. exact Hsym. }
  split; [exact Hpresent|].
  intros Hempty.
  assert (Hnil : forall l : list TriggeredRule, (forall x, ~ In x l) -> l = []).
  { intros [|x l] Hl; [reflexivity|]. exfalso. apply (Hl x). left. reflexivity. }
  apply Hnil. intros t Ht.
  pose proof Ht as Ht'. apply in_contributions in Ht'.
  destruct Ht' as (r & ctx & Hr & _ & ->).
  assert (Hsome : exists sym, In sym (REQUIRED_SYMBOLS (name r))).
  { clear -Hr. unfold RULES, STATIC_RULES, DRAWDOWN_LEVELS in Hr. simpl In in Hr.
    repeat (destruct Hr as [<-|Hr]; [eexists; left; reflexivity|]). destruct Hr. }
  destruct Hsome as (sym & Hsym).
  specialize (Hpresent _ sym Ht Hsym). unfold get in Hpresent. rewrite Hempty in Hpresent.
  rewrite lookup_empty in Hpresent. destruct Hpresent as [? ?]. discriminate.
Qed.

(** X2 on a snapshot with no data. *)
Lemma absent_data_never_triggers_witness :
  exists out, evaluate_rules RULES default_config (snapshot_of []) = Ok ([], out).
Proof.
  exists (complaints default_config (snapshot_of []) RULES).
  destruct (absent_data_never_triggers default_config (snapshot_of []) _ _
              (evaluate_rules_spec RULES default_config (snapshot_of []))) as (_ & Hnone).
  rewrite evaluate_rules_spec, (Hnone eq_refl). reflexivity.
Defined.

Lemma contribution_rule config snapshot r :
  contribution config snapshot r = [] \/
  exists t, contribution config snapshot r = [t] /\ rule t = r.
Proof.
  unfold contribution.
  destruct (check r config snapshot ∅) as [[[|] ctx]|e]; eauto.
Qed.

(** X3. For any registry, [evaluate_rules] returns, and the rules of the
    triggered records are a subsequence of the registry: registration
    order is kept and there are never more records than rules. *)
Theorem evaluate_rules_keeps_registration_order registry config snapshot :
  exists triggered out,
    evaluate_rules registry config snapshot = Ok (triggered, out) /\
    sublist (map rule triggered) registry /\
    (length triggered <= length registry)%nat.
Proof.
  exists (contributions config snapshot registry), (complaints config snapshot registry).
  split; [apply evaluate_rules_spec|].
  assert (Hsub : sublist (map rule (contributions config snapshot registry)) registry).
  { induction registry as [|r rest IH]; [constructor|].
    change (contributions config snapshot (r :: rest))
      with (contribution config snapshot r ++ contributions config snapshot rest)%list.
    destruct (contribution_rule config snapshot r) as [->|(t & -> & <-)].
    - apply sublist_cons. exact IH.
    - apply sublist_skip. exact IH. }
  split; [exact Hsub|].
  apply sublist_length in Hsub. rewrite length_map in Hsub. exact Hsub.
Qed.

Lemma get_rule_by_name_Some registry n r :
  get_rule_by_name registry n = Some r -> In r registry /\ name r = n.
Proof.
  induction registry as [|r0 rest IH]; [discriminate|]. simpl.
  destruct (String.eqb (name r0) n) eqn:Hn.
  - intros [= <-]. apply String.eqb_eq in Hn. auto.
  - intros H. destruct (IH H). auto.
Qed.

Lemma get_rule_by_name_None registry n :
  get_rule_by_name registry n = None <-> forall r, In r registry -> name r <> n.
Proof.
  induction registry as [|r0 rest IH]; simpl.
  - split; [intros _ r []|reflexivity].
  - destruct (String.eqb (name r0) n) eqn:Hn.
    + apply String.eqb_eq in Hn. split; [discriminate|].
      intros H. exfalso. apply (H r0); auto.
    + apply String.eqb_neq in Hn. rewrite IH. split.
      * intros H r [<-|Hr]; auto.
      * intros H r Hr. apply H. auto.
Qed.

Lemma get_rule_by_name_unique registry r :
  NoDup (map name registry) -> In r registry ->
  get_rule_by_name registry (name r) = Some r.
Proof.
  induction registry as [|r0 rest IH]; intros Hnodup Hr; [destruct Hr|].
  simpl. inversion Hnodup as [|? ? Hfresh Hrest]; subst.
  destruct Hr as [->|Hr].
  - rewrite String.eqb_refl. reflexivity.
  - destruct (String.eqb (name r0) (name r)) eqn:Hn.
    + apply String.eqb_eq in Hn. exfalso. apply Hfresh. rewrite Hn.
      apply list_elem_of_In, in_map, Hr.
    + apply IH; assumption.
Qed.

Lemma RULES_names_unique : NoDup (map name RULES).
Proof.
  assert (H : map name RULES =
    ["CREDIT_STRESS_INTRADAY"; "COMBINED_STRESS"; "CREDIT_STRESS_5D";
     "LIQUIDITY_STRESS_INTRADAY"; "LIQUIDITY_STRESS_5D"; "VOLATILITY_ELEVATED";
     "VOLATILITY_SPIKE"; "GROWTH_WEAKNESS"; "SMALLCAP_WEAKNESS"; "DEFENSIVE_HEDGE_BID";
     "RISK_APPETITE_POSITIVE"; "BTC_MAJOR_MOVE"; "SPY_DRAWDOWN_2PCT"; "SPY_DRAWDOWN_4PCT";
     "SPY_DRAWDOWN_6PCT"; "SPY_DRAWDOWN_10PCT"; "SPY_DRAWDOWN_15PCT";
     "SPY_DRAWDOWN_20PCT"]) by reflexivity.
  rewrite H. apply (bool_decide_unpack _). vm_compute. exact I.
Qed.

(** X4. [get_rule_by_name] answers a registered rule of the name asked
    for, and [None] only when no registered rule has that name; where names
    are unique every registered rule is found under its own name, and the
    names of the built-in registry are unique. *)
Theorem get_rule_by_name_finds_the_rule registry n :
  match get_rule_by_name registry n with
  | Some r => In r registry /\ name r = n
  | None => forall r, In r registry -> name r <> n
  end /\
  (NoDup (map name registry) ->
   forall r, In r registry -> get_rule_by_name registry (name r) = Some r) /\
  NoDup (map name RULES).
Proof.
  split; [|split].
  - destruct (get_rule_by_name registry n) as [r|] eqn:H.
    + exact (get_rule_by_name_Some _ _ _ H).
    + apply get_rule_by_name_None. exact H.
  - intros Hnodup r Hr. apply get_rule_by_name_unique; assumption.
  - exact RULES_names_unique.
Qed.

(** X4 on the last of the static rules. *)
Lemma get_rule_by_name_finds_the_rule_witness :
  get_rule_by_name RULES "BTC_MAJOR_MOVE" = Some (nth 11 RULES (drawdown_rule 0)).
Proof.
  destruct (get_rule_by_name_finds_the_rule RULES "BTC_MAJOR_MOVE") as (_ & Hround & Hnodup).
  apply (Hround Hnodup (nth 11 RULES (drawdown_rule 0))).
  do 11 right. left. reflexivity.
Defined.

Lemma triggered_by_name config snapshot n r t :
  get_rule_by_name RULES n = Some r ->
  (In t (contributions config snapshot RULES) /\ name (rule t) = n) <->
  exists ctx, check r config snapshot ∅ = Ok (true, ctx) /\ t = triggered_record r ctx.
Proof.
  intros Hn. destruct (get_rule_by_name_Some _ _ _ Hn) as [Hr Hname]. split.
  - intros [Ht Htn]. apply in_contributions in Ht.
    destruct Ht as (r' & ctx & Hr' & Hc & ->).
    change (name r' = n) in Htn. apply (rule_named _ _ Hr') in Htn.
    rewrite Hn in Htn. injection Htn as <-. eauto.
  - intros (ctx & Hc & ->). split; [|exact Hname].
    apply in_contributions. exists r, ctx. auto.
Qed.

(** X5. CREDIT_STRESS_INTRADAY is among the triggered rules exactly when
    the high-yield ETF is in the snapshot and its intraday change is at or
    below the threshold; the record then carries that change as its value
    and HYG as its symbol. *)
Theorem credit_stress_intraday_triggers config snapshot triggered out :
  evaluate_rules RULES config snapshot = Ok (triggered, out) ->
  let threshold := get_threshold config "credit_stress_intraday" (-1.5) in
  (forall hyg,
      get snapshot "HYG" = Some hyg -> (intraday_change_pct hyg <= threshold)%Q ->
      exists t, In t triggered /\ name (rule t) = "CREDIT_STRESS_INTRADAY" /\
                value t = Some (CNum (intraday_change_pct hyg)) /\
                symbol t = Some (CStr "HYG")) /\
  (get snapshot "HYG" = None -> not_triggered triggered "CREDIT_STRESS_INTRADAY") /\
  (forall hyg,
      get snapshot "HYG" = Some hyg -> (threshold < intraday_change_pct hyg)%Q ->
      not_triggered triggered "CREDIT_STRESS_INTRADAY").
Proof.
  rewrite evaluate_rules_spec. intros Hrun. injection Hrun as Htriggered _.
  change (contributions config snapshot RULES = triggered) in Htriggered.
  subst triggered. intros threshold.
  pose proof (fun t => triggered_by_name config snapshot "CREDIT_STRESS_INTRADAY"
                         (nth 0 RULES (drawdown_rule 0)) t eq_refl) as Hiff.
  cbn [nth RULES STATIC_RULES app check] in Hiff.
  unfold check_credit_stress_intraday in Hiff. fold threshold in Hiff.
  split; [|split].
  - intros hyg Hhyg Hle. rewrite Hhyg in Hiff. apply Qleb_le in Hle. rewrite Hle in Hiff.
    eexists. split; [|split; [|split]].
    + apply Hiff. eauto.
    + reflexivity.
    + cbn [triggered_record value]. rewrite lookup_insert_ne by discriminate.
      apply lookup_insert_eq.
    + cbn [triggered_record symbol]. apply lookup_insert_eq.
  - intros Hnone t Ht Hname. rewrite Hnone in Hiff.
    destruct (proj1 (Hiff t) (conj Ht Hname)) as (ctx & Hc & _). discriminate.
  - intros hyg Hhyg Hgt t Ht Hname. rewrite Hhyg in Hiff.
    apply Qleb_gt in Hgt. rewrite Hgt in Hiff.
    destruct (proj1 (Hiff t) (conj Ht Hname)) as (ctx & Hc & _). discriminate.
Qed.

(** X5 on the day of the high-yield sell-off. *)
Lemma credit_stress_intraday_triggers_witness :
  exists t triggered out,
    evaluate_rules RULES default_config hyg_selloff = Ok (triggered, out) /\
    In t triggered /\ name (rule t) = "CREDIT_STRESS_INTRADAY" /\
    value t = Some (CNum (-2.0)).
Proof.
  destruct (credit_stress_intraday_triggers default_config hyg_selloff _ _
              (evaluate_rules_spec RULES default_config hyg_selloff)) as (Hfire & _).
  destruct (Hfire (quote "HYG" 75.5 (-2.0) None)) as (t & Ht & Hname & Hvalue & _).
  - reflexivity.
  - discriminate.
  - exists t. eexists _, _. split; [apply evaluate_rules_spec|]. auto.
Defined.

End RulesMoreFacts.

(** ** The cooldown store, further *)

Module StorageMoreFacts.
Import Py Rules Storage StorageSpec StorageStatus StorageMoreSpec PyFacts StorageFacts.
#[local] Open Scope string_scope.

Lemma round_half_even_bounds q :
  let z := round_half_even q in
  (2 * z * Zpos (Qden q) - Zpos (Qden q) <= 2 * Qnum q
   <= 2 * z * Zpos (Qden q) + Zpos (Qden q))%Z.
Proof.
  destruct q as [n d]. unfold round_half_even. cbn [Qnum Qden].
  pose proof (Z.div_mod n (Zpos d) ltac:(lia)) as Hdm.
  pose proof (Z.mod_pos_bound n (Zpos d) ltac:(lia)) as Hb.
  set (fl := (n / Zpos d)%Z) in *. set (r := (n mod Zpos d)%Z) in *.
  destruct (2 * r <? Zpos d)%Z eqn:H1; [apply Z.ltb_lt in H1; nia|].
  apply Z.ltb_ge in H1.
  destruct (Zpos d <? 2 * r)%Z eqn:H2; [apply Z.ltb_lt in H2; nia|].
  apply Z.ltb_ge in H2.
  destruct (Z.even fl); nia.
Qed.

Lemma round_half_even_tie q z :
  (2 * Qnum q = (2 * z + 1) * Zpos (Qden q))%Z ->
  round_half_even q = if Z.even z then z else (z + 1)%Z.
Proof.
  destruct q as [n d]. unfold round_half_even. cbn [Qnum Qden]. intros Htie.
  pose proof (Z.div_mod n (Zpos d) ltac:(lia)) as Hdm.
  pose proof (Z.mod_pos_bound n (Zpos d) ltac:(lia)) as Hb.
  set (fl := (n / Zpos d)%Z) in *. set (r := (n mod Zpos d)%Z) in *.
  assert (fl = z) by nia. subst z.
  assert (2 * r = Zpos d)%Z by nia.
  rewrite (proj2 (Z.ltb_ge _ _)) by lia. rewrite (proj2 (Z.ltb_ge _ _)) by lia.
  reflexivity.
Qed.

Lemma round_half_even_monotone p q :
  (p <= q)%Q -> (round_half_even p <= round_half_even q)%Z.
Proof.
  intros Hle. unfold Qle in Hle.
  pose proof (round_half_even_bounds p) as Hp.
  pose proof (round_half_even_bounds q) as Hq. cbv zeta in Hp, Hq.
  destruct (Z.le_gt_cases (round_half_even p) (round_half_even q)) as [|Hgt]; [assumption|].
  exfalso.
  set (zp := round_half_even p) in *. set (zq := round_half_even q) in *.
  assert (Hp' : (2 * Qnum p = (2 * zq + 1) * Zpos (Qden p))%Z) by nia.
  assert (Hq' : (2 * Qnum q = (2 * zq + 1) * Zpos (Qden q))%Z) by nia.
  apply round_half_even_tie in Hp', Hq'. fold zp in Hp'. fold zq in Hq'.
  destruct (Z.even zq); lia.
Qed.

Lemma timedelta_minutes_monotone p q :
  (p <= q)%Q -> (timedelta_minutes p <= timedelta_minutes q)%Z.
Proof.
  intros Hle. apply round_half_even_monotone.
  apply Qmult_le_compat_r; [exact Hle|discriminate].
Qed.

Section WithCodec.
Context {codec : IsoCodec}.

(** What [should_fire] answers depends on the state file alone. *)
Lemma should_fire_result config now rule_name severity w :
  result (should_fire config now rule_name severity) w =
  match state_file w with
  | Document v => verdict config now rule_name severity v
  | _ => Ok true
  end.
Proof.
  unfold result. rewrite should_fire_unfold.
  destruct (state_file w) as [| | |v] eqn:Hf.
  - rewrite (load_state_missing w Hf). apply verdict_empty_state.
  - destruct (load_state_broken w) as (line & ->); [right; exact Hf|].
    apply verdict_empty_state.
  - destruct (load_state_broken w) as (line & ->); [left; exact Hf|].
    apply verdict_empty_state.
  - rewrite (load_state_document w v Hf). reflexivity.
Qed.

(** The verdict on a state of the documented shape. *)
Lemma verdict_object config now rule_name severity (state : gmap string json) :
  extendable (Document (JObj state)) ->
  verdict config now rule_name severity (JObj state) =
  match entries_of state !! rule_name with
  | Some (JStr s) =>
      match fromisoformat s with
      | Some last_fire =>
          elapsed ← datetime_sub (Naive now) last_fire;
          Ok (cooldown_window config severity <=? elapsed)%Z
      | None => Ok true
      end
  | _ => Ok true
  end.
Proof.
  intros Hshape. cbn [extendable] in Hshape.
  assert (Hla : default (JObj ∅) (state !! "last_alerts") = JObj (entries_of state)).
  { unfold entries_of. destruct (state !! "last_alerts") as [[| | | | |la]|];
      first [contradiction | reflexivity]. }
  unfold verdict. cbn [py_get]. step. rewrite Hla.
  cbn [py_contains]. step.
  destruct (entries_of state !! rule_name) as [v|] eqn:Hv.
  - rewrite bool_decide_true by eauto. step. cbn [py_getitem]. rewrite Hv. step.
    unfold py_fromisoformat. destruct v; try reflexivity.
    destruct (fromisoformat s); reflexivity.
  - rewrite bool_decide_false by (intros [? ?]; discriminate). reflexivity.
Qed.


(** Where a state file can be extended, the module works from a JSON object
    whose entries are the ones the file holds. *)
Lemma load_state_extendable w :
  extendable (state_file w) ->
  exists (m : gmap string json) w1,
    load_state w = (Ok (JObj m), w1) /\
    loaded (state_file w) = JObj m /\
    state_file w1 = state_file w /\ writable w1 = writable w /\
    extendable (Document (JObj m)) /\
    (forall rule_name, entries_of m !! rule_name = last_alert (state_file w) rule_name).
Proof.
  intros Hshape.
  assert (Hempty : forall rule_name,
             entries_of (<["last_alerts" := JObj ∅]> (<["version" := JNum 1]> ∅)) !! rule_name
             = None) by apply entries_of_empty_state.
  destruct (state_file w) as [| | |v] eqn:Hf.
  - eexists _, w. rewrite (load_state_missing w Hf). repeat split; try assumption.
  - destruct (load_state_broken w) as (line & Hl); [right; exact Hf|].
    eexists _, _. rewrite Hl. repeat split; try assumption.
  - destruct (load_state_broken w) as (line & Hl); [left; exact Hf|].
    eexists _, _. rewrite Hl. repeat split; try assumption.
  - destruct v as [| | | | |m]; try contradiction.
    exists m, w. rewrite (load_state_document w _ Hf). repeat split; try assumption.
    intros rule_name. unfold entries_of, last_alert. cbn [extendable] in Hshape.
    destruct (m !! "last_alerts") as [[| | | | |la]|];
      first [contradiction | reflexivity | apply lookup_empty].
Qed.

Lemma with_fire_extendable now rule_name (m : gmap string json) :
  extendable (Document (JObj m)) ->
  with_fire now rule_name (JObj m) = Ok (fired now rule_name m).
Proof.
  intros Hshape. cbn [extendable] in Hshape.
  pose proof (with_fire_object now rule_name m) as Hfire.
  destruct (m !! "last_alerts") as [[| | | | |la]|]; (contradiction || exact Hfire).
Qed.

Lemma entries_of_fired (m : gmap string json) (entries : gmap string json) :
  entries_of (<["last_alerts" := JObj entries]> m) = entries.
Proof. unfold entries_of. rewrite lookup_insert_eq. reflexivity. Qed.

Lemma fired_extendable now rule_name m :
  extendable (Document (fired now rule_name m)).
Proof. cbn. rewrite lookup_insert_eq. exact I. Qed.

(** What [record_fire] leaves in the file. *)
Lemma record_fire_file now rule_name w :
  state_file (world_after (record_fire now rule_name) w) =
    (if writable w then after_fire now rule_name (state_file w) else state_file w) /\
  writable (world_after (record_fire now rule_name) w) = writable w.
Proof.
  unfold world_after, after_fire. rewrite record_fire_unfold.
  destruct (state_file w) as [| | |v] eqn:Hf.
  - rewrite (load_state_missing w Hf). cbn [loaded].
    destruct (with_fire now rule_name empty_state); [|cbn; destruct (writable w); auto].
    rewrite save_state_spec. destruct (writable w) eqn:Hw; cbn; auto.
  - destruct (load_state_broken w) as (line & ->); [right; exact Hf|]. cbn [loaded].
    destruct (with_fire now rule_name empty_state); [|cbn; destruct (writable w); auto].
    rewrite save_state_spec. cbn [writable]. destruct (writable w) eqn:Hw; cbn; auto.
  - destruct (load_state_broken w) as (line & ->); [left; exact Hf|]. cbn [loaded].
    destruct (with_fire now rule_name empty_state); [|cbn; destruct (writable w); auto].
    rewrite save_state_spec. cbn [writable]. destruct (writable w) eqn:Hw; cbn; auto.
  - rewrite (load_state_document w v Hf). cbn [loaded].
    destruct (with_fire now rule_name v); [|cbn; destruct (writable w); auto].
    rewrite save_state_spec. destruct (writable w) eqn:Hw; cbn; auto.
Qed.

Lemma after_fire_inv now rule_name f :
  (exists m, loaded f = JObj m /\ extendable (Document (JObj m)) /\
             after_fire now rule_name f = Document (fired now rule_name m)) \/
  ((forall now' rule_name', exists e, with_fire now' rule_name' (loaded f) = Raise e) /\
   after_fire now rule_name f = f).
Proof.
  unfold after_fire.
  destruct (loaded f) as [| | | |l|m] eqn:Hl.
  1-5: right; split; [intros now' rule_name'; unfold with_fire; cbn;
                      try destruct (str_contains _ _); try destruct (existsb _ l);
                      cbn; eauto
                     |unfold with_fire; cbn;
                      try destruct (str_contains _ _); try destruct (existsb _ l);
                      reflexivity].
  pose proof (with_fire_object now rule_name m) as Hfire.
  destruct (m !! "last_alerts") as [v|] eqn:Hla.
  - destruct v as [| | | | |la].
    1-5: right; split;
      [intros now' rule_name'; pose proof (with_fire_object now' rule_name' m) as H';
       rewrite Hla in H'; exact H'
      |destruct Hfire as [e ->]; reflexivity].
    left. exists m. rewrite Hfire. cbn [extendable]. rewrite Hla. auto.
  - left. exists m. rewrite Hfire. cbn [extendable]. rewrite Hla. auto.
Qed.


(** X6. The cooldown rule of [should_fire] on a state of the documented
    shape: a rule with no last-fire entry may fire; a rule whose entry
    parses to a naive timestamp may fire exactly when the time elapsed
    since then is at least the cooldown window of the severity. *)
Theorem should_fire_cooldown_rule config now rule_name severity w :
  extendable (state_file w) ->
  (last_alert (state_file w) rule_name = None ->
     result (should_fire config now rule_name severity) w = Ok true) /\
  (forall s last_fire,
     last_alert (state_file w) rule_name = Some (JStr s) ->
     fromisoformat s = Some (Naive last_fire) ->
     result (should_fire config now rule_name severity) w =
     Ok (cooldown_window config severity <=? now - last_fire)%Z).
Proof.
  intros Hshape.
  destruct (load_state_extendable w Hshape) as (m & w1 & Hload & _ & _ & _ & Hm & Hentries).
  unfold result. rewrite should_fire_unfold, Hload. cbn [fst].
  rewrite (verdict_object _ _ _ _ _ Hm), Hentries. split.
  - intros ->. reflexivity.
  - intros s last_fire -> ->. reflexivity.
Qed.

Lemma verdict_monotone config now now' rule_name severity state :
  (now <= now')%Z ->
  verdict config now rule_name severity state = Ok true ->
  verdict config now' rule_name severity state = Ok true.
Proof.
  intros Hle. unfold verdict.
  destruct (py_get state "last_alerts" (JObj ∅)) as [last_alerts|e]; step; [|discriminate].
  destruct (py_contains rule_name last_alerts) as [[|]|e]; step; try discriminate; auto.
  destruct (py_getitem last_alerts rule_name) as [v|e]; step; [|discriminate].
  destruct (py_fromisoformat v) as [[t|t offset]|e]; cbn; auto.
  intros [= H]. apply Z.leb_le in H. f_equal. apply Z.leb_le. lia.
Qed.

Lemma verdict_window config config' now rule_name severity severity' state :
  (cooldown_window config' severity' <= cooldown_window config severity)%Z ->
  verdict config now rule_name severity state = Ok true ->
  verdict config' now rule_name severity' state = Ok true.
Proof.
  intros Hle. unfold verdict.
  destruct (py_get state "last_alerts" (JObj ∅)) as [last_alerts|e]; step; [|discriminate].
  destruct (py_contains rule_name last_alerts) as [[|]|e]; step; try discriminate; auto.
  destruct (py_getitem last_alerts rule_name) as [v|e]; step; [|discriminate].
  destruct (py_fromisoformat v) as [[t|t offset]|e]; cbn; auto.
  intros [= H]. apply Z.leb_le in H. f_equal. apply Z.leb_le. lia.
Qed.

(** X7. Cooldowns only expire: if [should_fire] answers true at some
    time, it answers true at every later time on the same state. *)
Theorem should_fire_monotone_in_time config now now' rule_name severity w :
  (now <= now')%Z ->
  result (should_fire config now rule_name severity) w = Ok true ->
  result (should_fire config now' rule_name severity) w = Ok true.
Proof.
  intros Hle. rewrite !should_fire_result.
  destruct (state_file w); auto. apply verdict_monotone, Hle.
Qed.

Lemma default_cooldowns_ordered config s1 s2 :
  default_cooldowns config ->
  (severity_rank s1 <= severity_rank s2)%nat ->
  (get_cooldown_minutes config s1 <= get_cooldown_minutes config s2)%Q.
Proof.
  unfold get_cooldown_minutes. intros [-> | ->] Hrank;
    destruct s1, s2; cbn in Hrank; try lia; vm_compute; discriminate.
Qed.

(** X8. A severity with a shorter configured cooldown is never held back
    longer: if [should_fire] allows a rule at one severity it allows it at
    every severity whose cooldown is no longer.  With the default cooldown
    table that is every more urgent severity. *)
Theorem should_fire_respects_urgency config now rule_name s1 s2 w :
  result (should_fire config now rule_name s2) w = Ok true ->
  ((get_cooldown_minutes config s1 <= get_cooldown_minutes config s2)%Q ->
     result (should_fire config now rule_name s1) w = Ok true) /\
  (default_cooldowns config -> (severity_rank s1 <= severity_rank s2)%nat ->
     result (should_fire config now rule_name s1) w = Ok true).
Proof.
  intros Hfire.
  assert (Hmain : (get_cooldown_minutes config s1 <= get_cooldown_minutes config s2)%Q ->
                  result (should_fire config now rule_name s1) w = Ok true).
  { intros Hle. rewrite should_fire_result in *.
    destruct (state_file w); auto.
    revert Hfire. apply verdict_window. apply timedelta_minutes_monotone, Hle. }
  split; [exact Hmain|].
  intros Hdefault Hrank. apply Hmain, default_cooldowns_ordered; assumption.
Qed.

Lemma after_fire_twice now1 now2 rule_name f :
  after_fire now2 rule_name (after_fire now1 rule_name f) = after_fire now2 rule_name f.
Proof.
  destruct (after_fire_inv now1 rule_name f) as [(m & Hl & Hm & ->)|[_ ->]]; [|reflexivity].
  unfold after_fire at 1 2. rewrite Hl. cbn [loaded].
  rewrite (with_fire_extendable _ _ _ Hm).
  unfold fired at 1. rewrite with_fire_extendable
    by (cbn; rewrite lookup_insert_eq; exact I).
  unfold fired. rewrite entries_of_fired, !insert_insert_eq. reflexivity.
Qed.

Lemma after_fire_commute now1 now2 rule_a rule_b f :
  rule_a <> rule_b ->
  after_fire now2 rule_b (after_fire now1 rule_a f) =
  after_fire now1 rule_a (after_fire now2 rule_b f).
Proof.
  intros Hne.
  destruct (after_fire_inv now1 rule_a f) as [(m & Hl & Hm & ->)|[Hraise ->]].
  - destruct (after_fire_inv now2 rule_b f) as [(m' & Hl' & _ & ->)|[Hraise _]].
    + assert (m' = m) by congruence. subst m'.
      unfold after_fire. cbn [loaded]. unfold fired at 1 3.
      rewrite !with_fire_extendable by (cbn; rewrite lookup_insert_eq; exact I).
      unfold fired. rewrite !entries_of_fired, !insert_insert_eq.
      do 4 f_equal. apply insert_insert_ne. congruence.
    + destruct (Hraise now1 rule_a) as [e He].
      rewrite Hl, (with_fire_extendable _ _ _ Hm) in He. discriminate He.
  - destruct (after_fire_inv now2 rule_b f) as [(m' & Hl' & Hm' & _)|[_ ->]].
    + destruct (Hraise now2 rule_b) as [e He].
      rewrite Hl', (with_fire_extendable _ _ _ Hm') in He. discriminate He.
    + unfold after_fire. destruct (Hraise now1 rule_a) as [e ->]. reflexivity.
Qed.

(** X9. [record_fire] overwrites: recording a rule twice leaves the state
    file that recording it once, at the later time, leaves. *)
Theorem record_fire_last_writer_wins now1 now2 rule_name w :
  state_file (world_after (record_fire now2 rule_name)
                (world_after (record_fire now1 rule_name) w)) =
  state_file (world_after (record_fire now2 rule_name) w).
Proof.
  destruct (record_fire_file now1 rule_name w) as [Hf1 Hw1].
  destruct (record_fire_file now2 rule_name w) as [Hf2 _].
  destruct (record_fire_file now2 rule_name (world_after (record_fire now1 rule_name) w))
    as [Hf12 _].
  rewrite Hf12, Hw1, Hf1, Hf2. destruct (writable w); [|reflexivity].
  apply after_fire_twice.
Qed.

(** X10. Fires of two different rules can be recorded in either order:
    the state file is the same. *)
Theorem record_fire_commutes now1 now2 rule_a rule_b w :
  rule_a <> rule_b ->
  state_file (world_after (record_fire now2 rule_b)
                (world_after (record_fire now1 rule_a) w)) =
  state_file (world_after (record_fire now1 rule_a)
                (world_after (record_fire now2 rule_b) w)).
Proof.
  intros Hne.
  destruct (record_fire_file now1 rule_a w) as [Hfa Hwa].
  destruct (record_fire_file now2 rule_b w) as [Hfb Hwb].
  destruct (record_fire_file now2 rule_b (world_after (record_fire now1 rule_a) w))
    as [Hfab _].
  destruct (record_fire_file now1 rule_a (world_after (record_fire now2 rule_b) w))
    as [Hfba _].
  rewrite Hfab, Hfba, Hwa, Hwb, Hfa, Hfb. destruct (writable w); [|reflexivity].
  apply after_fire_commute, Hne.
Qed.

(** X11. When the state file cannot be written, [record_fire] still
    returns normally: it prints a warning, leaves the file as it was, and
    no cooldown starts, so [should_fire] answers as before. *)
Theorem record_fire_unsaved now rule_name w :
  writable w = false ->
  extendable (state_file w) ->
  let w' := world_after (record_fire now rule_name) w in
  result (record_fire now rule_name) w = Ok tt /\
  state_file w' = state_file w /\
  warned_not_saved w' /\
  forall config now' rule_name' severity,
    result (should_fire config now' rule_name' severity) w' =
    result (should_fire config now' rule_name' severity) w.
Proof.
  intros Hw Hshape w'.
  assert (Hfile : state_file w' = state_file w).
  { subst w'. rewrite (proj1 (record_fire_file now rule_name w)), Hw. reflexivity. }
  split; [|split; [exact Hfile|split]].
  - destruct (load_state_extendable w Hshape) as (m & w1 & Hload & _ & _ & Hw1 & Hm & _).
    unfold result. rewrite record_fire_unfold, Hload, (with_fire_extendable _ _ _ Hm).
    rewrite save_state_spec, Hw1, Hw. reflexivity.
  - destruct (load_state_extendable w Hshape) as (m & w1 & Hload & _ & _ & Hw1 & Hm & _).
    subst w'. unfold world_after, warned_not_saved.
    rewrite record_fire_unfold, Hload, (with_fire_extendable _ _ _ Hm).
    rewrite save_state_spec, Hw1, Hw. cbn [snd stdout].
    eexists. rewrite last_snoc. reflexivity.
  - intros. rewrite !should_fire_result, Hfile. reflexivity.
Qed.


Lemma get_last_fire_time_unfold rule_name w :
  get_last_fire_time rule_name w =
  match load_state w with
  | (Ok state, w') => (last_fire_of rule_name state, w')
  | (Raise e, w') => (Raise e, w')
  end.
Proof.
  unfold get_last_fire_time. unfold mbind at 1. unfold M_bind at 1.
  destruct (load_state w) as [[state|e] w']; [|reflexivity].
  unfold last_fire_of. run_M.
  destruct (py_get state "last_alerts" (JObj ∅)) as [last_alerts|e]; [|reflexivity].
  cbn [mbind outcome_bind].
  destruct (py_contains rule_name last_alerts) as [[|]|e]; cbn; try reflexivity.
  destruct (py_getitem last_alerts rule_name) as [last_fire_str|e]; [|reflexivity].
  unfold py_fromisoformat.
  destruct last_fire_str as [| | |s| |]; try reflexivity.
  cbn. destruct (fromisoformat s) as [[y|y offset]|]; reflexivity.
Qed.

Lemma last_fire_of_object rule_name (state : gmap string json) :
  extendable (Document (JObj state)) ->
  last_fire_of rule_name (JObj state) =
  match entries_of state !! rule_name with
  | Some (JStr s) => Ok (fromisoformat s)
  | _ => Ok None
  end.
Proof.
  intros Hshape. cbn [extendable] in Hshape.
  assert (Hla : default (JObj ∅) (state !! "last_alerts") = JObj (entries_of state)).
  { unfold entries_of. destruct (state !! "last_alerts") as [[| | | | |la]|];
      first [contradiction | reflexivity]. }
  unfold last_fire_of. cbn [py_get]. step. rewrite Hla.
  cbn [py_contains]. step.
  destruct (entries_of state !! rule_name) as [v|] eqn:Hv.
  - rewrite bool_decide_true by eauto. step. cbn [py_getitem]. rewrite Hv. step.
    unfold py_fromisoformat. destruct v; try reflexivity.
    destruct (fromisoformat s); reflexivity.
  - rewrite bool_decide_false by (intros [? ?]; discriminate). reflexivity.
Qed.

Lemma get_last_fire_time_result rule_name w :
  extendable (state_file w) ->
  result (get_last_fire_time rule_name) w =
  match last_alert (state_file w) rule_name with
  | Some (JStr s) => Ok (fromisoformat s)
  | _ => Ok None
  end.
Proof.
  intros Hshape.
  destruct (load_state_extendable w Hshape) as (m & w1 & Hload & _ & _ & _ & Hm & Hentries).
  unfold result. rewrite get_last_fire_time_unfold, Hload. cbn [fst].
  rewrite (last_fire_of_object _ _ Hm), Hentries. reflexivity.
Qed.

(** X12. [get_last_fire_time] reads back what [record_fire] wrote: after
    a fire of a rule is recorded it answers that time for the rule, and for
    every other rule what it answered before. *)
Theorem get_last_fire_time_after_record_fire now rule_name w :
  writable w = true ->
  extendable (state_file w) ->
  fromisoformat (isoformat now) = Some (Naive now) ->
  let w' := world_after (record_fire now rule_name) w in
  result (get_last_fire_time rule_name) w' = Ok (Some (Naive now)) /\
  forall other, other <> rule_name ->
    result (get_last_fire_time other) w' = result (get_last_fire_time other) w.
Proof.
  intros Hw Hshape Hcodec w'.
  destruct (load_state_extendable w Hshape) as (m & w1 & Hload & Hl & _ & _ & Hm & Hentries).
  assert (Hfile : state_file w' = Document (fired now rule_name m)).
  { subst w'. rewrite (proj1 (record_fire_file now rule_name w)), Hw.
    unfold after_fire. rewrite Hl, (with_fire_extendable _ _ _ Hm). reflexivity. }
  assert (Hshape' : extendable (state_file w')).
  { rewrite Hfile. apply fired_extendable. }
  assert (Hentry : forall r, last_alert (state_file w') r =
                             <[rule_name := JStr (isoformat now)]> (entries_of m) !! r).
  { intros r. rewrite Hfile. unfold fired. cbn [last_alert].
    rewrite lookup_insert_eq. reflexivity. }
  split.
  - rewrite (get_last_fire_time_result _ _ Hshape'), Hentry, lookup_insert_eq, Hcodec.
    reflexivity.
  - intros other Hne.
    rewrite (get_last_fire_time_result _ _ Hshape'), (get_last_fire_time_result _ _ Hshape).
    rewrite Hentry, lookup_insert_ne by congruence. rewrite Hentries. reflexivity.
Qed.

(** X13. [clear_cooldowns] resets the store: the file holds the empty
    state, every rule may fire at every severity and no rule has a last
    fire time. *)
Theorem clear_cooldowns_resets w :
  writable w = true ->
  let w' := world_after clear_cooldowns w in
  result clear_cooldowns w = Ok tt /\
  state_file w' = Document empty_state /\
  forall config now rule_name severity,
    result (should_fire config now rule_name severity) w' = Ok true /\
    result (get_last_fire_time rule_name) w' = Ok None.
Proof.
  intros Hw w'. subst w'. unfold result, world_after, clear_cooldowns.
  rewrite save_state_spec, Hw. cbn [fst snd state_file].
  split; [reflexivity|]. split; [reflexivity|].
  intros config now rule_name severity.
  rewrite should_fire_unfold, get_last_fire_time_unfold.
  erewrite load_state_document by reflexivity. cbn [fst]. split.
  - apply verdict_empty_state.
  - unfold empty_state.
    rewrite last_fire_of_object by (cbn; rewrite lookup_insert_eq; exact I).
    rewrite entries_of_empty_state. reflexivity.
Qed.

(** X14. A state file that holds valid JSON which is not an object is not
    treated as corrupted: [should_fire] and [get_last_fire_time] raise
    [AttributeError], [record_fire] raises [TypeError] and leaves the file
    as it was. *)
Theorem not_an_object_raises config now rule_name severity w v :
  state_file w = Document v ->
  not_an_object v ->
  (exists msg, result (should_fire config now rule_name severity) w =
               Raise (AttributeError msg)) /\
  (exists msg, result (get_last_fire_time rule_name) w = Raise (AttributeError msg)) /\
  (exists msg, result (record_fire now rule_name) w = Raise (TypeError msg)) /\
  state_file (world_after (record_fire now rule_name) w) = state_file w.
Proof.
  intros Hf Hv. unfold result, world_after.
  rewrite should_fire_unfold, get_last_fire_time_unfold, record_fire_unfold.
  rewrite (load_state_document w v Hf). cbn [fst snd].
  destruct v as [| | |s|l|m]; try contradiction.
  1-3: repeat split; try (eexists; reflexivity); reflexivity.
  - unfold with_fire. cbn [py_contains mbind outcome_bind].
    destruct (str_contains "last_alerts" s); cbn;
      repeat split; try (eexists; reflexivity); reflexivity.
  - unfold with_fire. cbn [py_contains mbind outcome_bind].
    destruct (existsb _ l); cbn;
      repeat split; try (eexists; reflexivity); reflexivity.
Qed.


Lemma status_entry_spec now v : status_entry now v = Ok (status_of now v).
Proof.
  unfold status_entry, status_of, py_fromisoformat.
  destruct v as [| | |s| |]; try reflexivity.
  destruct (fromisoformat s) as [[t|t offset]|]; reflexivity.
Qed.

Lemma status_loop_spec now items status :
  NoDup items.*1 ->
  exists status',
    status_loop now items status = Ok status' /\
    forall rule_name,
      status' !! rule_name =
      match (list_to_map items : gmap string json) !! rule_name with
      | Some v => Some (status_of now v)
      | None => status !! rule_name
      end.
Proof.
  revert status. induction items as [|[k v] rest IH]; intros status Hnodup.
  - exists status. split; [reflexivity|]. intros r.
    rewrite list_to_map_nil, lookup_empty. reflexivity.
  - cbn [fmap list_fmap fst] in Hnodup. apply NoDup_cons in Hnodup as [Hk Hrest].
    destruct (IH (<[k := status_of now v]> status) Hrest) as (status' & Hrun & Hlookup).
    exists status'. cbn [status_loop]. rewrite status_entry_spec. step.
    split; [exact Hrun|].
    intros r. rewrite Hlookup, list_to_map_cons.
    destruct (decide (r = k)) as [->|Hne].
    + rewrite lookup_insert_eq.
      rewrite (not_elem_of_list_to_map_1 rest k Hk), lookup_insert_eq. reflexivity.
    + rewrite !lookup_insert_ne by congruence. reflexivity.
Qed.

Lemma get_cooldown_status_result now w :
  extendable (state_file w) ->
  exists status,
    result (get_cooldown_status now) w = Ok status /\
    forall rule_name,
      status !! rule_name = status_of now <$> last_alert (state_file w) rule_name.
Proof.
  intros Hshape.
  destruct (load_state_extendable w Hshape) as (m & w1 & Hload & _ & _ & _ & Hm & Hentries).
  assert (Hla : default (JObj ∅) (m !! "last_alerts") = JObj (entries_of m)).
  { cbn [extendable] in Hm. unfold entries_of.
    destruct (m !! "last_alerts") as [[| | | | |la]|]; first [contradiction | reflexivity]. }
  destruct (status_loop_spec now (map_to_list (entries_of m)) ∅) as (status & Hrun & Hlookup).
  { apply NoDup_fst_map_to_list. }
  exists status. split.
  - unfold result, get_cooldown_status. unfold mbind at 1. unfold M_bind at 1.
    rewrite Hload. run_M. cbn [py_get]. rewrite Hla. cbn [py_items].
    rewrite Hrun. reflexivity.
  - intros r. rewrite Hlookup, list_to_map_to_list, <- Hentries, lookup_empty.
    destruct (entries_of m !! r); reflexivity.
Qed.

Lemma total_minutes_le a b :
  Qleb (total_minutes a) (total_minutes b) = (a <=? b)%Z.
Proof.
  unfold Qleb, total_minutes.
  destruct (Z.leb_spec a b) as [Hle|Hgt].
  - apply Qle_bool_iff. unfold Qdiv.
    repeat (apply Qmult_le_compat_r; [|discriminate]). rewrite <- Zle_Qle. exact Hle.
  - apply not_true_is_false. intros H. apply Qle_bool_iff in H.
    assert (Hq : (inject_Z a <= inject_Z b)%Q).
    { unfold Qdiv in H.
      apply Qmult_le_r in H; [|reflexivity]. apply Qmult_le_r in H; [|reflexivity].
      exact H. }
    rewrite <- Zle_Qle in Hq. lia.
Qed.

(** X15. [get_cooldown_status] agrees with [should_fire].  It reports one
    entry per stored rule; a rule without an entry may fire; for a rule
    reported with elapsed minutes [should_fire] answers whether those
    minutes reach the cooldown window; a rule reported as an invalid
    timestamp either may fire (the value does not parse) or makes
    [should_fire] raise [TypeError] (the value carries a UTC offset). *)
Theorem get_cooldown_status_agrees_with_should_fire config now severity w :
  extendable (state_file w) ->
  exists status,
    result (get_cooldown_status now) w = Ok status /\
    forall rule_name,
      let answer := result (should_fire config now rule_name severity) w in
      match status !! rule_name with
      | None => last_alert (state_file w) rule_name = None /\ answer = Ok true
      | Some (Elapsed _ elapsed_minutes) =>
          answer = Ok (Qleb (total_minutes (cooldown_window config severity))
                            elapsed_minutes)
      | Some (InvalidTimestamp v) =>
          (malformed_timestamp v /\ answer = Ok true) \/
          (exists s last_fire offset msg,
              v = JStr s /\ fromisoformat s = Some (Aware last_fire offset) /\
              answer = Raise (TypeError msg))
      end.
Proof.
  intros Hshape.
  destruct (get_cooldown_status_result now w Hshape) as (status & Hrun & Hlookup).
  exists status. split; [exact Hrun|].
  intros rule_name answer. subst answer. rewrite Hlookup.
  destruct (load_state_extendable w Hshape) as (m & w1 & Hload & _ & _ & _ & Hm & Hentries).
  unfold result. rewrite should_fire_unfold, Hload. cbn [fst].
  rewrite (verdict_object _ _ _ _ _ Hm), Hentries.
  destruct (last_alert (state_file w) rule_name) as [v|]; [|split; reflexivity].
  cbn [fmap option_fmap option_map]. unfold status_of, py_fromisoformat.
  destruct v as [| | |s| |]; try (left; split; [exact I|reflexivity]).
  destruct (fromisoformat s) as [[t|t offset]|] eqn:Hs.
  - cbn. rewrite total_minutes_le. reflexivity.
  - right. exists s, t, offset. eexists. split; [reflexivity|]. split; [exact Hs|reflexivity].
  - left. split; [exact Hs|reflexivity].
Qed.

(** X16. A stored timestamp with a UTC offset is handled in three
    different ways: [get_last_fire_time] returns it, [get_cooldown_status]
    reports it as an invalid timestamp, and [should_fire] raises the
    [TypeError] of the subtraction, which is outside its [try]. *)
Theorem aware_timestamp_breaks_should_fire config now rule_name severity w s last_fire offset :
  extendable (state_file w) ->
  last_alert (state_file w) rule_name = Some (JStr s) ->
  fromisoformat s = Some (Aware last_fire offset) ->
  result (get_last_fire_time rule_name) w = Ok (Some (Aware last_fire offset)) /\
  result (should_fire config now rule_name severity) w =
    Raise (TypeError "can't subtract offset-naive and offset-aware datetimes") /\
  exists status,
    result (get_cooldown_status now) w = Ok status /\
    status !! rule_name = Some (InvalidTimestamp (JStr s)).
Proof.
  intros Hshape Hentry Hs.
  split; [|split].
  - rewrite (get_last_fire_time_result _ _ Hshape), Hentry, Hs. reflexivity.
  - destruct (load_state_extendable w Hshape) as (m & w1 & Hload & _ & _ & _ & Hm & Hentries).
    unfold result. rewrite should_fire_unfold, Hload. cbn [fst].
    rewrite (verdict_object _ _ _ _ _ Hm), Hentries, Hentry, Hs. reflexivity.
  - destruct (get_cooldown_status_result now w Hshape) as (status & Hrun & Hlookup).
    exists status. split; [exact Hrun|].
    rewrite Hlookup, Hentry. cbn. unfold status_of, py_fromisoformat. rewrite Hs.
    reflexivity.
Qed.

End WithCodec.

Import Samples StorageSamples Iso8601.

(** X6 on the edited state at 10:30: a rule never fired may fire; the rule
    fired at 09:00 may fire at severity high exactly from 10:30 on. *)
Lemma should_fire_cooldown_rule_witness :
  result (should_fire default_config monday_morning "SPY_DRAWDOWN_10PCT" HIGH) edited_state
    = Ok true /\
  result (should_fire default_config monday_morning "CREDIT_STRESS_5D" HIGH) edited_state
    = Ok true /\
  result (should_fire default_config (monday_morning - ONE_SECOND) "CREDIT_STRESS_5D" HIGH)
    edited_state = Ok false.
Proof.
  destruct (should_fire_cooldown_rule default_config monday_morning "SPY_DRAWDOWN_10PCT" HIGH
              edited_state I) as [Hnever _].
  destruct (should_fire_cooldown_rule default_config monday_morning "CREDIT_STRESS_5D" HIGH
              edited_state I) as [_ Hat].
  destruct (should_fire_cooldown_rule default_config (monday_morning - ONE_SECOND)
              "CREDIT_STRESS_5D" HIGH edited_state I) as [_ Hbefore].
  split; [|split].
  - apply Hnever. vm_compute. reflexivity.
  - rewrite (Hat "2024-01-15T09:00:00" (monday_morning - 90 * 60 * ONE_SECOND)%Z);
      vm_compute; reflexivity.
  - rewrite (Hbefore "2024-01-15T09:00:00" (monday_morning - 90 * 60 * ONE_SECOND)%Z);
      vm_compute; reflexivity.
Defined.

(** X7 on the edited state: allowed at 10:30, so allowed a second later. *)
Lemma should_fire_monotone_in_time_witness :
  result (should_fire default_config (monday_morning + ONE_SECOND) "CREDIT_STRESS_5D" HIGH)
    edited_state = Ok true.
Proof.
  apply (should_fire_monotone_in_time default_config monday_morning).
  - vm_compute. discriminate.
  - vm_compute. reflexivity.
Defined.

(** X8 on the edited state: allowed as high, so allowed as critical. *)
Lemma should_fire_respects_urgency_witness :
  result (should_fire default_config monday_morning "CREDIT_STRESS_5D" CRITICAL)
    edited_state = Ok true.
Proof.
  destruct (should_fire_respects_urgency default_config monday_morning "CREDIT_STRESS_5D"
              CRITICAL HIGH edited_state) as [_ Hrank].
  - vm_compute. reflexivity.
  - apply Hrank.
    + left. reflexivity.
    + cbn. lia.
Defined.

(** X10 on a first run, for two rules fired a second apart. *)
Lemma record_fire_commutes_witness :
  state_file (world_after (record_fire (monday_morning + ONE_SECOND) "VOLATILITY_SPIKE")
                (world_after (record_fire monday_morning "CREDIT_STRESS_5D") first_run)) =
  state_file (world_after (record_fire monday_morning "CREDIT_STRESS_5D")
                (world_after (record_fire (monday_morning + ONE_SECOND) "VOLATILITY_SPIKE")
                   first_run)).
Proof.
  apply record_fire_commutes. discriminate.
Defined.

(** X11 on a read-only directory: the rule recorded at 10:30 may fire again
    a second later. *)
Lemma record_fire_unsaved_witness :
  result (record_fire monday_morning "CREDIT_STRESS_5D") read_only_state = Ok tt /\
  result (should_fire default_config (monday_morning + ONE_SECOND) "CREDIT_STRESS_5D" HIGH)
    (world_after (record_fire monday_morning "CREDIT_STRESS_5D") read_only_state) = Ok true.
Proof.
  destruct (record_fire_unsaved monday_morning "CREDIT_STRESS_5D" read_only_state)
    as (Hrun & _ & _ & Hsame).
  - reflexivity.
  - exact I.
  - split; [exact Hrun|]. rewrite Hsame. vm_compute. reflexivity.
Defined.

(** X12 on the edited state. *)
Lemma get_last_fire_time_after_record_fire_witness :
  result (get_last_fire_time "VOLATILITY_SPIKE")
    (world_after (record_fire monday_morning "VOLATILITY_SPIKE") edited_state) =
  Ok (Some (Naive monday_morning)).
Proof.
  apply (get_last_fire_time_after_record_fire monday_morning "VOLATILITY_SPIKE" edited_state).
  - reflexivity.
  - exact I.
  - vm_compute. reflexivity.
Defined.

(** X13 on the edited state. *)
Lemma clear_cooldowns_resets_witness :
  result (should_fire default_config monday_morning "CREDIT_STRESS_5D" LOW)
    (world_after clear_cooldowns edited_state) = Ok true.
Proof.
  destruct (clear_cooldowns_resets edited_state eq_refl) as (_ & _ & Hclear).
  apply (Hclear default_config monday_morning "CREDIT_STRESS_5D" LOW).
Defined.

(** X14 on a state file that holds an empty array. *)
Lemma not_an_object_raises_witness :
  result (should_fire default_config monday_morning "VOLATILITY_SPIKE" HIGH) array_state =
    Raise (AttributeError "'list' object has no attribute 'get'") /\
  result (record_fire monday_morning "VOLATILITY_SPIKE") array_state =
    Raise (TypeError "list indices must be integers or slices, not str").
Proof.
  destruct (not_an_object_raises default_config monday_morning "VOLATILITY_SPIKE" HIGH
              array_state (JArr []) eq_refl I) as ([msg Hshould] & _ & [msg' Hrecord] & _).
  split.
  - rewrite Hshould. apply (f_equal (fun o => match o with Raise e => Raise e | Ok _ => Ok true end)) in Hshould.
    vm_compute in Hshould. symmetry. exact Hshould.
  - rewrite Hrecord. apply (f_equal (fun o => match o with Raise e => Raise e | Ok _ => Ok tt end)) in Hrecord.
    vm_compute in Hrecord. symmetry. exact Hrecord.
Defined.

(** X15 on the edited state at 10:30: ninety minutes since the fire of
    09:00, one invalid entry. *)
Lemma get_cooldown_status_agrees_with_should_fire_witness :
  exists status,
    result (get_cooldown_status monday_morning) edited_state = Ok status /\
    status !! "CREDIT_STRESS_5D" = Some (Elapsed (JStr "2024-01-15T09:00:00") (total_minutes (90 * 60 * ONE_SECOND))) /\
    status !! "VOLATILITY_SPIKE" = Some (InvalidTimestamp (JStr "yesterday")) /\
    result (should_fire default_config monday_morning "CREDIT_STRESS_5D" HIGH) edited_state
      = Ok true.
Proof.
  destruct (get_cooldown_status_agrees_with_should_fire default_config monday_morning HIGH
              edited_state I) as (status & Hrun & Hagree).
  exists status. split; [exact Hrun|].
  assert (Hstatus : Ok status =
            Ok (<["CREDIT_STRESS_5D" := Elapsed (JStr "2024-01-15T09:00:00") (total_minutes (90 * 60 * ONE_SECOND))]>
                (<["VOLATILITY_SPIKE" := InvalidTimestamp (JStr "yesterday")]> ∅))).
  { rewrite <- Hrun. vm_compute. reflexivity. }
  injection Hstatus as Hstatus.
  assert (H5d : status !! "CREDIT_STRESS_5D" = Some (Elapsed (JStr "2024-01-15T09:00:00") (total_minutes (90 * 60 * ONE_SECOND)))).
  { rewrite Hstatus. vm_compute. reflexivity. }
  split; [exact H5d|]. split; [rewrite Hstatus; vm_compute; reflexivity|].
  specialize (Hagree "CREDIT_STRESS_5D"). cbv zeta in Hagree. rewrite H5d in Hagree.
  rewrite Hagree. vm_compute. reflexivity.
Defined.

(** X16 on a timestamp written with [+00:00]. *)
Lemma aware_timestamp_breaks_should_fire_witness :
  result (should_fire default_config monday_morning "VOLATILITY_SPIKE" HIGH) offset_state =
  Raise (TypeError "can't subtract offset-naive and offset-aware datetimes").
Proof.
  apply (aware_timestamp_breaks_should_fire default_config monday_morning "VOLATILITY_SPIKE"
           HIGH offset_state "2024-01-15T09:00:00+00:00"
           (monday_morning - 90 * 60 * ONE_SECOND)%Z 0%Z).
  - exact I.
  - vm_compute. reflexivity.
  - vm_compute. reflexivity.
Defined.

End StorageMoreFacts.

(** ** The regime and the rules *)

Module RegimeMoreFacts.
Import Py Data Indicators Rules RulesSpec Regime RegimeSpec RegimeMoreSpec.
Import RulesMoreSpec PyFacts RulesFacts RegimeFacts RulesMoreFacts Samples.
#[local] Open Scope string_scope.

Lemma alerted_check config snapshot n r :
  get_rule_by_name RULES n = Some r ->
  alerted (contributions config snapshot RULES) n <->
  exists ctx, check r config snapshot ∅ = Ok (true, ctx).
Proof.
  intros Hn. unfold alerted. split.
  - intros (t & Ht). apply (triggered_by_name _ _ _ _ _ Hn) in Ht.
    destruct Ht as (ctx & Hc & _). eauto.
  - intros (ctx & Hc). exists (triggered_record r ctx).
    apply (triggered_by_name _ _ _ _ _ Hn). eauto.
Qed.

Lemma credit_stress_alerted snapshot :
  alerted (contributions default_config snapshot RULES) "CREDIT_STRESS_5D" <->
  is_Some (credit_stress default_thresholds snapshot).
Proof.
  rewrite (alerted_check default_config snapshot "CREDIT_STRESS_5D"
             (nth 2 RULES (drawdown_rule 0)) eq_refl).
  cbn [nth RULES STATIC_RULES app check].
  unfold check_credit_stress_5d, credit_stress.
  destruct (get snapshot "HYG") as [hyg|]; cbn [mbind option_bind];
    [|split; [intros (? & [=]) | intros (? & [=])]].
  destruct (change_5d_pct hyg) as [c|]; cbn [mbind option_bind];
    [|split; [intros (? & [=]) | intros (? & [=])]].
  change (get_threshold default_config "credit_stress_5d" (-3.0)) with (-3.0)%Q.
  change (default (-3.0)%Q (default_thresholds !! "hyg_5d_threshold")) with (-3.0)%Q.
  destruct (Qleb c (-3.0)); split; eauto; try (intros (? & [=])).
Qed.


Lemma liquidity_stress_alerted snapshot :
  alerted (contributions default_config snapshot RULES) "LIQUIDITY_STRESS_5D" <->
  is_Some (liquidity_tightening default_thresholds snapshot).
Proof.
  rewrite (alerted_check default_config snapshot "LIQUIDITY_STRESS_5D"
             (nth 4 RULES (drawdown_rule 0)) eq_refl).
  cbn [nth RULES STATIC_RULES app check].
  unfold check_liquidity_stress_5d, liquidity_tightening.
  destruct (get snapshot "DX-Y.NYB") as [dxy|]; cbn [mbind option_bind];
    [|split; [intros (? & [=]) | intros (? & [=])]].
  destruct (change_5d_pct dxy) as [c|]; cbn [mbind option_bind];
    [|split; [intros (? & [=]) | intros (? & [=])]].
  change (get_threshold default_config "liquidity_stress_5d" 2.0) with 2.0%Q.
  change (default 2.0%Q (default_thresholds !! "dxy_5d_threshold")) with 2.0%Q.
  destruct (Qgeb c 2.0); split; eauto; try (intros (? & [=])).
Qed.

Lemma combined_stress_alerted snapshot :
  alerted (contributions default_config snapshot RULES) "COMBINED_STRESS" <->
  is_Some (combined_stress default_thresholds snapshot).
Proof.
  rewrite (alerted_check default_config snapshot "COMBINED_STRESS"
             (nth 1 RULES (drawdown_rule 0)) eq_refl).
  cbn [nth RULES STATIC_RULES app check].
  unfold Rules.check_combined_stress, combined_stress.
  destruct (get snapshot "SPY") as [spy|]; cbn [mbind option_bind];
    [|split; [intros (? & [=]) | intros (? & [=])]].
  destruct (get snapshot "TLT") as [tlt|]; cbn [mbind option_bind];
    [|split; [intros (? & [=]) | intros (? & [=])]].
  change (default (-2.5)%Q (default_thresholds !! "spy_tlt_combined_threshold"))
    with (-2.5)%Q.
  destruct (Qleb (intraday_change_pct spy) (-2.5) && Qltb (intraday_change_pct tlt) 0);
    split; eauto; try (intros (? & [=])).
Qed.

Lemma elevated_volatility_alerted vix_prev snapshot :
  is_Some (elevated_volatility default_thresholds vix_prev snapshot) ->
  alerted (contributions default_config snapshot RULES) "VOLATILITY_ELEVATED".
Proof.
  rewrite (alerted_check default_config snapshot "VOLATILITY_ELEVATED"
             (nth 5 RULES (drawdown_rule 0)) eq_refl).
  cbn [nth RULES STATIC_RULES app check].
  unfold check_volatility_elevated, elevated_volatility.
  destruct (get snapshot "^VIX") as [vix|]; cbn [mbind option_bind];
    [|intros (? & [=])].
  change (get_threshold default_config "volatility_level" 30) with 30%Q.
  change (default 30%Q (default_thresholds !! "vix_level_threshold")) with 30%Q.
  destruct (Qgeb (current_price vix) 30); eauto. intros (? & [=]).
Qed.

(** X17. Under the defaults the regime assessment and the alert rules
    agree: when CREDIT_STRESS_5D, LIQUIDITY_STRESS_5D or COMBINED_STRESS
    triggers, the regime is DEFENSIVE; and a DEFENSIVE regime comes with
    one of these three rules or VOLATILITY_ELEVATED triggered, unless
    structural weakness is its only trigger. *)
Theorem defensive_regime_matches_alert_rules vix_prev snapshot triggered out :
  evaluate_rules RULES default_config snapshot = Ok (triggered, out) ->
  let a := assess_regime None vix_prev snapshot in
  (alerted triggered "CREDIT_STRESS_5D" \/ alerted triggered "LIQUIDITY_STRESS_5D" \/
   alerted triggered "COMBINED_STRESS" -> regime a = DEFENSIVE) /\
  (regime a = DEFENSIVE ->
   alerted triggered "CREDIT_STRESS_5D" \/ alerted triggered "LIQUIDITY_STRESS_5D" \/
   alerted triggered "VOLATILITY_ELEVATED" \/ alerted triggered "COMBINED_STRESS" \/
   triggers a = [structural_weakness_message]).
Proof.
  rewrite evaluate_rules_spec. intros Hrun. injection Hrun as Htriggered _.
  change (contributions default_config snapshot RULES = triggered) in Htriggered.
  subst triggered. intros a. subst a. rewrite assess_regime_spec.
  cbn [regime triggers load_regime_thresholds]. unfold active_triggers.
  rewrite credit_stress_alerted, liquidity_stress_alerted, combined_stress_alerted.
  pose proof (elevated_volatility_alerted vix_prev snapshot) as Hvix.
  destruct (credit_stress default_thresholds snapshot) as [m1|];
    destruct (liquidity_tightening default_thresholds snapshot) as [m2|];
    destruct (elevated_volatility default_thresholds vix_prev snapshot) as [m3|];
    destruct (combined_stress default_thresholds snapshot) as [m4|];
    destruct (structural_weakness snapshot) as [m5|] eqn:H5;
    cbn [flat_map added app]; (split; [intros Hany|intros Hdef]);
    try reflexivity; try discriminate Hdef; eauto 6;
    try (destruct Hany as [[? [=]]|[[? [=]]|[? [=]]]]).
  do 4 right. f_equal. unfold structural_weakness in H5.
  destruct (get snapshot "SPY"); [|discriminate H5].
  destruct (get snapshot "^TNX"); [|discriminate H5].
  cbn in H5. destruct (_ && _); [|discriminate H5]. injection H5 as <-. reflexivity.
Qed.

(** X17 on the stressed snapshot. *)
Lemma defensive_regime_matches_alert_rules_witness :
  regime (assess_regime None (Some 32%Q) stressed_snapshot) = DEFENSIVE.
Proof.
  assert (Hcredit : exists ctx,
             check (nth 2 RULES (drawdown_rule 0)) default_config stressed_snapshot ∅ =
             Ok (true, ctx)).
  { eexists. vm_compute. reflexivity. }
  destruct Hcredit as [ctx Hcredit].
  apply (defensive_regime_matches_alert_rules (Some 32%Q) stressed_snapshot _ _
           (evaluate_rules_spec RULES default_config stressed_snapshot)).
  left. exists (triggered_record (nth 2 RULES (drawdown_rule 0)) ctx).
  split; [|reflexivity].
  apply in_contributions. exists (nth 2 RULES (drawdown_rule 0)), ctx.
  split; [do 2 right; left; reflexivity|]. split; [exact Hcredit|reflexivity].
Defined.



(** X19. The regime needs data to turn defensive: there are never more
    than five triggers, a snapshot without the high-yield ETF, the dollar
    index, the volatility index and the large-cap ETF is assessed NORMAL
    with no trigger, and a DEFENSIVE regime has at least one of the four in
    the snapshot. *)
Theorem assess_regime_needs_data config_yml vix_prev snapshot :
  let a := assess_regime config_yml vix_prev snapshot in
  (length (triggers a) <= 5)%nat /\
  (get snapshot "HYG" = None -> get snapshot "DX-Y.NYB" = None ->
   get snapshot "^VIX" = None -> get snapshot "SPY" = None ->
   a = {| regime := NORMAL; triggers := [];
          summary := "NORMAL regime - no significant stress signals detected" |}) /\
  (regime a = DEFENSIVE ->
   is_Some (get snapshot "HYG") \/ is_Some (get snapshot "DX-Y.NYB") \/
   is_Some (get snapshot "^VIX") \/ is_Some (get snapshot "SPY")).
Proof.
  intros a. subst a. rewrite assess_regime_spec. cbn [regime triggers].
  unfold active_triggers. cbn [flat_map]. rewrite app_nil_r.
  split; [|split].
  - destruct (credit_stress _ _), (liquidity_tightening _ _), (elevated_volatility _ _ _),
      (combined_stress _ _), (structural_weakness _); cbn; lia.
  - intros Hhyg Hdxy Hvix Hspy.
    unfold credit_stress, liquidity_tightening, elevated_volatility, combined_stress,
      structural_weakness.
    rewrite Hhyg, Hdxy, Hvix, Hspy. reflexivity.
  - unfold credit_stress, liquidity_tightening, elevated_volatility, combined_stress,
      structural_weakness.
    destruct (get snapshot "HYG"); [eauto|].
    destruct (get snapshot "DX-Y.NYB"); [eauto|].
    destruct (get snapshot "^VIX"); [eauto 6|].
    destruct (get snapshot "SPY"); [eauto 6|].
    cbn. discriminate.
Qed.

(** X19 on a snapshot with no data. *)
Lemma assess_regime_needs_data_witness :
  regime (assess_regime None None (snapshot_of [])) = NORMAL.
Proof.
  destruct (assess_regime_needs_data None None (snapshot_of [])) as (_ & Hnormal & _).
  rewrite Hnormal; reflexivity.
Defined.

End RegimeMoreFacts.

(** ** The process: counting posts, and runs that deliver nothing *)

Module RuntimeFacts.
Import Py Data Rules Storage StorageSpec Runtime Fetch Telegram MainAlerts RuntimeSpec.
Import StorageFacts.
#[local] Open Scope string_scope.

Ltac run_IO :=
  unfold outcome_of, process_after, mbind, IO_bind, mret, IO_ret, say, on_os, pure, raise,
    sys_exit, datetime_now, requests_post, get_credentials, with_os, print;
  cbn [fst snd os environ history api posted clock clock_reads].

(** *** Counting posts *)

Lemma posts_at_most_weaken {A} n n' (m : IO A) :
  (n <= n')%nat -> posts_at_most n m -> posts_at_most n' m.
Proof.
  intros Hle H p. destruct (H p) as (new & Hnew & Hlen). exists new. split; [exact Hnew|lia].
Qed.

Lemma posts_at_most_bind {A B} n k (m : IO A) (f : A -> IO B) :
  posts_at_most n m -> (forall a, posts_at_most k (f a)) ->
  posts_at_most (n + k) (m ≫= f).
Proof.
  intros Hm Hf p. destruct (Hm p) as (new & Hnew & Hlen).
  unfold process_after in *. unfold mbind, IO_bind.
  destruct (m p) as [[a|e] p1]; cbn [snd] in *.
  - destruct (Hf a p1) as (new' & Hnew' & Hlen'). exists (new ++ new')%list.
    unfold process_after in Hnew'. rewrite Hnew', Hnew, app_assoc, length_app. split; [reflexivity|lia].
  - exists new. split; [exact Hnew|lia].
Qed.

Lemma posts_at_most_ret {A} (a : A) : posts_at_most 0 (mret a : IO A).
Proof. intros p. exists []. rewrite app_nil_r. split; [reflexivity|cbn; lia]. Qed.

Lemma posts_at_most_on_os {A} (m : M A) : posts_at_most 0 (on_os m).
Proof.
  intros p. exists []. rewrite app_nil_r. split; [|cbn; lia].
  unfold process_after, on_os. destruct (m (os p)). reflexivity.
Qed.

Lemma posts_at_most_say line : posts_at_most 0 (say line).
Proof. apply posts_at_most_on_os. Qed.

Lemma posts_at_most_pure {A} (o : outcome A) : posts_at_most 0 (pure o).
Proof. intros p. exists []. rewrite app_nil_r. split; [reflexivity|cbn; lia]. Qed.

Lemma posts_at_most_raise {A} e : posts_at_most 0 (raise e : IO A).
Proof. intros p. exists []. rewrite app_nil_r. split; [reflexivity|cbn; lia]. Qed.

Lemma posts_at_most_now : posts_at_most 0 datetime_now.
Proof. intros p. exists []. rewrite app_nil_r. split; [reflexivity|cbn; lia]. Qed.

Lemma posts_at_most_post request : posts_at_most 1 (requests_post request).
Proof. intros p. exists [request]. split; [reflexivity|cbn; lia]. Qed.

Lemma posts_at_most_credentials : posts_at_most 0 get_credentials.
Proof. intros p. exists []. rewrite app_nil_r. split; [reflexivity|cbn; lia]. Qed.

(** A chain of binds, counted step by step. *)
Ltac count_posts :=
  repeat first
    [ apply posts_at_most_ret
    | apply posts_at_most_say
    | apply posts_at_most_on_os
    | apply posts_at_most_pure
    | apply posts_at_most_raise
    | apply posts_at_most_now
    | apply posts_at_most_credentials
    | apply posts_at_most_post
    | apply (posts_at_most_bind 0 0)
    | progress intros ].

Lemma send_message_posts text mode : posts_at_most 1 (send_message text mode).
Proof.
  unfold send_message.
  apply (posts_at_most_bind 0 1); [apply posts_at_most_credentials|].
  intros [bot_token chat_id].
  destruct (missing bot_token || missing chat_id).
  - apply (posts_at_most_weaken 0); [lia|]. count_posts.
  - apply (posts_at_most_bind 1 0); [apply posts_at_most_post|].
    intros [| |[|] d]; count_posts.
Qed.

Lemma send_message_safe_posts text : posts_at_most 2 (send_message_safe text).
Proof.
  unfold send_message_safe.
  apply (posts_at_most_bind 1 1); [apply send_message_posts|].
  intros [|]; [apply (posts_at_most_weaken 0); [lia|]; count_posts|].
  apply send_message_posts.
Qed.


Lemma fetch_symbol_data_posts sym name : posts_at_most 0 (fetch_symbol_data sym name).
Proof.
  intros p. exists []. rewrite app_nil_r. split; [|cbn; lia].
  unfold process_after, fetch_symbol_data.
  destruct (history p sym "1y"); [reflexivity|]. run_IO. reflexivity.
Qed.

Lemma fetch_each_posts symbols data : posts_at_most 0 (fetch_each symbols data).
Proof.
  revert data. induction symbols as [|[sym name] rest IH]; intros data; cbn [fetch_each].
  - apply posts_at_most_ret.
  - apply (posts_at_most_bind 0 0); [apply fetch_symbol_data_posts|].
    intros [d|]; apply IH.
Qed.

Lemma fetch_market_snapshot_posts : posts_at_most 0 fetch_market_snapshot.
Proof.
  unfold fetch_market_snapshot.
  apply (posts_at_most_bind 0 0); [apply fetch_each_posts|]. count_posts.
Qed.

Lemma say_all_posts lines : posts_at_most 0 (say_all lines).
Proof. induction lines as [|line rest IH]; cbn [say_all]; count_posts. exact IH. Qed.

Lemma insert_sorted_length {A} (key : A -> Z) x l :
  length (insert_sorted key x l) = S (length l).
Proof.
  induction l as [|y rest IH]; [reflexivity|]. cbn [insert_sorted].
  destruct (key y <=? key x)%Z; cbn [length]; [rewrite IH|]; reflexivity.
Qed.

Lemma list_sort_length {A} (key : A -> Z) l : length (list_sort key l) = length l.
Proof.
  unfold list_sort.
  assert (H : forall acc, length (fold_left (fun sorted x => insert_sorted key x sorted) l acc)
                          = (length acc + length l)%nat).
  { induction l as [|x rest IH]; intros acc; cbn [fold_left length]; [lia|].
    rewrite IH, insert_sorted_length. lia. }
  apply H.
Qed.

(** *** Nothing deliverable *)

Lemma keeps_store_bind {A B} (Q : outcome A -> Prop) (R : outcome B -> Prop)
    (m : IO A) (f : A -> IO B) :
  keeps_store Q m ->
  (forall a, Q (Ok a) -> keeps_store R (f a)) ->
  (forall e, Q (Raise e) -> R (Raise e)) ->
  keeps_store R (m ≫= f).
Proof.
  intros Hm Hf He p Hp. destruct (Hm p Hp) as (HQ & Hp1 & Hfile).
  unfold outcome_of, process_after in *. unfold mbind, IO_bind.
  destruct (m p) as [[a|e] p1]; cbn [fst snd] in *.
  - destruct (Hf a HQ p1 Hp1) as (HR & Hp2 & Hfile2).
    unfold outcome_of, process_after in HR, Hp2, Hfile2.
    split; [exact HR|]. split; [exact Hp2|]. rewrite Hfile2. exact Hfile.
  - split; [apply He, HQ|]. split; assumption.
Qed.

Lemma keeps_store_weaken {A} (Q R : outcome A -> Prop) (m : IO A) :
  (forall o, Q o -> R o) -> keeps_store Q m -> keeps_store R m.
Proof.
  intros HQR Hm p Hp. destruct (Hm p Hp) as (HQ & Hrest). split; [apply HQR, HQ|exact Hrest].
Qed.

Lemma keeps_store_then {A B} (m : IO A) (f : A -> IO B) :
  keeps_store anything m -> (forall a, keeps_store anything (f a)) ->
  keeps_store anything (m ≫= f).
Proof.
  intros Hm Hf. apply (keeps_store_bind anything); [exact Hm|auto|]. intros; exact I.
Qed.

Lemma keeps_store_ret {A} (a : A) : keeps_store anything (mret a : IO A).
Proof. intros p Hp. repeat split. exact Hp. Qed.

Lemma keeps_store_pure {A} (o : outcome A) : keeps_store anything (pure o).
Proof. intros p Hp. repeat split. exact Hp. Qed.

Lemma keeps_store_raise {A} e : keeps_store anything (raise e : IO A).
Proof. intros p Hp. repeat split. exact Hp. Qed.

Lemma keeps_store_now : keeps_store anything datetime_now.
Proof. intros p Hp. repeat split. exact Hp. Qed.

Lemma keeps_store_say line : keeps_store anything (say line).
Proof. intros p Hp. repeat split. exact Hp. Qed.

Lemma keeps_store_credentials : keeps_store anything get_credentials.
Proof. intros p Hp. repeat split. exact Hp. Qed.

Ltac keep_store :=
  repeat first
    [ apply keeps_store_ret
    | apply keeps_store_say
    | apply keeps_store_pure
    | apply keeps_store_raise
    | apply keeps_store_now
    | apply keeps_store_credentials
    | apply keeps_store_then
    | progress intros ].

Lemma send_message_refused text mode : keeps_store refused (send_message text mode).
Proof.
  intros p Hp. unfold send_message. run_IO.
  destruct (missing (environ p !! "TELEGRAM_BOT_TOKEN")
            || missing (environ p !! "TELEGRAM_CHAT_ID")) eqn:Hmissing.
  - cbn [fst snd os state_file environ api]. split; [reflexivity|]. split; [exact Hp|reflexivity].
  - destruct Hp as [Hp|Hp]; [congruence|].
    cbn [fst snd os state_file environ api posted].
    match goal with |- context [api p (posted p) ?r] =>
      pose proof (Hp (posted p) r) as Hack; destruct (api p (posted p) r) as [| |[|] d]
    end; try discriminate Hack; cbn [fst snd os state_file environ api];
      (split; [reflexivity|]); (split; [|reflexivity]); right; exact Hp.
Qed.

Lemma send_message_safe_refused text : keeps_store refused (send_message_safe text).
Proof.
  unfold send_message_safe.
  apply (keeps_store_bind refused); [apply send_message_refused| |discriminate].
  intros a Ha. injection Ha as ->. apply send_message_refused.
Qed.

Lemma should_fire_keeps_store `{IsoCodec} config now rule_name severity :
  keeps_store anything (on_os (should_fire config now rule_name severity)).
Proof.
  intros p Hp. unfold outcome_of, process_after, on_os.
  destruct (load_state_total (os p)) as (state & w1 & Hload & Hf & _).
  rewrite should_fire_unfold, Hload. cbn [fst snd with_os os].
  split; [exact I|]. split; [exact Hp|exact Hf].
Qed.

Lemma fetch_symbol_data_keeps_store sym name :
  keeps_store anything (fetch_symbol_data sym name).
Proof.
  intros p Hp. unfold outcome_of, process_after, fetch_symbol_data.
  destruct (history p sym "1y"); repeat split; exact Hp.
Qed.

Lemma fetch_each_keeps_store symbols data : keeps_store anything (fetch_each symbols data).
Proof.
  revert data. induction symbols as [|[sym name] rest IH]; intros data; cbn [fetch_each].
  - apply keeps_store_ret.
  - apply keeps_store_then; [apply fetch_symbol_data_keeps_store|].
    intros [d|]; apply IH.
Qed.

Lemma say_all_keeps_store lines : keeps_store anything (say_all lines).
Proof. induction lines as [|line rest IH]; cbn [say_all]; keep_store. exact IH. Qed.

Section WithSurroundings.
Context {codec : IsoCodec}.
Variable registry : list Rule.
Variable config : Config.
Variable render_alert : Z -> TriggeredRule -> MarketSnapshot -> outcome string.
Variable render_multiple_alerts : Z -> list TriggeredRule -> MarketSnapshot -> outcome string.

Lemma filter_by_cooldown_posts triggered alerts :
  posts_at_most 0 (filter_by_cooldown config triggered alerts).
Proof.
  revert alerts. induction triggered as [|tr rest IH]; intros alerts;
    cbn [filter_by_cooldown]; [apply posts_at_most_ret|].
  apply (posts_at_most_bind 0 0); [apply posts_at_most_now|]. intros now.
  apply (posts_at_most_bind 0 0); [apply posts_at_most_on_os|]. intros fire.
  destruct fire; (apply (posts_at_most_bind 0 0); [apply posts_at_most_say|]);
    intros ?; apply IH.
Qed.

Lemma record_each_posts alerts : posts_at_most 0 (record_each alerts).
Proof. induction alerts as [|tr rest IH]; cbn [record_each]; count_posts. exact IH. Qed.

Lemma send_each_posts alerts snapshot :
  posts_at_most (2 * length alerts) (send_each render_alert alerts snapshot).
Proof.
  induction alerts as [|tr rest IH]; cbn [send_each]; [apply posts_at_most_ret|].
  replace (2 * length (tr :: rest))%nat with (0 + (0 + (2 + (0 + 2 * length rest))))%nat
    by (cbn [length]; lia).
  apply posts_at_most_bind; [apply posts_at_most_now|]. intros now.
  apply posts_at_most_bind; [apply posts_at_most_pure|]. intros message.
  apply posts_at_most_bind; [apply send_message_safe_posts|]. intros success.
  apply posts_at_most_bind; [|intros _; exact IH].
  destruct success; count_posts.
Qed.

Lemma main_posts :
  posts_at_most 6 (main registry config render_alert render_multiple_alerts).
Proof.
  unfold main.
  apply (posts_at_most_bind 0 6); [apply posts_at_most_say|]. intros _.
  apply (posts_at_most_bind 0 6); [apply fetch_market_snapshot_posts|]. intros snapshot.
  apply (posts_at_most_bind 0 6).
  { destruct (bool_decide _); count_posts. }
  intros _.
  apply (posts_at_most_bind 0 6); [apply posts_at_most_say|]. intros _.
  apply (posts_at_most_bind 0 6); [apply posts_at_most_say|]. intros _.
  apply (posts_at_most_bind 0 6); [apply posts_at_most_pure|]. intros [triggered errors].
  apply (posts_at_most_bind 0 6); [apply say_all_posts|]. intros _.
  destruct triggered as [|tr0 triggered];
    [apply (posts_at_most_weaken 0); [lia|apply posts_at_most_say]|].
  apply (posts_at_most_bind 0 6); [apply posts_at_most_say|]. intros _.
  apply (posts_at_most_bind 0 6); [apply filter_by_cooldown_posts|]. intros alerts.
  destruct alerts as [|a0 alerts];
    [apply (posts_at_most_weaken 0); [lia|apply posts_at_most_say]|].
  apply (posts_at_most_bind 0 6); [apply posts_at_most_say|]. intros _.
  apply (posts_at_most_bind 6 0); [|intros _; apply posts_at_most_say].
  destruct (length (list_sort sort_key (a0 :: alerts)) <=? 3)%nat eqn:Hfew.
  - apply Nat.leb_le in Hfew.
    eapply posts_at_most_weaken; [|apply send_each_posts]. lia.
  - apply (posts_at_most_bind 0 6); [apply posts_at_most_now|]. intros now.
    apply (posts_at_most_bind 0 6); [apply posts_at_most_pure|]. intros message.
    apply (posts_at_most_weaken 2); [lia|].
    apply (posts_at_most_bind 2 0); [apply send_message_safe_posts|].
    intros [|]; count_posts. apply record_each_posts.
Qed.


Lemma filter_by_cooldown_keeps_store triggered alerts :
  keeps_store anything (filter_by_cooldown config triggered alerts).
Proof.
  revert alerts. induction triggered as [|tr rest IH]; intros alerts;
    cbn [filter_by_cooldown]; [apply keeps_store_ret|].
  apply keeps_store_then; [apply keeps_store_now|]. intros now.
  apply keeps_store_then; [apply should_fire_keeps_store|]. intros fire.
  destruct fire; (apply keeps_store_then; [apply keeps_store_say|]); intros _; apply IH.
Qed.

Lemma send_each_keeps_store alerts snapshot :
  keeps_store anything (send_each render_alert alerts snapshot).
Proof.
  induction alerts as [|tr rest IH]; cbn [send_each]; [apply keeps_store_ret|].
  apply keeps_store_then; [apply keeps_store_now|]. intros now.
  apply keeps_store_then; [apply keeps_store_pure|]. intros message.
  apply (keeps_store_bind refused); [apply send_message_safe_refused| |intros; exact I].
  intros success Hrefused. injection Hrefused as ->.
  apply keeps_store_then; [apply keeps_store_say|]. intros _. exact IH.
Qed.

(** X20. A run of the intraday check posts at most six requests to the
    chat, whatever the market, the store and the answers of the API: up to
    three alerts go out one by one, each with at most one retry as plain
    text, and more than three go out as one message. *)
Theorem main_posts_at_most_six p :
  let run := main registry config render_alert render_multiple_alerts in
  exists new,
    posted (process_after run p) = (posted p ++ new)%list /\ (length new <= 6)%nat.
Proof. apply main_posts. Qed.

(** X21. Where nothing can be delivered, because a credential is missing
    or the API acknowledges no request, a run of the intraday check leaves
    the state file as it was: no cooldown starts, and [should_fire] answers
    after the run what it answered before. *)
Theorem main_records_only_delivered_alerts p :
  undeliverable p ->
  let p' := process_after (main registry config render_alert render_multiple_alerts) p in
  state_file (os p') = state_file (os p) /\
  forall now rule_name severity,
    result (should_fire config now rule_name severity) (os p') =
    result (should_fire config now rule_name severity) (os p).
Proof.
  intros Hp p'.
  assert (Hmain : keeps_store anything
                    (main registry config render_alert render_multiple_alerts)).
  { unfold main.
    apply keeps_store_then; [apply keeps_store_say|]. intros _.
    apply keeps_store_then.
    { unfold fetch_market_snapshot.
      apply keeps_store_then; [apply fetch_each_keeps_store|]. keep_store. }
    intros snapshot.
    apply keeps_store_then; [destruct (bool_decide _); keep_store|]. intros _.
    apply keeps_store_then; [apply keeps_store_say|]. intros _.
    apply keeps_store_then; [apply keeps_store_say|]. intros _.
    apply keeps_store_then; [apply keeps_store_pure|]. intros [triggered errors].
    apply keeps_store_then; [apply say_all_keeps_store|]. intros _.
    destruct triggered as [|tr0 triggered]; [apply keeps_store_say|].
    apply keeps_store_then; [apply keeps_store_say|]. intros _.
    apply keeps_store_then; [apply filter_by_cooldown_keeps_store|]. intros alerts.
    destruct alerts as [|a0 alerts]; [apply keeps_store_say|].
    apply keeps_store_then; [apply keeps_store_say|]. intros _.
    apply keeps_store_then; [|intros _; apply keeps_store_say].
    destruct (length (list_sort sort_key (a0 :: alerts)) <=? 3)%nat.
    - apply send_each_keeps_store.
    - apply keeps_store_then; [apply keeps_store_now|]. intros now.
      apply keeps_store_then; [apply keeps_store_pure|]. intros message.
      apply (keeps_store_bind refused); [apply send_message_safe_refused| |intros; exact I].
      intros success Hrefused. injection Hrefused as ->. apply keeps_store_say. }
  destruct (Hmain p Hp) as (_ & _ & Hfile). fold p' in Hfile.
  split; [exact Hfile|].
  intros now rule_name severity.
  unfold result. rewrite !should_fire_unfold.
  destruct (os p') as [f' wr' out'], (os p) as [f wr out]. cbn [state_file] in Hfile.
  subst f'.
  destruct f; reflexivity.
Qed.

End WithSurroundings.

End RuntimeFacts.

(** ** The order of the alerts *)

Module SortFacts.
Import Py Data Rules MainAlerts StorageMoreSpec SortSpec.

Section Generic.
Context {A : Type} (key : A -> Z).

Lemma insert_sorted_perm x l : insert_sorted key x l ≡ₚ x :: l.
Proof.
  induction l as [|y rest IH]; [reflexivity|]. cbn [insert_sorted].
  destruct (key y <=? key x)%Z; [|reflexivity].
  rewrite IH. apply Permutation_swap.
Qed.

Lemma insert_sorted_sorted x l :
  StronglySorted (fun a b => (key a <= key b)%Z) l ->
  StronglySorted (fun a b => (key a <= key b)%Z) (insert_sorted key x l).
Proof.
  induction l as [|y rest IH]; intros Hsorted; cbn [insert_sorted].
  - repeat constructor.
  - apply StronglySorted_inv in Hsorted as [Hrest Hy].
    destruct (key y <=? key x)%Z eqn:Hle.
    + apply Z.leb_le in Hle. constructor; [apply IH, Hrest|].
      rewrite insert_sorted_perm. constructor; assumption.
    + apply Z.leb_gt in Hle. constructor; [constructor; assumption|].
      constructor; [lia|]. rewrite Forall_forall in *. intros z Hz.
      specialize (Hy z Hz). lia.
Qed.

Lemma insert_sorted_filter k x l :
  StronglySorted (fun a b => (key a <= key b)%Z) l ->
  List.filter (fun a => (key a =? k)%Z) (insert_sorted key x l) =
  (List.filter (fun a => (key a =? k)%Z) l ++ (if (key x =? k)%Z then [x] else []))%list.
Proof.
  induction l as [|y rest IH]; intros Hsorted; cbn [insert_sorted List.filter].
  - destruct (key x =? k)%Z; reflexivity.
  - apply StronglySorted_inv in Hsorted as [Hrest Hy].
    destruct (key y <=? key x)%Z eqn:Hle.
    + cbn [List.filter]. rewrite (IH Hrest). destruct (key y =? k)%Z; reflexivity.
    + apply Z.leb_gt in Hle. cbn [List.filter].
      destruct (key x =? k)%Z eqn:Hx; [|rewrite app_nil_r; reflexivity].
      apply Z.eqb_eq in Hx.
      assert (Hy' : (key y =? k)%Z = false) by (apply Z.eqb_neq; lia).
      rewrite Hy'.
      assert (Hnone : List.filter (fun a => (key a =? k)%Z) rest = []).
      { clear IH Hrest. induction rest as [|z rest IH]; [reflexivity|].
        apply Forall_cons in Hy as [Hz Hy]. cbn [List.filter].
        assert (Hz' : (key z =? k)%Z = false) by (apply Z.eqb_neq; lia).
        rewrite Hz'. apply IH, Hy. }
      rewrite Hnone. reflexivity.
Qed.

Lemma list_sort_spec l :
  list_sort key l ≡ₚ l /\
  StronglySorted (fun a b => (key a <= key b)%Z) (list_sort key l) /\
  forall k, List.filter (fun a => (key a =? k)%Z) (list_sort key l) =
            List.filter (fun a => (key a =? k)%Z) l.
Proof.
  unfold list_sort.
  assert (H : forall acc,
             StronglySorted (fun a b => (key a <= key b)%Z) acc ->
             let sorted := fold_left (fun sorted x => insert_sorted key x sorted) l acc in
             sorted ≡ₚ (acc ++ l)%list /\
             StronglySorted (fun a b => (key a <= key b)%Z) sorted /\
             forall k, List.filter (fun a => (key a =? k)%Z) sorted =
                       (List.filter (fun a => (key a =? k)%Z) acc ++
                        List.filter (fun a => (key a =? k)%Z) l)%list).
  { induction l as [|x rest IH]; intros acc Hacc; cbn [fold_left].
    - rewrite app_nil_r. split; [reflexivity|]. split; [exact Hacc|].
      intros k. cbn [List.filter]. rewrite app_nil_r. reflexivity.
    - destruct (IH (insert_sorted key x acc) (insert_sorted_sorted x acc Hacc))
        as (Hperm & Hsorted & Hstable).
      split; [|split; [exact Hsorted|]].
      + rewrite Hperm, insert_sorted_perm. cbn [app].
        rewrite Permutation_middle. reflexivity.
      + intros k. rewrite Hstable, (insert_sorted_filter k x acc Hacc).
        cbn [List.filter]. rewrite <- app_assoc.
        destruct (key x =? k)%Z; reflexivity. }
  destruct (H [] (SSorted_nil _)) as (Hperm & Hsorted & Hstable).
  split; [exact Hperm|]. split; [exact Hsorted|]. exact Hstable.
Qed.

End Generic.

Lemma StronglySorted_weaken {A} (R S : A -> A -> Prop) l :
  (forall a b, R a b -> S a b) -> StronglySorted R l -> StronglySorted S l.
Proof.
  intros HRS Hsorted. induction Hsorted as [|a l Hl IH Ha]; constructor; [exact IH|].
  eapply Forall_impl; [exact Ha|]. intros b. apply HRS.
Qed.

Lemma sort_key_rank tr : sort_key tr = Z.of_nat (severity_rank (severity (rule tr))).
Proof. unfold sort_key. destruct (severity (rule tr)); reflexivity. Qed.

(** X22. The alerts go out by urgency: the sorted list is a permutation of
    the alerts to send, no alert comes before a more urgent one, and the
    alerts of one severity keep the order they had, which is the order of
    the registry. *)
Theorem alerts_sorted_by_severity (alerts_to_send : list TriggeredRule) :
  let sorted := list_sort sort_key alerts_to_send in
  sorted ≡ₚ alerts_to_send /\
  StronglySorted not_after sorted /\
  forall s, of_severity s sorted = of_severity s alerts_to_send.
Proof.
  intros sorted. subst sorted.
  destruct (list_sort_spec sort_key alerts_to_send) as (Hperm & Hsorted & Hstable).
  split; [exact Hperm|]. split.
  - eapply StronglySorted_weaken; [|exact Hsorted].
    intros a b Hab. cbv beta in Hab. rewrite !sort_key_rank in Hab. unfold not_after. lia.
  - intros s. specialize (Hstable (Z.of_nat (severity_rank s))).
    unfold of_severity.
    assert (Hsame : forall l,
               List.filter (fun tr => severity_eqb (severity (rule tr)) s) l =
               List.filter (fun a => (sort_key a =? Z.of_nat (severity_rank s))%Z) l).
    { intros l. apply filter_ext. intros tr. rewrite sort_key_rank. unfold severity_eqb.
      destruct (Nat.eqb_spec (severity_rank (severity (rule tr))) (severity_rank s));
        symmetry; [apply Z.eqb_eq|apply Z.eqb_neq]; lia. }
    rewrite !Hsame. exact Hstable.
Qed.

End SortFacts.

(** ** The chat *)

Module TelegramFacts.
Import Py Storage Runtime Telegram RuntimeSpec TelegramSpec RuntimeFacts.
#[local] Open Scope string_scope.

Lemma send_message_spec text mode p :
  let request := request_for p text mode in
  exists lines,
    send_message text mode p =
    (Ok (configured p && acknowledged (api p (posted p) request)),
     {| os := {| state_file := state_file (os p); writable := writable (os p);
                 stdout := (stdout (os p) ++ lines)%list |};
        environ := environ p; history := history p; api := api p;
        posted := (posted p ++ if configured p then [request] else [])%list;
        clock := clock p; clock_reads := clock_reads p |}).
Proof.
  unfold send_message, configured, request_for. run_IO.
  destruct (missing (environ p !! "TELEGRAM_BOT_TOKEN")
            || missing (environ p !! "TELEGRAM_CHAT_ID")) eqn:Hmissing.
  - cbn. rewrite app_nil_r. eexists. reflexivity.
  - cbn [negb andb fst snd os state_file environ api posted].
    match goal with |- context [api p (posted p) ?r] =>
      destruct (api p (posted p) r) as [| |[|] d]
    end; cbn; eexists; try reflexivity.
    instantiate (1 := []). rewrite app_nil_r. destruct p as [[f wr out] ? ? ? ? ? ?].
    reflexivity.
Qed.


Lemma remove_char_spec old s :
  list_ascii_of_string (remove_char old s) =
  List.filter (fun c => negb (Ascii.eqb c old)) (list_ascii_of_string s).
Proof.
  induction s as [|c rest IH]; [reflexivity|]. cbn [remove_char list_ascii_of_string List.filter].
  destruct (Ascii.eqb c old); cbn [negb]; [exact IH|].
  cbn [list_ascii_of_string]. rewrite IH. reflexivity.
Qed.

Lemma filter_twice {A} (f g : A -> bool) l :
  List.filter f (List.filter g l) = List.filter (fun x => g x && f x) l.
Proof.
  induction l as [|x rest IH]; [reflexivity|]. cbn [List.filter].
  destruct (g x); cbn [List.filter andb]; [destruct (f x)|]; rewrite IH; reflexivity.
Qed.

Lemma plain_text_spec text :
  list_ascii_of_string (plain_text text) =
  List.filter (fun c => negb (markdown_char c)) (list_ascii_of_string text).
Proof.
  unfold plain_text. rewrite !remove_char_spec, !filter_twice.
  apply filter_ext. intros c. unfold markdown_char.
  destruct (Ascii.eqb c "*"), (Ascii.eqb c "_"), (Ascii.eqb c "`"); reflexivity.
Qed.

(** X24. The fallback text is the original with every asterisk,
    underscore and backquote removed and nothing else changed: it holds
    none of the three, a text without them is sent as it is, and stripping
    twice changes nothing more. *)
Theorem plain_text_strips_markdown text :
  list_ascii_of_string (plain_text text) =
    List.filter (fun c => negb (markdown_char c)) (list_ascii_of_string text) /\
  (forall c, In c (list_ascii_of_string (plain_text text)) -> markdown_char c = false) /\
  ((forall c, In c (list_ascii_of_string text) -> markdown_char c = false) ->
   plain_text text = text) /\
  plain_text (plain_text text) = plain_text text.
Proof.
  assert (Hclean : forall t,
             (forall c, In c (list_ascii_of_string t) -> markdown_char c = false) ->
             plain_text t = t).
  { intros t Ht.
    assert (H : list_ascii_of_string (plain_text t) = list_ascii_of_string t).
    { rewrite plain_text_spec.
      induction (list_ascii_of_string t) as [|c rest IH]; [reflexivity|].
      cbn [List.filter]. rewrite (Ht c (or_introl eq_refl)). cbn [negb].
      f_equal. apply IH. intros c' Hc'. apply Ht. right. exact Hc'. }
    apply (f_equal string_of_list_ascii) in H.
    rewrite !string_of_list_ascii_of_string in H. exact H. }
  assert (Hnone : forall c, In c (list_ascii_of_string (plain_text text)) ->
                            markdown_char c = false).
  { intros c. rewrite plain_text_spec, filter_In. intros [_ Hc].
    destruct (markdown_char c); [discriminate|reflexivity]. }
  split; [apply plain_text_spec|]. split; [exact Hnone|]. split; [apply Hclean|].
  apply Hclean, Hnone.
Qed.

End TelegramFacts.

(** ** Fetching *)

Module FetchFacts.
Import Py Data Indicators Storage Runtime Fetch RuntimeSpec FetchSpec RuntimeFacts.
#[local] Open Scope string_scope.

Lemma fetch_symbol_data_spec sym name p :
  exists lines,
    fetch_symbol_data sym name p =
    (Ok (match history p sym "1y" with
         | Ok hist => symbol_data_of sym name hist
         | Raise _ => None
         end),
     {| os := {| state_file := state_file (os p); writable := writable (os p);
                 stdout := (stdout (os p) ++ lines)%list |};
        environ := environ p; history := history p; api := api p;
        posted := posted p; clock := clock p; clock_reads := clock_reads p |}).
Proof.
  unfold fetch_symbol_data. destruct (history p sym "1y") as [hist|e].
  - exists []. rewrite app_nil_r. destruct p as [[f wr out] ? ? ? ? ? ?]. reflexivity.
  - run_IO. eexists. reflexivity.
Qed.

Lemma fetch_each_spec symbols data p :
  NoDup symbols.*1 ->
  exists data' lines,
    fetch_each symbols data p =
    (Ok data',
     {| os := {| state_file := state_file (os p); writable := writable (os p);
                 stdout := (stdout (os p) ++ lines)%list |};
        environ := environ p; history := history p; api := api p;
        posted := posted p; clock := clock p; clock_reads := clock_reads p |}) /\
    forall sym,
      data' !! sym =
      match (list_to_map symbols : gmap string string) !! sym with
      | Some name =>
          match history p sym "1y" with
          | Ok hist =>
              match symbol_data_of sym name hist with
              | Some d => Some d
              | None => data !! sym
              end
          | Raise _ => data !! sym
          end
      | None => data !! sym
      end.
Proof.
  revert data p. induction symbols as [|[sym0 name0] rest IH]; intros data p Hnodup.
  - exists data, []. rewrite app_nil_r. split.
    + destruct p as [[f wr out] ? ? ? ? ? ?]. reflexivity.
    + intros sym. rewrite list_to_map_nil, lookup_empty. reflexivity.
  - cbn [fmap list_fmap fst] in Hnodup. apply NoDup_cons in Hnodup as [Hfresh Hrest].
    cbn [fetch_each]. unfold mbind at 1. unfold IO_bind at 1.
    destruct (fetch_symbol_data_spec sym0 name0 p) as (lines0 & ->).
    set (p1 := {| os := _ |}).
    assert (Hhist : history p1 = history p) by reflexivity.
    set (data1 := match history p sym0 "1y" with
                  | Ok hist => match symbol_data_of sym0 name0 hist with
                               | Some d => <[sym0 := d]> data
                               | None => data
                               end
                  | Raise _ => data
                  end).
    assert (Hstep : exists data' lines,
               fetch_each rest data1 p1 =
               (Ok data',
                {| os := {| state_file := state_file (os p); writable := writable (os p);
                            stdout := (stdout (os p) ++ lines)%list |};
                   environ := environ p; history := history p; api := api p;
                   posted := posted p; clock := clock p; clock_reads := clock_reads p |}) /\
               forall sym,
                 data' !! sym =
                 match (list_to_map rest : gmap string string) !! sym with
                 | Some name =>
                     match history p sym "1y" with
                     | Ok hist =>
                         match symbol_data_of sym name hist with
                         | Some d => Some d
                         | None => data1 !! sym
                         end
                     | Raise _ => data1 !! sym
                     end
                 | None => data1 !! sym
                 end).
    { destruct (IH data1 p1 Hrest) as (data' & lines & Hrun & Hlookup).
      exists data', (lines0 ++ lines)%list. split; [|exact Hlookup].
      rewrite Hrun. subst p1. cbn [os state_file writable stdout environ history api posted
                                      clock clock_reads].
      rewrite app_assoc. reflexivity. }
    destruct Hstep as (data' & lines & Hrun & Hlookup).
    exists data', lines. split.
    + subst data1. destruct (history p sym0 "1y") as [hist|e]; [|exact Hrun].
      destruct (symbol_data_of sym0 name0 hist); exact Hrun.
    + intros sym. rewrite Hlookup, list_to_map_cons.
      destruct (decide (sym = sym0)) as [->|Hne].
      * rewrite lookup_insert_eq, (not_elem_of_list_to_map_1 rest sym0 Hfresh).
        subst data1. destruct (history p sym0 "1y") as [hist|e]; [|reflexivity].
        destruct (symbol_data_of sym0 name0 hist); [apply lookup_insert_eq|reflexivity].
      * rewrite lookup_insert_ne by congruence.
        assert (Hdata1 : data1 !! sym = data !! sym).
        { subst data1. destruct (history p sym0 "1y") as [hist|e]; [|reflexivity].
          destruct (symbol_data_of sym0 name0 hist); [|reflexivity].
          apply lookup_insert_ne. congruence. }
        rewrite Hdata1. reflexivity.
Qed.

Lemma SYMBOLS_unique : NoDup SYMBOLS.*1.
Proof. apply (bool_decide_unpack _). vm_compute. exact I. Qed.

Lemma fetch_market_snapshot_spec p :
  exists snapshot p',
    fetch_market_snapshot p = (Ok snapshot, p') /\
    timestamp snapshot = clock p (clock_reads p) /\
    state_file (os p') = state_file (os p) /\
    posted p' = posted p /\
    (forall sym, get snapshot sym = fetched p sym) /\
    (forall sym d, get snapshot sym = Some d -> symbol d = sym /\ is_Some (tracked sym)).
Proof.
  destruct (fetch_each_spec SYMBOLS ∅ p SYMBOLS_unique) as (data' & lines & Hrun & Hlookup).
  assert (Hfetched : forall sym, data' !! sym = fetched p sym).
  { intros sym. rewrite Hlookup. unfold fetched, tracked.
    destruct (list_to_map SYMBOLS !! sym) as [name|]; [|apply lookup_empty].
    destruct (history p sym "1y") as [hist|e]; [|apply lookup_empty].
    destruct (symbol_data_of sym name hist); [reflexivity|apply lookup_empty]. }
  eexists _, _. unfold fetch_market_snapshot. unfold mbind at 1. unfold IO_bind at 1.
  rewrite Hrun. run_IO. split; [reflexivity|]. cbn.
  split; [reflexivity|]. split; [reflexivity|]. split; [reflexivity|].
  split; [exact Hfetched|].
  intros sym d Hd. unfold get in Hd. cbn [data] in Hd. rewrite Hfetched in Hd.
  unfold fetched in Hd. destruct (tracked sym) as [name|]; [|discriminate Hd].
  split; [|eauto].
  destruct (history p sym "1y") as [hist|e]; [|discriminate Hd].
  unfold symbol_data_of in Hd. destruct (bool_decide (hist = [])); [discriminate Hd|].
  injection Hd as <-. reflexivity.
Qed.



(** X25. [fetch_market_snapshot] never raises, posts nothing and leaves
    the state file alone.  A symbol is in the snapshot exactly when it is
    tracked and its history came back and was not empty; a symbol whose
    fetch failed is left out; every record sits under its own symbol. *)
Theorem fetch_market_snapshot_skips_failures p :
  exists snapshot p',
    fetch_market_snapshot p = (Ok snapshot, p') /\
    timestamp snapshot = clock p (clock_reads p) /\
    state_file (os p') = state_file (os p) /\
    posted p' = posted p /\
    (forall sym, get snapshot sym = fetched p sym) /\
    (forall sym d, get snapshot sym = Some d -> symbol d = sym /\ is_Some (tracked sym)).
Proof. apply fetch_market_snapshot_spec. Qed.

Lemma column_max_bound x rest :
  (x <= fold_left Qmax rest x)%Q /\
  forall y, In y rest -> (y <= fold_left Qmax rest x)%Q.
Proof.
  revert x. induction rest as [|z rest IH]; intros x; cbn [fold_left].
  - split; [apply Qle_refl|intros y []].
  - destruct (IH (Qmax x z)) as [Hacc Hrest]. split.
    + eapply Qle_trans; [apply Q.le_max_l|exact Hacc].
    + intros y [<-|Hy]; [|apply Hrest, Hy].
      eapply Qle_trans; [apply Q.le_max_r|exact Hacc].
Qed.

Lemma column_max_upper column y :
  In y column -> exists top, column_max column = Some top /\ (y <= top)%Q.
Proof.
  destruct column as [|x rest]; [intros []|]. intros Hy.
  eexists. split; [reflexivity|].
  destruct (column_max_bound x rest) as [Hx Hrest].
  destruct Hy as [<-|Hy]; [exact Hx|apply Hrest, Hy].
Qed.

Lemma iloc_back_last column x : iloc_back (column ++ [x]) 1 = x.
Proof. unfold iloc_back. rewrite rev_unit. reflexivity. Qed.

Lemma drawdown_nonpositive current high :
  (0 < high)%Q -> (current <= high)%Q -> ((current - high) / high * 100 <= 0)%Q.
Proof.
  intros Hpos Hbelow.
  apply Qle_trans with (0 * 100)%Q; [|discriminate].
  apply Qmult_le_compat_r; [|discriminate].
  apply Qle_shift_div_r; [exact Hpos|].
  rewrite Qmult_0_l. apply (Qplus_le_l _ _ high). ring_simplify. exact Hbelow.
Qed.

(** X26. On fetched data the drawdown is never positive: when every close
    of the history is positive and not above the high of its day, the
    record has a positive 52-week high at or above the current price, and
    [get_drawdown_from_high] answers a number that is at most zero. *)
Theorem fetched_drawdown_never_positive sym name hist d :
  well_formed hist ->
  symbol_data_of sym name hist = Some d ->
  exists high drawdown,
    high_52w d = Some high /\ (0 < current_price d <= high)%Q /\
    get_drawdown_from_high d = Some drawdown /\ (drawdown <= 0)%Q.
Proof.
  intros Hwf Hd. unfold symbol_data_of in Hd.
  destruct (bool_decide (hist = [])) eqn:Hempty; [discriminate Hd|].
  apply bool_decide_eq_false in Hempty.
  destruct (exists_last Hempty) as (earlier & [bar Hhist]). subst hist.
  injection Hd as <-. unfold get_drawdown_from_high. cbn [high_52w current_price].
  destruct (Hwf bar) as [Hpos Hhigh]; [apply in_or_app; right; left; reflexivity|].
  destruct (column_max_upper (map High (earlier ++ [bar])) (High bar)) as (top & Htop & Hle).
  { apply in_map, in_or_app. right. left. reflexivity. }
  assert (Hcurrent : iloc_back (map Close (earlier ++ [bar])) 1 = Close bar).
  { rewrite map_app. apply iloc_back_last. }
  rewrite Hcurrent, Htop.
  assert (Hbelow : (Close bar <= top)%Q) by (eapply Qle_trans; eassumption).
  assert (Htop_pos : (0 < top)%Q) by (eapply Qlt_le_trans; eassumption).
  exists top. eexists.
  destruct (Qeq_bool top 0) eqn:Hzero.
  { apply Qeq_bool_iff in Hzero. rewrite Hzero in Htop_pos. discriminate Htop_pos. }
  split; [reflexivity|]. split; [split; assumption|]. split; [reflexivity|].
  apply drawdown_nonpositive; assumption.
Qed.

Lemma symbol_data_of_fields sym name hist d :
  symbol_data_of sym name hist = Some d ->
  hist <> [] /\
  current_price d = iloc_back (map Close hist) 1 /\
  previous_close d = (if (2 <=? length hist)%nat then iloc_back (map Close hist) 2
                      else iloc_back (map Close hist) 1) /\
  intraday_change_pct d =
    ((current_price d - previous_close d) / previous_close d * 100)%Q /\
  change_5d_pct d =
    (if (6 <=? length hist)%nat
     then Some ((current_price d - iloc_back (map Close hist) 6) /
                iloc_back (map Close hist) 6 * 100)%Q
     else None) /\
  sma_200 d = (if (200 <=? length hist)%nat
               then Some (mean (tail 200 (map Close hist))) else None).
Proof.
  unfold symbol_data_of.
  destruct (bool_decide (hist = [])) eqn:Hempty; [discriminate|].
  apply bool_decide_eq_false in Hempty. intros Hd.
  apply (f_equal (fun o => match o with Some x => x | None => d end)) in Hd.
  subst d. repeat split. exact Hempty.
Qed.

(** X27. What a short history leaves out: a record has a 5-day change
    exactly when the history has six sessions and a 200-day average exactly
    when it has two hundred; below that [get_5d_return] is [None] and
    [is_below_200dma] is false; with a single session the previous close
    is the current price and the intraday change is zero. *)
Theorem short_history_is_silent sym name hist d :
  symbol_data_of sym name hist = Some d ->
  hist <> [] /\
  (is_Some (change_5d_pct d) <-> (6 <= length hist)%nat) /\
  (is_Some (sma_200 d) <-> (200 <= length hist)%nat) /\
  ((length hist < 200)%nat -> is_below_200dma d = false) /\
  ((length hist < 6)%nat -> get_5d_return d = None) /\
  (length hist = 1%nat -> ~ (current_price d == 0)%Q ->
     previous_close d = current_price d /\ (intraday_change_pct d == 0)%Q).
Proof.
  intros Hd.
  destruct (symbol_data_of_fields _ _ _ _ Hd)
    as (Hempty & Hcurrent & Hprevious & Hintraday & H5d & Hsma).
  unfold is_below_200dma, get_5d_return. rewrite H5d, Hsma.
  split; [exact Hempty|].
  split; [|split; [|split; [|split]]].
  - destruct (Nat.leb_spec 6 (length hist)) as [H6|H6].
    + split; [intros _; exact H6|intros _; eexists; reflexivity].
    + split; [intros [? [=]]|lia].
  - destruct (Nat.leb_spec 200 (length hist)) as [H200|H200].
    + split; [intros _; exact H200|intros _; eexists; reflexivity].
    + split; [intros [? [=]]|lia].
  - intros Hshort. destruct (Nat.leb_spec 200 (length hist)); [lia|reflexivity].
  - intros Hshort. destruct (Nat.leb_spec 6 (length hist)); [lia|reflexivity].
  - intros Hone Hnonzero.
    assert (Hsame : previous_close d = current_price d).
    { rewrite Hprevious, Hcurrent, Hone. reflexivity. }
    split; [exact Hsame|]. rewrite Hintraday, Hsame. field. exact Hnonzero.
Qed.

End FetchFacts.

(** ** The intraday check without data *)

Module MainFacts.
Import Py Data Rules Storage StorageSpec Runtime Fetch Telegram MainAlerts.
Import RuntimeSpec FetchSpec RuntimeFacts FetchFacts.
#[local] Open Scope string_scope.

Lemma bind_run {A B} (m : IO A) (f : A -> IO B) p :
  (m ≫= f) p = match m p with
               | (Ok a, p') => f a p'
               | (Raise e, p') => (Raise e, p')
               end.
Proof. reflexivity. Qed.

Section WithSurroundings.
Context {codec : IsoCodec}.
Variable registry : list Rule.
Variable config : Config.
Variable render_alert : Z -> TriggeredRule -> MarketSnapshot -> outcome string.
Variable render_multiple_alerts : Z -> list TriggeredRule -> MarketSnapshot -> outcome string.

(** X28. When no tracked symbol can be fetched, the intraday check exits
    with status 1 after printing the error: it posts nothing and leaves the
    state file alone. *)
Theorem main_exits_without_data p :
  (forall sym, fetched p sym = None) ->
  let run := main registry config render_alert render_multiple_alerts in
  outcome_of run p = Raise (Exn "SystemExit" "1") /\
  posted (process_after run p) = posted p /\
  state_file (os (process_after run p)) = state_file (os p) /\
  last (stdout (os (process_after run p))) = Some "Error: No market data fetched".
Proof.
  intros Hnone run. subst run.
  assert (Hmain : exists p',
             main registry config render_alert render_multiple_alerts p =
               (Raise (Exn "SystemExit" "1"), p') /\
             posted p' = posted p /\
             state_file (os p') = state_file (os p) /\
             last (stdout (os p')) = Some "Error: No market data fetched").
  { unfold main. rewrite bind_run.
    change (say "Fetching market data..." p)
      with (Ok tt, with_os p {| state_file := state_file (os p); writable := writable (os p);
                                stdout := (stdout (os p) ++ ["Fetching market data..."])%list |}).
    cbv iota. set (p0 := with_os p _).
    destruct (fetch_market_snapshot_spec p0)
      as (snapshot & p1 & Hrun & _ & Hfile & Hposted & Hget & _).
    rewrite bind_run, Hrun.
    assert (Hempty : data snapshot = ∅).
    { apply map_empty. intros sym. specialize (Hget sym). unfold get in Hget.
      rewrite Hget. exact (Hnone sym). }
    rewrite bind_run, Hempty, bool_decide_true by reflexivity.
    rewrite bind_run. run_IO.
    eexists. split; [reflexivity|]. cbn [posted os state_file stdout].
    split; [exact Hposted|]. split; [exact Hfile|]. apply last_snoc. }
  destruct Hmain as (p' & Hrun & Hrest).
  unfold outcome_of, process_after. rewrite Hrun. cbn [fst snd].
  split; [reflexivity|exact Hrest].
Qed.

End WithSurroundings.
End MainFacts.

(** ** The intraday check with a working chat *)

Module CooldownFacts.
Import Py Data Rules Storage StorageSpec StorageMoreSpec Runtime Fetch Telegram MainAlerts.
Import RuntimeSpec TelegramSpec FetchSpec CooldownSpec.
Import StorageFacts StorageMoreFacts RuntimeFacts TelegramFacts FetchFacts SortFacts MainFacts.
#[local] Open Scope string_scope.

Lemma hoare_bind {A B} P (Q : A -> Process -> Prop) (R : B -> Process -> Prop)
    (m : IO A) (f : A -> IO B) :
  hoare P m Q -> (forall a, hoare (Q a) (f a) R) -> hoare P (m ≫= f) R.
Proof.
  intros Hm Hf p Hp b p' Hrun. rewrite bind_run in Hrun.
  destruct (m p) as [[a|e] p1] eqn:Hmp; [|discriminate Hrun].
  exact (Hf a p1 (Hm p Hp a p1 Hmp) b p' Hrun).
Qed.

Lemma hoare_weaken {A} (P P' : Process -> Prop) (Q Q' : A -> Process -> Prop) (m : IO A) :
  (forall p, P' p -> P p) -> (forall a p, Q a p -> Q' a p) ->
  hoare P m Q -> hoare P' m Q'.
Proof. intros HP HQ Hm p Hp a p' Hrun. apply HQ, (Hm p (HP p Hp) a p' Hrun). Qed.

Lemma hoare_ret {A} (P : Process -> Prop) (a : A) : hoare P (mret a) (fun a' p => a' = a /\ P p).
Proof. intros p Hp a' p' [= <- <-]. auto. Qed.

Lemma stable_bind {A B} (m : IO A) (f : A -> IO B) :
  stable m -> (forall a, stable (f a)) -> stable (m ≫= f).
Proof.
  intros Hm Hf p. specialize (Hm p). unfold process_after in *. rewrite bind_run.
  destruct (m p) as [[a|e] p1]; cbn [snd] in *; [|exact Hm].
  specialize (Hf a p1). cbv zeta in Hf, Hm. unfold process_after in Hf.
  destruct Hm as (H1 & H2 & H3 & H4), Hf as (G1 & G2 & G3 & G4).
  repeat split; congruence.
Qed.

Lemma stable_ret {A} (a : A) : stable (mret a : IO A).
Proof. intros p. repeat split. Qed.

Lemma stable_pure {A} (o : outcome A) : stable (pure o).
Proof. intros p. repeat split. Qed.

Lemma stable_now : stable datetime_now.
Proof. intros p. repeat split. Qed.

Lemma stable_say line : stable (say line).
Proof. intros p. repeat split. Qed.

Lemma stable_raise {A} e : stable (raise e : IO A).
Proof. intros p. repeat split. Qed.

Lemma stable_send_message text mode : stable (send_message text mode).
Proof.
  intros p. unfold process_after.
  destruct (send_message_spec text mode p) as (lines & ->). repeat split.
Qed.

Lemma stable_send_message_safe text : stable (send_message_safe text).
Proof.
  unfold send_message_safe. apply stable_bind; [apply stable_send_message|].
  intros [|]; [apply stable_ret|apply stable_send_message].
Qed.

Lemma stable_should_fire `{IsoCodec} config now rule_name severity :
  stable (on_os (should_fire config now rule_name severity)).
Proof.
  intros p. unfold process_after, on_os.
  destruct (load_state_total (os p)) as (state & w1 & Hload & Hf & Hw).
  rewrite should_fire_unfold, Hload. cbn. auto.
Qed.

Lemma stable_fetch_market_snapshot : stable fetch_market_snapshot.
Proof.
  intros p. unfold process_after.
  destruct (fetch_each_spec SYMBOLS ∅ p SYMBOLS_unique) as (data' & lines & Hrun & _).
  unfold fetch_market_snapshot. rewrite bind_run, Hrun. repeat split.
Qed.

Lemma stable_say_all lines : stable (say_all lines).
Proof.
  induction lines as [|line rest IH]; cbn [say_all]; [apply stable_ret|].
  apply stable_bind; [apply stable_say|]. intros _. exact IH.
Qed.

(** A stable computation keeps what the store holds. *)
Lemma stable_holding {A} names (m : IO A) :
  stable m -> hoare (holding names) m (fun _ => holding names).
Proof.
  intros Hm p [(Hconf & Hack & Hw & Hext) Hnames] a p' Hrun.
  specialize (Hm p). unfold process_after in Hm. rewrite Hrun in Hm. cbn [snd] in Hm.
  destruct Hm as (Henv & Hapi & Hfile & Hwr).
  unfold holding, working, in_cooldown_store, configured.
  rewrite Henv, Hapi, Hfile, Hwr. auto.
Qed.


Lemma send_message_safe_delivers names text :
  hoare (holding names) (send_message_safe text) (fun sent p' => sent = true /\ holding names p').
Proof.
  intros p Hp sent p' Hrun.
  split; [|exact (stable_holding names _ (stable_send_message_safe text) p Hp sent p' Hrun)].
  destruct Hp as [(Hconf & Hack & _) _].
  unfold send_message_safe in Hrun. rewrite bind_run in Hrun.
  destruct (send_message_spec text "Markdown" p) as (lines & Hsend).
  rewrite Hsend, Hconf, Hack in Hrun. cbn [andb] in Hrun.
  unfold mret, IO_ret in Hrun. injection Hrun as <- _. reflexivity.
Qed.

Section WithCodec.
Context {codec : IsoCodec}.

Lemma should_fire_skips_only_recorded config now rule_name severity names :
  hoare (holding names)
    (on_os (should_fire config now rule_name severity))
    (fun fire p' => holding names p' /\ (fire = false -> in_cooldown_store p' rule_name)).
Proof.
  intros p Hp fire p' Hrun.
  pose proof (stable_holding names _ (stable_should_fire config now rule_name severity)
                p Hp fire p' Hrun) as Hp'.
  split; [exact Hp'|]. intros ->.
  pose proof (stable_should_fire config now rule_name severity p) as Hstable.
  unfold process_after in Hstable. rewrite Hrun in Hstable. cbn [snd] in Hstable.
  destruct Hstable as (_ & _ & Hfile & _).
  unfold in_cooldown_store. rewrite Hfile.
  destruct Hp as [(_ & _ & _ & Hext) _].
  destruct (load_state_extendable (os p) Hext) as (m & w1 & Hload & _ & _ & _ & Hm & Hentries).
  unfold on_os in Hrun. rewrite should_fire_unfold, Hload in Hrun.
  rewrite (verdict_object _ _ _ _ _ Hm), Hentries in Hrun.
  destruct (last_alert (state_file (os p)) rule_name) as [v|]; [eauto|].
  discriminate Hrun.
Qed.

Lemma record_fire_holding now rule_name names :
  hoare (holding names)
    (on_os (record_fire now rule_name))
    (fun _ p' => holding (and_also rule_name names) p').
Proof.
  intros p [(Hconf & Hack & Hw & Hext) Hnames] a p' Hrun.
  destruct (record_fire_file now rule_name (os p)) as [Hfile Hwr].
  unfold world_after in Hfile, Hwr. unfold on_os in Hrun.
  destruct (record_fire now rule_name (os p)) as [r w]. cbn [snd] in Hfile, Hwr.
  injection Hrun as _ <-.
  destruct (load_state_extendable (os p) Hext) as (m & w1 & _ & Hl & _ & _ & Hm & Hentries).
  rewrite Hw in Hfile. unfold after_fire in Hfile.
  rewrite Hl, (with_fire_extendable _ _ _ Hm) in Hfile.
  assert (Hentry : forall r, last_alert (state_file w) r =
                             <[rule_name := JStr (isoformat now)]> (entries_of m) !! r).
  { intros r'. rewrite Hfile. unfold fired. cbn [last_alert].
    rewrite lookup_insert_eq. reflexivity. }
  split; [split; [exact Hconf|split; [exact Hack|split]]|].
  - cbn [with_os os]. congruence.
  - cbn [with_os os]. rewrite Hfile. apply fired_extendable.
  - intros n Hn. unfold in_cooldown_store. cbn [with_os os]. rewrite Hentry.
    destruct (decide (n = rule_name)) as [->|Hne].
    + rewrite lookup_insert_eq. eauto.
    + rewrite lookup_insert_ne by congruence. rewrite Hentries.
      destruct Hn as [Hn|Hn]; [congruence|]. apply Hnames, Hn.
Qed.

End WithCodec.


Lemma hoare_pure {A} (P : Process -> Prop) (o : outcome A) :
  hoare P (pure o) (fun a p' => o = Ok a /\ P p').
Proof. intros p Hp a p' [= -> <-]. auto. Qed.

Lemma hoare_stable_then {A B} names (R : B -> Process -> Prop) (m : IO A) (f : A -> IO B) :
  stable m -> (forall a, hoare (holding names) (f a) R) ->
  hoare (holding names) (m ≫= f) R.
Proof.
  intros Hm Hf. eapply hoare_bind; [apply stable_holding, Hm|exact Hf].
Qed.

Lemma fetch_market_snapshot_same p p0 snapshot :
  history p0 = history p -> clock p0 = clock p -> clock_reads p0 = clock_reads p ->
  outcome_of fetch_market_snapshot p = Ok snapshot ->
  outcome_of fetch_market_snapshot p0 = Ok snapshot.
Proof.
  intros Hhist Hclock Hreads. unfold outcome_of.
  destruct (fetch_market_snapshot_spec p) as (s & p' & -> & Hts & _ & _ & Hget & _).
  destruct (fetch_market_snapshot_spec p0) as (s0 & p0' & -> & Hts0 & _ & _ & Hget0 & _).
  cbn [fst]. intros [= <-]. f_equal.
  destruct s as [ts d], s0 as [ts0 d0]. cbn [timestamp] in Hts, Hts0.
  f_equal; [congruence|].
  apply map_eq. intros sym. specialize (Hget sym). specialize (Hget0 sym).
  unfold get in Hget, Hget0. cbn [data] in Hget, Hget0. rewrite Hget, Hget0.
  unfold fetched. rewrite Hhist. reflexivity.
Qed.

Section WithSurroundings.
Context {codec : IsoCodec}.
Variable registry : list Rule.
Variable config : Config.
Variable render_alert : Z -> TriggeredRule -> MarketSnapshot -> outcome string.
Variable render_multiple_alerts : Z -> list TriggeredRule -> MarketSnapshot -> outcome string.

Lemma filter_by_cooldown_covers triggered :
  forall names acc,
    hoare (holding names)
      (filter_by_cooldown config triggered acc)
      (fun alerts p' =>
         holding names p' /\
         forall tr, In tr triggered \/ In tr acc ->
                    In tr alerts \/ in_cooldown_store p' (Rules.name (rule tr))).
Proof.
  induction triggered as [|tr rest IH]; intros names acc; cbn [filter_by_cooldown].
  - intros p Hp alerts p' [= <- <-]. split; [exact Hp|]. intros tr [[]|Htr]. left. exact Htr.
  - apply hoare_stable_then; [apply stable_now|]. intros now.
    eapply hoare_bind; [apply should_fire_skips_only_recorded|]. intros [|].
    + eapply hoare_bind.
      { eapply hoare_weaken; [| |apply (stable_holding names), stable_say].
        - intros p [Hp _]. exact Hp.
        - intros a p Hp. exact Hp. }
      intros ?. eapply hoare_weaken; [| |apply (IH names (acc ++ [tr])%list)].
      * auto.
      * intros alerts p' [Hp' Hcover]. split; [exact Hp'|].
        intros tr' [[<-|Htr']|Htr']; apply Hcover.
        -- right. apply in_or_app. right. left. reflexivity.
        -- left. exact Htr'.
        -- right. apply in_or_app. left. exact Htr'.
    + eapply hoare_bind.
      { eapply hoare_weaken;
          [| |apply (stable_holding (and_also (Rules.name (rule tr)) names)), stable_say].
        - intros p [[Hw Hnames] Hskip]. split; [exact Hw|].
          intros n [->|Hn]; [apply Hskip; reflexivity|apply Hnames, Hn].
        - intros a p Hp. exact Hp. }
      intros ?. eapply hoare_weaken; [| |apply (IH (and_also (Rules.name (rule tr)) names) acc)].
      * auto.
      * intros alerts p' [[Hw Hnames] Hcover]. split.
        -- split; [exact Hw|]. intros n Hn. apply Hnames. right. exact Hn.
        -- intros tr' [[<-|Htr']|Htr'].
           ++ right. apply Hnames. left. reflexivity.
           ++ apply Hcover. left. exact Htr'.
           ++ apply Hcover. right. exact Htr'.
Qed.

Lemma send_each_records alerts snapshot :
  forall names,
    hoare (holding names)
      (send_each render_alert alerts snapshot)
      (fun _ p' => holding names p' /\
                   forall tr, In tr alerts -> in_cooldown_store p' (Rules.name (rule tr))).
Proof.
  induction alerts as [|tr rest IH]; intros names; cbn [send_each].
  - intros p Hp a p' [= _ <-]. split; [exact Hp|]. intros tr [].
  - apply hoare_stable_then; [apply stable_now|]. intros now.
    apply hoare_stable_then; [apply stable_pure|]. intros message.
    eapply hoare_bind; [apply send_message_safe_delivers|]. intros sent.
    eapply hoare_bind with (Q := fun _ => holding (and_also (Rules.name (rule tr)) names)).
    { destruct sent; [|intros p [[=] _]].
      eapply hoare_weaken with (P := holding names)
                               (Q := fun _ => holding (and_also (Rules.name (rule tr)) names));
        [intros p [_ Hp]; exact Hp|auto|].
      apply hoare_stable_then; [apply stable_now|]. intros now0.
      eapply hoare_bind; [apply record_fire_holding|]. intros ?.
      apply stable_holding, stable_say. }
    intros ?. eapply hoare_weaken; [| |apply (IH (and_also (Rules.name (rule tr)) names))].
    + auto.
    + intros ? p' [[Hw Hnames] Hrest]. split.
      * split; [exact Hw|]. intros n Hn. apply Hnames. right. exact Hn.
      * intros tr' [<-|Htr']; [apply Hnames; left; reflexivity|apply Hrest, Htr'].
Qed.

Lemma record_each_records alerts :
  forall names,
    hoare (holding names)
      (record_each alerts)
      (fun _ p' => holding names p' /\
                   forall tr, In tr alerts -> in_cooldown_store p' (Rules.name (rule tr))).
Proof.
  induction alerts as [|tr rest IH]; intros names; cbn [record_each].
  - intros p Hp a p' [= _ <-]. split; [exact Hp|]. intros tr [].
  - apply hoare_stable_then; [apply stable_now|]. intros now.
    eapply hoare_bind; [apply record_fire_holding|]. intros ?.
    eapply hoare_weaken; [| |apply (IH (and_also (Rules.name (rule tr)) names))].
    + auto.
    + intros ? p' [[Hw Hnames] Hrest]. split.
      * split; [exact Hw|]. intros n Hn. apply Hnames. right. exact Hn.
      * intros tr' [<-|Htr']; [apply Hnames; left; reflexivity|apply Hrest, Htr'].
Qed.


Lemma hoare_apply {A} (P : Process -> Prop) (m : IO A) (Q : A -> Process -> Prop) p a p' :
  hoare P m Q -> P p -> m p = (Ok a, p') -> Q a p'.
Proof. intros H Hp Hrun. exact (H p Hp a p' Hrun). Qed.

Lemma holding_names_of (names : string -> Prop) alerts triggered p :
  holding names p ->
  (forall tr, In tr alerts -> in_cooldown_store p (Rules.name (rule tr))) ->
  (forall tr, In tr triggered -> In tr alerts \/ names (Rules.name (rule tr))) ->
  holding (names_of triggered) p.
Proof.
  intros [Hw Hnames] Halerts Hcover. split; [exact Hw|].
  intros n (tr & Htr & <-). destruct (Hcover tr Htr) as [Hin|Hin]; auto.
Qed.

Lemma hoare_pure_known {A B} (P : Process -> Prop) (o : outcome A) a (f : A -> IO B)
    (R : B -> Process -> Prop) :
  o = Ok a -> hoare P (f a) R -> hoare P (pure o ≫= f) R.
Proof. intros -> H p Hp b p' Hrun. exact (H p Hp b p' Hrun). Qed.

Lemma hoare_done {A} (P : Process -> Prop) (m : IO A) (Q : Process -> Prop) :
  (forall p, P p -> Q p) -> stable m ->
  (forall p, Q p -> Q (process_after m p)) ->
  hoare P m (fun _ => Q).
Proof.
  intros HPQ _ Hkeep p Hp a p' Hrun. specialize (Hkeep p (HPQ p Hp)).
  unfold process_after in Hkeep. rewrite Hrun in Hkeep. exact Hkeep.
Qed.

(** X29. With a working chat and a writable store, a run of the intraday
    check that returns normally leaves every triggered rule with a
    last-fire entry: a rule is either skipped, because it already had one,
    or sent and recorded. *)
Theorem main_leaves_triggered_rules_in_cooldown p snapshot triggered errors :
  let run := main registry config render_alert render_multiple_alerts in
  working p ->
  outcome_of fetch_market_snapshot p = Ok snapshot ->
  evaluate_rules registry config snapshot = Ok (triggered, errors) ->
  outcome_of run p = Ok tt ->
  forall tr, In tr triggered ->
    in_cooldown_store (process_after run p) (Rules.name (rule tr)).
Proof.
  intros run Hworking Hfetch Heval Hrun tr Htr. subst run.
  unfold outcome_of, process_after in Hrun |- *.
  destruct (main registry config render_alert render_multiple_alerts p) as [r p'] eqn:Hmain.
  cbn [fst snd] in Hrun |- *. subst r.
  assert (Hgoal : holding (names_of triggered) p').
  2: { destruct Hgoal as [_ Hnames]. apply Hnames. exists tr. auto. }
  clear tr Htr.
  unfold main in Hmain. rewrite bind_run in Hmain.
  change (say "Fetching market data..." p)
    with (Ok tt, with_os p {| state_file := state_file (os p); writable := writable (os p);
                              stdout := (stdout (os p) ++ ["Fetching market data..."])%list |})
    in Hmain.
  cbv iota in Hmain. set (p0 := with_os p _) in Hmain.
  assert (Hp0 : holding (fun _ => False) p0) by (split; [exact Hworking|intros n []]).
  pose proof (fetch_market_snapshot_same p p0 snapshot eq_refl eq_refl eq_refl Hfetch) as Hfetch0.
  rewrite bind_run in Hmain. unfold outcome_of in Hfetch0.
  pose proof (stable_holding _ _ stable_fetch_market_snapshot p0 Hp0) as Hp1.
  destruct (fetch_market_snapshot p0) as [r p1]. cbn [fst] in Hfetch0. subst r.
  specialize (Hp1 snapshot p1 eq_refl).
  refine (hoare_apply (holding (fun _ => False)) _ (fun _ => holding (names_of triggered))
            p1 tt p' _ Hp1 Hmain).
  clear p p0 p1 p' Hworking Hfetch Hp0 Hp1 Hmain.
  apply hoare_stable_then.
  { destruct (bool_decide _); [|apply stable_ret].
    apply stable_bind; [apply stable_say|]. intros ?. apply stable_raise. }
  intros ?. apply hoare_stable_then; [apply stable_say|].
  intros ?. apply hoare_stable_then; [apply stable_say|].
  intros ?. apply (hoare_pure_known _ _ (triggered, errors)); [exact Heval|].
  cbv beta iota.
  apply hoare_stable_then; [apply stable_say_all|]. intros ?. clear Heval.
  destruct triggered as [|tr0 rest0] eqn:Htriggered.
  { eapply hoare_weaken; [| |apply (stable_holding (fun _ => False)), stable_say]; [auto|].
    intros ? p [Hw _]. split; [exact Hw|]. intros n (tr & [] & _). }
  rewrite <- Htriggered. clear Htriggered tr0 rest0.
  apply hoare_stable_then; [apply stable_say|]. intros ?.
  eapply hoare_bind; [apply filter_by_cooldown_covers|]. intros alerts.
  intros p2 [[Hw2 _] Hcover] done p' Hrun.
  set (skipped := in_cooldown_store p2).
  assert (Hp2 : holding skipped p2) by (split; [exact Hw2|auto]).
  assert (Hfinish : forall sorted p,
             (forall tr, In tr alerts -> In tr sorted) ->
             holding skipped p /\
             (forall tr, In tr sorted -> in_cooldown_store p (Rules.name (rule tr))) ->
             holding (names_of triggered) p).
  { intros sorted p Hsorted [[Hw Hskipped] Hsent]. split; [exact Hw|].
    intros n (tr & Htr & <-).
    destruct (Hcover tr (or_introl Htr)) as [Hin|Hin].
    - apply Hsent, Hsorted, Hin.
    - apply Hskipped, Hin. }
  refine (hoare_apply (holding skipped) _ (fun _ => holding (names_of triggered))
            p2 done p' _ Hp2 Hrun).
  clearbody skipped. clear p2 Hw2 Hp2 Hrun p' done Hcover.
  destruct alerts as [|alert0 alerts0] eqn:Halerts.
  { intros p Hp ? p' Hrun.
    apply (Hfinish [] p'); [auto|]. split; [|intros tr []].
    exact (stable_holding skipped _ (stable_say _) p Hp _ p' Hrun). }
  rewrite <- Halerts in *. clear Halerts alert0 alerts0.
  cbv zeta.
  assert (Hsorted : forall tr, In tr alerts -> In tr (list_sort sort_key alerts)).
  { intros tr Hin. destruct (list_sort_spec sort_key alerts) as (Hperm & _).
    apply list_elem_of_In. rewrite Hperm. apply list_elem_of_In, Hin. }
  apply hoare_stable_then; [apply stable_say|]. intros ?.
  eapply hoare_bind with (Q := fun _ => holding (names_of triggered));
    [|intros ?; apply stable_holding, stable_say].
  destruct (length (list_sort sort_key alerts) <=? 3)%nat.
  - eapply hoare_weaken; [| |apply (send_each_records _ _ skipped)]; [auto|].
    intros ? p. apply (Hfinish (list_sort sort_key alerts) p Hsorted).
  - apply hoare_stable_then; [apply stable_now|]. intros now.
    apply hoare_stable_then; [apply stable_pure|]. intros message.
    eapply hoare_bind; [apply send_message_safe_delivers|]. intros sent.
    destruct sent; [|intros p [[=] _]].
    eapply hoare_weaken with (P := holding skipped)
                             (Q := fun _ => holding (names_of triggered));
      [intros p [_ Hp]; exact Hp|auto|].
    eapply hoare_bind; [apply (record_each_records _ skipped)|]. intros ?.
    intros p Hp ? p' Hrun.
    pose proof (stable_say ("  Sent combined alert with " ++
                            count (list_sort sort_key alerts) ++ " signals") p) as Hsay.
    unfold process_after in Hsay. rewrite Hrun in Hsay. cbn [snd] in Hsay.
    destruct Hsay as (Henv & Hapi & Hfile & Hwr).
    apply (Hfinish (list_sort sort_key alerts) p' Hsorted).
    destruct Hp as [[(Hconf & Hack & Hw & Hext) Hskipped] Hsent].
    unfold holding, working, in_cooldown_store, configured in *.
    rewrite Henv, Hapi, Hfile, Hwr. repeat split; assumption.
Qed.

End WithSurroundings.

End CooldownFacts.

(** ** The daily report *)

Module MainDailyFacts.
Import Py Data Rules Regime Storage StorageSpec Runtime Fetch Telegram MainAlerts.
Import RuntimeSpec TelegramSpec FetchSpec CooldownSpec.
Import StorageFacts RuntimeFacts TelegramFacts FetchFacts MainFacts CooldownFacts.
#[local] Open Scope string_scope.

Lemma stable_get_vix_previous_close : stable get_vix_previous_close.
Proof.
  intros p. unfold process_after, get_vix_previous_close.
  destruct (history p "^VIX" "5d") as [hist|e]; [|repeat split].
  destruct (2 <=? length hist)%nat; repeat split.
Qed.

Lemma get_vix_previous_close_posts : posts_at_most 0 get_vix_previous_close.
Proof.
  intros p. exists []. rewrite app_nil_r. split; [|cbn; lia].
  unfold process_after, get_vix_previous_close.
  destruct (history p "^VIX" "5d") as [hist|e]; [|reflexivity].
  destruct (2 <=? length hist)%nat; reflexivity.
Qed.

Lemma get_vix_previous_close_keeps_store : keeps_store anything get_vix_previous_close.
Proof.
  intros p Hp. unfold outcome_of, process_after, get_vix_previous_close.
  destruct (history p "^VIX" "5d") as [hist|e]; [|repeat split; exact Hp].
  destruct (2 <=? length hist)%nat; repeat split; exact Hp.
Qed.

Section WithSurroundings.
Variable registry : list Rule.
Variable config : Config.
Variable regime_config : option (gmap string Q).
Variable render_daily_report :
  MarketSnapshot -> RegimeAssessment -> list TriggeredRule -> outcome string.

Lemma main_daily_stable :
  stable (MainDaily.main registry config regime_config render_daily_report).
Proof.
  unfold MainDaily.main.
  repeat first
    [ apply stable_say | apply stable_ret | apply stable_pure | apply stable_raise
    | apply stable_say_all | apply stable_fetch_market_snapshot
    | apply stable_get_vix_previous_close | apply stable_send_message_safe
    | apply stable_bind
    | match goal with
      | |- forall _ : _ * _, _ => intros [? ?]
      | |- forall _, _ => intros ?
      | |- stable (if ?b then _ else _) => destruct b
      end ].
Qed.

Lemma main_daily_posts :
  posts_at_most 2 (MainDaily.main registry config regime_config render_daily_report).
Proof.
  unfold MainDaily.main.
  apply (posts_at_most_bind 0 2); [apply posts_at_most_say|]. intros ?.
  apply (posts_at_most_bind 0 2); [apply fetch_market_snapshot_posts|]. intros snapshot.
  apply (posts_at_most_bind 0 2); [destruct (bool_decide _); count_posts|]. intros ?.
  apply (posts_at_most_bind 0 2); [apply posts_at_most_say|]. intros ?.
  apply (posts_at_most_bind 0 2); [apply posts_at_most_say|]. intros ?.
  apply (posts_at_most_bind 0 2); [apply get_vix_previous_close_posts|]. intros vix_prev.
  cbv zeta.
  apply (posts_at_most_bind 0 2); [apply posts_at_most_say|]. intros ?.
  apply (posts_at_most_bind 0 2); [apply say_all_posts|]. intros ?.
  apply (posts_at_most_bind 0 2); [apply posts_at_most_say|]. intros ?.
  apply (posts_at_most_bind 0 2); [apply posts_at_most_pure|]. intros [triggered errors].
  apply (posts_at_most_bind 0 2); [apply say_all_posts|]. intros ?.
  apply (posts_at_most_bind 0 2); [apply posts_at_most_say|]. intros ?.
  apply (posts_at_most_bind 0 2); [apply posts_at_most_say|]. intros ?.
  apply (posts_at_most_bind 0 2); [apply posts_at_most_pure|]. intros report.
  apply (posts_at_most_bind 0 2); [apply posts_at_most_say|]. intros ?.
  apply (posts_at_most_bind 2 0); [apply send_message_safe_posts|]. intros [|].
  - count_posts.
  - apply (posts_at_most_bind 0 0); [|intros ?; apply posts_at_most_say].
    count_posts.
Qed.

(** What the run answers when nothing can be delivered. *)
Lemma main_daily_undelivered :
  keeps_store (fun o => o <> Ok tt)
    (MainDaily.main registry config regime_config render_daily_report).
Proof.
  unfold MainDaily.main.
  assert (Hraise : forall e : exn, anything (Raise e : outcome unit) ->
                                   (Raise e : outcome unit) <> Ok tt) by discriminate.
  assert (Hstep : forall {A} (m : IO A) (f : A -> IO unit),
             keeps_store anything m ->
             (forall a, keeps_store (fun o => o <> Ok tt) (f a)) ->
             keeps_store (fun o => o <> Ok tt) (m ≫= f)).
  { intros A m f Hm Hf. apply (keeps_store_bind anything); [exact Hm|auto|discriminate]. }
  apply Hstep; [apply keeps_store_say|]. intros ?.
  apply Hstep.
  { unfold fetch_market_snapshot.
    apply keeps_store_then; [apply fetch_each_keeps_store|]. keep_store. }
  intros snapshot.
  apply Hstep; [destruct (bool_decide _); keep_store|]. intros ?.
  apply Hstep; [apply keeps_store_say|]. intros ?.
  apply Hstep; [apply keeps_store_say|]. intros ?.
  apply Hstep; [apply get_vix_previous_close_keeps_store|]. intros vix_prev.
  cbv zeta.
  apply Hstep; [apply keeps_store_say|]. intros ?.
  apply Hstep; [apply say_all_keeps_store|]. intros ?.
  apply Hstep; [apply keeps_store_say|]. intros ?.
  apply Hstep; [apply keeps_store_pure|]. intros [triggered errors].
  apply Hstep; [apply say_all_keeps_store|]. intros ?.
  apply Hstep; [apply keeps_store_say|]. intros ?.
  apply Hstep; [apply keeps_store_say|]. intros ?.
  apply Hstep; [apply keeps_store_pure|]. intros report.
  apply Hstep; [apply keeps_store_say|]. intros ?.
  apply (keeps_store_bind refused); [apply send_message_safe_refused| |discriminate].
  intros success Hrefused. injection Hrefused as ->.
  apply (keeps_store_bind (fun o : outcome unit => o <> Ok tt)); [| |auto].
  - intros p Hp. unfold outcome_of, process_after. rewrite bind_run. run_IO.
    split; [discriminate|]. split; [exact Hp|reflexivity].
  - intros [] H. contradiction.
Qed.

(** X30. The daily report ignores the cooldown store: a run leaves the
    state file as it was and posts at most two requests; and where nothing
    can be delivered the run does not return normally. *)
Theorem daily_report_ignores_cooldowns p :
  let run := MainDaily.main registry config regime_config render_daily_report in
  state_file (os (process_after run p)) = state_file (os p) /\
  (exists new, posted (process_after run p) = (posted p ++ new)%list /\
               (length new <= 2)%nat) /\
  (undeliverable p -> outcome_of run p <> Ok tt).
Proof.
  intros run. subst run. split; [|split].
  - apply main_daily_stable.
  - apply main_daily_posts.
  - intros Hp. apply (main_daily_undelivered p Hp).
Qed.

End WithSurroundings.
End MainDailyFacts.

(** ** The statements on the process, run on the samples *)

Module ProcessWitnesses.
Import Py Data Indicators Rules RulesSpec Regime Storage StorageSpec Iso8601 Samples.
Import Runtime Fetch Telegram MainAlerts RuntimeSpec TelegramSpec FetchSpec CooldownSpec.
Import ProcessSamples.
Import RulesFacts RuntimeFacts TelegramFacts FetchFacts MainFacts CooldownFacts MainDailyFacts.
#[local] Open Scope string_scope.


(** X24 on a text with no Markdown in it. *)
Lemma plain_text_strips_markdown_witness :
  plain_text "SPY at 52w low" = "SPY at 52w low".
Proof.
  destruct (plain_text_strips_markdown "SPY at 52w low") as (_ & _ & Hclean & _).
  apply Hclean. intros c Hc. cbn in Hc.
  repeat (destruct Hc as [<-|Hc]; [reflexivity|]). destruct Hc.
Defined.

(** X25 on a day when only the high-yield ETF answers. *)
Lemma fetch_market_snapshot_skips_failures_witness :
  exists snapshot p',
    fetch_market_snapshot hyg_day = (Ok snapshot, p') /\
    (exists hyg, get snapshot "HYG" = Some hyg /\ Data.symbol hyg = "HYG") /\
    get snapshot "SPY" = None.
Proof.
  destruct (fetch_market_snapshot_skips_failures hyg_day)
    as (snapshot & p' & Hrun & _ & _ & _ & Hget & Hkeys).
  exists snapshot, p'. split; [exact Hrun|]. split.
  - assert (Hhyg : is_Some (get snapshot "HYG")).
    { rewrite Hget. vm_compute. eauto. }
    destruct Hhyg as [hyg Hhyg]. exists hyg. split; [exact Hhyg|].
    apply (Hkeys "HYG" hyg Hhyg).
  - rewrite Hget. reflexivity.
Defined.

(** X26 on two sessions of the high-yield ETF. *)
Lemma fetched_drawdown_never_positive_witness :
  exists d drawdown,
    symbol_data_of "HYG" "High Yield Corp Bond ETF" hyg_two_sessions = Some d /\
    get_drawdown_from_high d = Some drawdown /\ (drawdown <= 0)%Q.
Proof.
  destruct (symbol_data_of "HYG" "High Yield Corp Bond ETF" hyg_two_sessions) as [d|] eqn:Hd;
    [|discriminate Hd].
  destruct (fetched_drawdown_never_positive "HYG" "High Yield Corp Bond ETF"
              hyg_two_sessions d) as (high & drawdown & _ & _ & Hdrawdown & Hle).
  - intros b [<-|[<-|[]]]; split; vm_compute; congruence.
  - exact Hd.
  - exists d, drawdown. auto.
Defined.

(** X27 on two sessions of the high-yield ETF. *)
Lemma short_history_is_silent_witness :
  exists d,
    symbol_data_of "HYG" "High Yield Corp Bond ETF" hyg_two_sessions = Some d /\
    get_5d_return d = None /\ is_below_200dma d = false.
Proof.
  destruct (symbol_data_of "HYG" "High Yield Corp Bond ETF" hyg_two_sessions) as [d|] eqn:Hd;
    [|discriminate Hd].
  destruct (short_history_is_silent "HYG" "High Yield Corp Bond ETF" hyg_two_sessions d Hd)
    as (_ & _ & _ & Hsma & H5d & _).
  exists d. split; [reflexivity|]. split; [apply H5d|apply Hsma]; cbn; lia.
Defined.

(** X21 on a process without credentials. *)
Lemma main_records_only_delivered_alerts_witness :
  state_file (os (process_after (main RULES default_config headline headlines) offline)) =
  Missing.
Proof.
  apply (main_records_only_delivered_alerts RULES default_config headline headlines offline).
  left. reflexivity.
Defined.

(** X28 on a process without network. *)
Lemma main_exits_without_data_witness :
  outcome_of (main RULES default_config headline headlines) offline =
  Raise (Exn "SystemExit" "1").
Proof.
  apply (main_exits_without_data RULES default_config headline headlines offline).
  intros sym. unfold fetched. destruct (tracked sym); reflexivity.
Defined.

(** X29 on the day of the high-yield sell-off: the credit alert is sent and
    recorded. *)
Lemma main_leaves_triggered_rules_in_cooldown_witness :
  in_cooldown_store (process_after (main RULES default_config headline headlines) hyg_day)
    "CREDIT_STRESS_INTRADAY".
Proof.
  assert (Hhyg : exists ctx,
             check (nth 0 RULES (drawdown_rule 0)) default_config hyg_day_snapshot ∅ =
             Ok (true, ctx)).
  { eexists. vm_compute. reflexivity. }
  destruct Hhyg as [ctx Hhyg].
  apply (main_leaves_triggered_rules_in_cooldown RULES default_config headline headlines
           hyg_day hyg_day_snapshot
           (contributions default_config hyg_day_snapshot RULES)
           (complaints default_config hyg_day_snapshot RULES)
           ltac:(repeat split; intros; reflexivity)
           ltac:(vm_compute; reflexivity)
           (evaluate_rules_spec RULES default_config hyg_day_snapshot)
           ltac:(vm_compute; reflexivity)
           {| rule := nth 0 RULES (drawdown_rule 0);
              value := ctx !! "value"; symbol := ctx !! "symbol";
              extra_context := ctx !! "extra" |}).
  apply in_contributions. exists (nth 0 RULES (drawdown_rule 0)), ctx.
  split; [left; reflexivity|]. split; [exact Hhyg|reflexivity].
Defined.

(** X30 on a process without credentials. *)
Lemma daily_report_ignores_cooldowns_witness :
  let run := MainDaily.main RULES default_config None one_line_report in
  state_file (os (process_after run offline)) = Missing /\
  exists e, outcome_of run offline = Raise e.
Proof.
  destruct (daily_report_ignores_cooldowns RULES default_config None one_line_report offline)
    as (Hfile & _ & Hfails).
  split; [exact Hfile|].
  specialize (Hfails (or_introl eq_refl)).
  destruct (outcome_of (MainDaily.main RULES default_config None one_line_report) offline)
    as [[]|e]; [contradiction|eauto].
Defined.

End ProcessWitnesses.
